(** * Santa API: personalization engine, call orchestrator and analytics

    A shallow embedding of [main.py].  Python objects live in an explicit
    store so that the aliasing created by [dict.copy] is visible; the
    functions that only read take the store as an argument, the one that
    allocates ([load_conversation_arc]) threads it. *)

From Stdlib Require Import ZArith QArith Qabs Qpower Qround Lqa.
From Stdlib Require Import String Ascii List.
From stdpp Require Import base option list strings pretty gmap fin_maps.

Local Open Scope string_scope.
Local Open Scope list_scope.

(** ** Exceptions and the error monad *)

(** The exceptions the modelled code can raise.  [Dangling] and
    [Unsupported] have no Python counterpart: the first marks a reference
    with no object behind it (impossible for a store built by the
    interpreter), the second what this embedding does not interpret: a
    construct of [str.format] outside bare names, a title case outside
    the characters of the model, a loop over the keys of a dictionary. *)
Inductive exn : Type :=
  | KeyError
  | IndexError
  | TypeError
  | AttributeError
  | ValueError
  | OverflowError
  | ZeroDivisionError
  | JSONDecodeError
  | ValidationError
  | RequestValidationError
  | HTTPException (status_code : Z) (detail : string)
  | Dangling
  | Unsupported.

Inductive result (A : Type) : Type :=
  | Ok (a : A)
  | Raise (e : exn).
Arguments Ok {A} a.
Arguments Raise {A} e.

Global Instance result_ret : MRet result := λ A a, Ok a.
Global Instance result_bind : MBind result := λ A B f m,
  match m with
  | Ok a => f a
  | Raise e => Raise e
  end.
Global Instance result_fmap : FMap result := λ A B f m,
  match m with
  | Ok a => Ok (f a)
  | Raise e => Raise e
  end.

(** ** Python values and the object store *)

Definition loc := positive.
Bind Scope positive_scope with loc.

(** A float is represented by its exact value, a reduced fraction. *)
Definition float := Q.

Inductive val : Type :=
  | VNone
  | VBool (b : bool)
  | VInt (n : Z)
  | VFloat (x : float)
  | VStr (s : string)
  | VRef (l : loc).

(** Containers are the two that [yaml.safe_load] builds; dictionary keys
    are strings, as every key the program uses is. *)
Inductive obj : Type :=
  | ODict (d : gmap string val)
  | OList (xs : list val).

Global Instance Q_eq_dec : EqDecision Q.
Proof. solve_decision. Defined.
Global Instance val_eq_dec : EqDecision val.
Proof. solve_decision. Defined.

Abbreviation heap := (gmap loc obj).

(** [x[key]] for a string [key]. *)
Definition py_getitem (h : heap) (x : val) (key : string) : result val :=
  match x with
  | VRef l =>
      match h !! l with
      | Some (ODict d) =>
          match d !! key with
          | Some v => Ok v
          | None => Raise KeyError
          end
      | Some (OList _) => Raise TypeError
      | None => Raise Dangling
      end
  | _ => Raise TypeError
  end.

(** [key in x] for a string [key]. *)
Definition py_contains (h : heap) (x : val) (key : string) : result bool :=
  match x with
  | VRef l =>
      match h !! l with
      | Some (ODict d) => Ok (bool_decide (is_Some (d !! key)))
      | Some (OList xs) => Ok (bool_decide (VStr key ∈ xs))
      | None => Raise Dangling
      end
  | VStr s => Ok (if String.index 0 key s is Some _ then true else false)
  | _ => Raise TypeError
  end.

(** The characters of a string, each as a one-character string. *)
Fixpoint chars (s : string) : list val :=
  match s with
  | EmptyString => []
  | String c s' => VStr (String c EmptyString) :: chars s'
  end.

(** The elements [for v in x] visits: the items of a list, the
    characters of a string.  The keys of a dictionary come in the order
    of insertion, which the store does not keep: that loop is not
    interpreted. *)
Definition py_iter (h : heap) (x : val) : result (list val) :=
  match x with
  | VRef l =>
      match h !! l with
      | Some (ODict d) => Raise Unsupported
      | Some (OList xs) => Ok xs
      | None => Raise Dangling
      end
  | VStr s => Ok (chars s)
  | _ => Raise TypeError
  end.

(** [len(x)]. *)
Definition py_len (h : heap) (x : val) : result nat :=
  match x with
  | VRef l =>
      match h !! l with
      | Some (ODict d) => Ok (size d)
      | Some (OList xs) => Ok (length xs)
      | None => Raise Dangling
      end
  | VStr s => Ok (String.length s)
  | _ => Raise TypeError
  end.

(** [x[i]] for an index [i] that is not negative. *)
Definition py_getitem_int (h : heap) (x : val) (i : nat) : result val :=
  match x with
  | VRef l =>
      match h !! l with
      | Some (ODict _) => Raise KeyError
      | Some (OList xs) =>
          match xs !! i with
          | Some v => Ok v
          | None => Raise IndexError
          end
      | None => Raise Dangling
      end
  | VStr s =>
      match String.get i s with
      | Some c => Ok (VStr (String c EmptyString))
      | None => Raise IndexError
      end
  | _ => Raise TypeError
  end.

(** [random.choice(seq)]; [draw] is what the random source yields, reduced
    below the length as [_randbelow] does. *)
Definition random_choice (h : heap) (draw : nat) (seq : val) : result val :=
  n ← py_len h seq;
  if (n =? 0)%nat then Raise IndexError
  else py_getitem_int h seq (draw mod n).

(** ** Store-passing computations *)

Definition M (A : Type) : Type := heap → result A * heap.

Definition M_ret {A} (a : A) : M A := λ h, (Ok a, h).
Definition M_bind {A B} (m : M A) (f : A → M B) : M B := λ h,
  match m h with
  | (Ok a, h') => f a h'
  | (Raise e, h') => (Raise e, h')
  end.
(** A read of the store. *)
Definition M_read {A} (f : heap → result A) : M A := λ h, (f h, h).

Declare Scope M_scope.
Delimit Scope M_scope with M.
Notation "x ←' m ; k" := (M_bind m (λ x, k))
  (at level 20, m at level 100, k at level 200, only parsing) : M_scope.

(** [x.copy()]: a new object with the same top-level entries. *)
Definition py_copy (x : val) : M val := λ h,
  match x with
  | VRef l =>
      match h !! l with
      | Some o => let l' := fresh (dom h) in (Ok (VRef l'), <[l' := o]> h)
      | None => (Raise Dangling, h)
      end
  | _ => (Raise AttributeError, h)
  end.

(** [x[key] = v] for a string [key]. *)
Definition py_setitem (x : val) (key : string) (v : val) : M unit := λ h,
  match x with
  | VRef l =>
      match h !! l with
      | Some (ODict d) => (Ok (), <[l := ODict (<[key := v]> d)]> h)
      | Some (OList _) => (Raise TypeError, h)
      | None => (Raise Dangling, h)
      end
  | _ => (Raise TypeError, h)
  end.

(** ** Strings

    A [str] is a [string], one [ascii] for each character: the characters
    are the 256 of that type, and [len] is [String.length]. *)

Definition nl : string := String "010" EmptyString.
Definition dquote : string := String "034" EmptyString.

(** Lines of text, each one ended by a newline. *)
Fixpoint text (ls : list string) : string :=
  match ls with
  | [] => EmptyString
  | l :: ls' => l +:+ nl +:+ text ls'
  end.

(** [sep.join(items)]. *)
Fixpoint join (sep : string) (items : list string) : string :=
  match items with
  | [] => EmptyString
  | [x] => x
  | x :: rest => x +:+ sep +:+ join sep rest
  end.

(** [needle in s], as a proposition. *)
Definition substring (needle s : string) : Prop :=
  ∃ before after, s = before +:+ needle +:+ after.

(** [s.replace(old, new)] for one-character [old] and [new]. *)
Fixpoint replace_char (old new : ascii) (s : string) : string :=
  match s with
  | EmptyString => EmptyString
  | String c s' =>
      String (if Ascii.eqb c old then new else c) (replace_char old new s')
  end.

(** *** [str.title]

    The characters are the code points below 256, with the case they
    have in Unicode: the letters of ASCII and of Latin-1, and the three
    signs 170, 181 and 186, which are lowercase without an uppercase of
    their own in this range. *)
Definition in_range (first last : nat) (c : ascii) : bool :=
  (first <=? nat_of_ascii c)%nat && (nat_of_ascii c <=? last)%nat.

(** [c.isupper()] and [c.islower()]. *)
Definition is_upper (c : ascii) : bool :=
  in_range 65 90 c || in_range 192 214 c || in_range 216 222 c.
Definition is_lower (c : ascii) : bool :=
  in_range 97 122 c || in_range 170 170 c || in_range 181 181 c
  || in_range 186 186 c || in_range 223 246 c || in_range 248 255 c.

(** [c.lower()]. *)
Definition to_lower (c : ascii) : ascii :=
  if is_upper c then ascii_of_nat (nat_of_ascii c + 32) else c.

(** [c.title()], when it is one character below 256: the title case of
    181 and of 255 lies above 255, and that of 223 is two characters. *)
Definition to_title (c : ascii) : option ascii :=
  if in_range 97 122 c || in_range 224 246 c || in_range 248 254 c
  then Some (ascii_of_nat (nat_of_ascii c - 32))
  else if in_range 181 181 c || in_range 223 223 c || in_range 255 255 c
  then None
  else Some c.

(** [s.title()]: a character that follows a cased one is lowered, any
    other is put in title case; [None] when a title case leaves the
    characters of the model. *)
Fixpoint title_go (previous_is_cased : bool) (s : string) : option string :=
  match s with
  | EmptyString => Some EmptyString
  | String c s' =>
      c' ← (if previous_is_cased then Some (to_lower c) else to_title c);
      rest ← title_go (is_upper c || is_lower c) s';
      Some (String c' rest)
  end.
Definition title (s : string) : option string := title_go false s.

(** *** [str.format] with keyword arguments

    The fragment interpreted: literal text, the escapes for the two
    braces, and replacement fields that are a bare name.  A conversion, a
    format specification, an attribute or an index in a field is
    [Unsupported]. *)

Definition is_digit (c : ascii) : bool :=
  (48 <=? nat_of_ascii c)%nat && (nat_of_ascii c <=? 57)%nat.
Fixpoint all_digits (s : string) : bool :=
  match s with
  | EmptyString => true
  | String c s' => is_digit c && all_digits s'
  end.

(** The value of the field [name]: a keyword argument; an empty or
    numeric name is a positional argument, of which there is none. *)
Definition format_field (kwargs : gmap string string) (name : string)
  : result string :=
  match kwargs !! name with
  | Some v => Ok v
  | None => if all_digits name then Raise IndexError else Raise KeyError
  end.

Definition field_special (c : ascii) : bool :=
  Ascii.eqb c "!" || Ascii.eqb c ":" || Ascii.eqb c "." || Ascii.eqb c "[".

(** One pass over the template, left to right; [field] is the name read
    so far when inside a replacement field. *)
Fixpoint format_go (kwargs : gmap string string) (field : option string)
    (s : string) : result string :=
  match s with
  | EmptyString =>
      match field with
      | None => Ok EmptyString
      | Some _ => Raise ValueError
      end
  | String c rest =>
      match field with
      | None =>
          if Ascii.eqb c "{" then
            match rest with
            | String "{" rest' => String "{" <$> format_go kwargs None rest'
            | _ => format_go kwargs (Some EmptyString) rest
            end
          else if Ascii.eqb c "}" then
            match rest with
            | String "}" rest' => String "}" <$> format_go kwargs None rest'
            | _ => Raise ValueError
            end
          else String c <$> format_go kwargs None rest
      | Some name =>
          if Ascii.eqb c "}" then
            v ← format_field kwargs name;
            (λ out, v +:+ out) <$> format_go kwargs None rest
          else if Ascii.eqb c "{" then Raise ValueError
          else if field_special c then Raise Unsupported
          else format_go kwargs (Some (name +:+ String c EmptyString)) rest
      end
  end.

Definition py_format (template : string) (kwargs : gmap string string)
  : result string :=
  format_go kwargs None template.

(** *** Templates as text with holes

    The same grammar read as data: a template is a sequence of literal
    characters and named holes, and substituting fills each hole with the
    value of its name. *)

Inductive segment : Type :=
  | Lit (c : ascii)
  | Field (name : string).

Global Instance segment_eq_dec : EqDecision segment.
Proof. solve_decision. Defined.

(** The segments of a template; [None] when it is not in the fragment. *)
Fixpoint segments_go (field : option string) (s : string)
  : option (list segment) :=
  match s with
  | EmptyString =>
      match field with
      | None => Some []
      | Some _ => None
      end
  | String c rest =>
      match field with
      | None =>
          if Ascii.eqb c "{" then
            match rest with
            | String "{" rest' => cons (Lit "{") <$> segments_go None rest'
            | _ => segments_go (Some EmptyString) rest
            end
          else if Ascii.eqb c "}" then
            match rest with
            | String "}" rest' => cons (Lit "}") <$> segments_go None rest'
            | _ => None
            end
          else cons (Lit c) <$> segments_go None rest
      | Some name =>
          if Ascii.eqb c "}" then cons (Field name) <$> segments_go None rest
          else if Ascii.eqb c "{" then None
          else if field_special c then None
          else segments_go (Some (name +:+ String c EmptyString)) rest
      end
  end.
Definition template_segments (template : string) : option (list segment) :=
  segments_go None template.

(** The text with every hole filled from [kwargs]; [None] when a hole has
    no value. *)
Fixpoint fill (kwargs : gmap string string) (segs : list segment)
  : option string :=
  match segs with
  | [] => Some EmptyString
  | Lit c :: rest => String c <$> fill kwargs rest
  | Field name :: rest =>
      v ← kwargs !! name;
      String.append v <$> fill kwargs rest
  end.

(** A template with the name placeholder: a string in the fragment that
    has the hole [child_name]. *)
Definition has_name_placeholder (v : val) : bool :=
  match v with
  | VStr t =>
      match template_segments t with
      | Some segs => bool_decide (Field "child_name" ∈ segs)
      | None => false
      end
  | _ => false
  end.

(** A template all of whose holes [generate_greeting] fills: it has no
    hole but [child_name] and [child]. *)
Definition has_known_fields (v : val) : bool :=
  match v with
  | VStr t =>
      match template_segments t with
      | Some segs =>
          forallb (λ seg, match seg with
                          | Lit _ => true
                          | Field name =>
                              bool_decide (name ∈ ["child_name"; "child"])
                          end) segs
      | None => false
      end
  | _ => false
  end.

(** ** Helper functions of [main.py] *)

Section Personalization.

(** The module-level [CONVERSATION_ARCS], the value [yaml.safe_load]
    returned at start-up. *)
Variable CONVERSATION_ARCS : val.

(** The key of [age_adaptations] chosen by the [if]/[elif]/[else] of
    [load_conversation_arc]. *)
Definition load_conversation_arc_band (age : Z) : string :=
  if (age <=? 4)%Z then "ages_2_4"
  else if (age <=? 8)%Z then "ages_5_8"
  else "ages_9_12".

Definition load_conversation_arc (duration : string) (age : Z) : M val :=
  (arcs ←' M_read (λ h, py_getitem h CONVERSATION_ARCS "arcs");
   entry ←' M_read (λ h, py_getitem h arcs duration);
   arc_data ←' py_copy entry;
   adaptations ←' M_read (λ h, py_getitem h CONVERSATION_ARCS "age_adaptations");
   adaptation ←' M_read (λ h, py_getitem h adaptations (load_conversation_arc_band age));
   _ ←' py_setitem arc_data "age_adaptation" adaptation;
   guidelines ←' M_read (λ h, py_getitem h CONVERSATION_ARCS "timing_guidelines");
   timing ←' M_read (λ h, py_getitem h guidelines duration);
   _ ←' py_setitem arc_data "timing" timing;
   M_ret arc_data)%M.

(** The key of [greeting_templates] chosen by [generate_greeting]. *)
Definition generate_greeting_band (child_age : Z) : string :=
  if (child_age <=? 4)%Z then "ages_2_4"
  else if (child_age <=? 8)%Z then "ages_5_8"
  else "ages_9_12".

(** [template.format(child_name=..., child=...)]; only a string has the
    method. *)
Definition str_format (template : val) (kwargs : gmap string string)
  : result string :=
  match template with
  | VStr t => py_format t kwargs
  | _ => Raise AttributeError
  end.

(** The keyword arguments of the call of [format]. *)
Definition greeting_kwargs (child_name child : string) : gmap string string :=
  <["child_name" := child_name]> (<["child" := child]> ∅).

Definition generate_greeting (h : heap) (draw : nat)
    (child_name : string) (child_age : Z) : result string :=
  greeting_templates ← py_getitem h CONVERSATION_ARCS "greeting_templates";
  templates ← py_getitem h greeting_templates (generate_greeting_band child_age);
  template ← random_choice h draw templates;
  let child_term := "child" in
  str_format template (greeting_kwargs child_name child_term).

(** *** The system prompt *)

(** How a float and a container print inside an f-string is left open:
    the prompt's structure does not depend on it. *)
Variable float_repr : float → string.
Variable container_repr : heap → loc → string.

(** [str(v)], what [{v}] expands to in an f-string. *)
Definition py_str (h : heap) (v : val) : string :=
  match v with
  | VNone => "None"
  | VBool true => "True"
  | VBool false => "False"
  | VInt n => pretty n
  | VFloat x => float_repr x
  | VStr s => s
  | VRef l => container_repr h l
  end.

(** [chr(10).join([f'  - {x}' for x in items])]. *)
Definition bullets (h : heap) (items : list val) : string :=
  join nl ((λ x, "  - " +:+ py_str h x) <$> items).

(** [name.replace('_', ' ').title()]; only a string has the methods. *)
Definition humanize (name : val) : result string :=
  match name with
  | VStr s =>
      from_option Ok (Raise Unsupported) (title (replace_char "_" " " s))
  | _ => Raise AttributeError
  end.

(** The text one turn of the loop over the phases appends. *)
Definition phase_block (h : heap) (i : Z) (phase : val) : result string :=
  name ← py_getitem h phase "name";
  name ← humanize name;
  duration_seconds ← py_getitem h phase "duration_seconds";
  percentage ← py_getitem h phase "percentage";
  goals ← py_getitem h phase "goals";
  goals ← py_iter h goals;
  santa_guidelines ← py_getitem h phase "santa_guidelines";
  santa_guidelines ← py_iter h santa_guidelines;
  let block :=
    nl +:+ text [
      "Phase " +:+ pretty i +:+ ": " +:+ name +:+ " (" +:+
        py_str h duration_seconds +:+ "s - " +:+ py_str h percentage +:+ "%)";
      "Goals:";
      bullets h goals;
      EmptyString;
      "Guidelines:";
      bullets h santa_guidelines ] in
  has_questions ← py_contains h phase "suggested_questions";
  if has_questions : bool then
    suggested_questions ← py_getitem h phase "suggested_questions";
    suggested_questions ← py_iter h suggested_questions;
    Ok (block +:+ nl +:+ "Suggested Questions:" +:+ nl +:+
        bullets h suggested_questions +:+ nl)
  else Ok block.

(** [for i, phase in enumerate(phases, i): prompt += ...]. *)
Fixpoint phases_loop (h : heap) (i : Z) (phases : list val) (prompt : string)
  : result string :=
  match phases with
  | [] => Ok prompt
  | phase :: rest =>
      block ← phase_block h i phase;
      phases_loop h (i + 1) rest (prompt +:+ block)
  end.

(** The lines of the last f-string that quote the age adaptation. *)
Definition age_adaptation_text (child_age : Z)
    (response_length sentence_complexity energy attention_span : string)
  : string :=
  text [
    "AGE-SPECIFIC ADAPTATIONS (Age " +:+ pretty child_age +:+ "):";
    "- Response Length: " +:+ response_length;
    "- Sentence Complexity: " +:+ sentence_complexity;
    "- Energy Level: " +:+ energy;
    "- Attention Span: " +:+ attention_span ].

Definition age_adaptation_block (h : heap) (child_age : Z) (arc : val)
  : result string :=
  age_adaptation ← py_getitem h arc "age_adaptation";
  response_length ← py_getitem h age_adaptation "response_length";
  age_adaptation ← py_getitem h arc "age_adaptation";
  sentence_complexity ← py_getitem h age_adaptation "sentence_complexity";
  age_adaptation ← py_getitem h arc "age_adaptation";
  energy ← py_getitem h age_adaptation "energy";
  age_adaptation ← py_getitem h arc "age_adaptation";
  attention_span ← py_getitem h age_adaptation "attention_span";
  Ok (age_adaptation_text child_age
        (py_str h response_length) (py_str h sentence_complexity)
        (py_str h energy) (py_str h attention_span)).

(** The lines of the last f-string that quote the timing guideline. *)
Definition timing_text (average maximum pause : string) : string :=
  text [
    "TIMING GUIDELINES:";
    "- Average response: " +:+ average +:+ " seconds";
    "- Max response: " +:+ maximum +:+ " seconds";
    "- Pause between responses: " +:+ pause +:+ " seconds" ].

Definition timing_block (h : heap) (arc : val) : result string :=
  timing ← py_getitem h arc "timing";
  average ← py_getitem h timing "average_response_length_seconds";
  timing ← py_getitem h arc "timing";
  maximum ← py_getitem h timing "max_response_length_seconds";
  timing ← py_getitem h arc "timing";
  pause ← py_getitem h timing "pause_between_responses_seconds";
  Ok (timing_text (py_str h average) (py_str h maximum) (py_str h pause)).

Definition conversation_rules (child_name : string) : string :=
  text [
    "CONVERSATION RULES:";
    "1. Use " +:+ child_name +:+ "'s name naturally 2-3 times per minute";
    "2. Keep responses within time limits for your age group";
    "3. Listen actively - reference what the child says";
    "4. Never promise specific gifts - use " +:+ dquote +:+
      "I'll see what I can do" +:+ dquote +:+ " or " +:+ dquote +:+
      "I'll talk to my elves" +:+ dquote;
    "5. Stay in character as Santa Claus at all times";
    "6. If child shows objects, acknowledge and comment on them";
    "7. Keep the magic of Christmas alive";
    "8. Be warm, encouraging, and kind";
    "9. Follow the phase structure but allow natural conversation flow";
    "10. If running long, gracefully transition to closing phase" ].

Definition quality_indicators (child_name : string) : string :=
  text [
    "QUALITY INDICATORS:";
    "- Child is engaged and responding";
    "- Conversation feels natural, not scripted";
    "- Child seems comfortable and happy";
    "- Name usage feels natural, not forced";
    "- Transitions between phases are smooth";
    EmptyString;
    "Remember: You are Santa Claus. Be magical, kind, and create a memorable experience for "
      +:+ child_name +:+ "!" ].

(** The first f-string, up to the greeting and after it. *)
Definition header_text (child_name : string) (child_age : Z)
    (duration total_duration_seconds language_level : string) : string :=
  nl +:+ text [
    "PERSONALIZED CONVERSATION CONTEXT:";
    EmptyString;
    "Child Information:";
    "- Name: " +:+ child_name;
    "- Age: " +:+ pretty child_age +:+ " years old";
    "- Call Duration: " +:+ duration +:+ " (" +:+
      total_duration_seconds +:+ " seconds)";
    "- Language Level: " +:+ language_level;
    EmptyString;
    "MANDATORY GREETING:" ] +:+
  "Start the conversation with: " +:+ dquote.

Definition prompt_header (h : heap) (child_name : string) (child_age : Z)
    (duration : string) (arc : val) : result string :=
  total_duration_seconds ← py_getitem h arc "total_duration_seconds";
  age_adaptation ← py_getitem h arc "age_adaptation";
  language_level ← py_getitem h age_adaptation "language_level";
  Ok (header_text child_name child_age duration
        (py_str h total_duration_seconds) (py_str h language_level)).

Definition structure_text (duration : string) (phases : nat) : string :=
  dquote +:+ nl +:+ text [
    EmptyString;
    "CONVERSATION STRUCTURE:";
    "You must follow this " +:+ duration +:+ " arc with " +:+
      pretty phases +:+ " phases:";
    EmptyString ].

Definition prompt_structure (h : heap) (duration : string) (arc : val)
  : result string :=
  phases ← py_getitem h arc "phases";
  n ← py_len h phases;
  Ok (structure_text duration n).

Definition create_system_prompt (h : heap) (child_name : string)
    (child_age : Z) (duration greeting : string) (arc : val) : result string :=
  header ← prompt_header h child_name child_age duration arc;
  structure ← prompt_structure h duration arc;
  let prompt := header +:+ greeting +:+ structure in
  phases ← py_getitem h arc "phases";
  phases ← py_iter h phases;
  prompt ← phases_loop h 1 phases prompt;
  adaptations ← age_adaptation_block h child_age arc;
  timing ← timing_block h arc;
  Ok (prompt +:+ nl +:+ nl +:+ adaptations +:+ nl +:+ timing +:+ nl +:+
      conversation_rules child_name +:+ nl +:+ quality_indicators child_name).

End Personalization.

(** ** Floats

    A float is a binary64 number, held as its exact value.  An operation
    computes the exact result and rounds it to the nearest binary64
    number, ties to even; the sign of zero, infinities and NaN are not
    represented. *)

Module PyFloat.

(** The integer nearest to [n / d], ties to even, for [0 < d]. *)
Definition round_half_even (n d : Z) : Z :=
  let q := (n / d)%Z in
  let r := (n mod d)%Z in
  match (2 * r ?= d)%Z with
  | Lt => q
  | Gt => (q + 1)%Z
  | Eq => if Z.even q then q else (q + 1)%Z
  end.

(** [floor (log2 (a / d))] for [0 < a] and [0 < d]. *)
Definition floor_log2 (a d : Z) : Z :=
  let e := (Z.log2 a - Z.log2 d)%Z in
  let below :=
    if (0 <=? e)%Z then (a <? d * 2 ^ e)%Z else (a * 2 ^ (- e) <? d)%Z in
  if below then (e - 1)%Z else e.

(** The exponent of the last binary digit kept around [a / d]: 53
    significant digits, and no digit below [2 ^ -1074]. *)
Definition last_digit (a d : Z) : Z := Z.max (floor_log2 a d - 52) (-1074).

(** The binary64 number nearest to [x], were the exponent unbounded
    above. *)
Definition nearest (x : Q) : float :=
  let n := Qnum x in
  let d := Zpos (Qden x) in
  if (n =? 0)%Z then 0%Q
  else
    let a := Z.abs n in
    let e := last_digit a d in
    let m :=
      if (0 <=? e)%Z then round_half_even a (d * 2 ^ e)
      else round_half_even (a * 2 ^ (- e)) d in
    Qred (inject_Z (Z.sgn n * m) * Qpower (2 # 1) e).

Definition too_large (x : float) : bool :=
  if Qle_bool (Qpower (2 # 1) 1024) (Qabs x) then true else false.

(** [a / b] on integers: the quotient, rounded once. *)
Definition int_truediv (a b : Z) : result float :=
  match b with
  | Z0 => Raise ZeroDivisionError
  | Zpos p => let r := nearest (a # p) in
              if too_large r then Raise OverflowError else Ok r
  | Zneg p => let r := nearest (- a # p) in
              if too_large r then Raise OverflowError else Ok r
  end.

(** [round(x, ndigits)] for [0 <= ndigits]: the decimal with [ndigits]
    places nearest to [x], ties to even, then the float nearest to that
    decimal. *)
Definition round (x : float) (ndigits : Z) : float :=
  let p := (10 ^ ndigits)%Z in
  let k := round_half_even (Qnum x * p) (Zpos (Qden x)) in
  nearest (Qmake k (Z.to_pos p)).

End PyFloat.

(** ** Request models *)

Record StartCallRequest : Type := {
  child_name : string;
  child_age : Z;
  call_duration : string;
  parent_email : option string
}.

(** The [validate_duration] validator. *)
Definition validate_duration (v : string) : result string :=
  if bool_decide (v ∈ ["5min"; "10min"]) then Ok v else Raise ValueError.

(** What the framework does with the body of a request before the
    endpoint runs: the constraints of the [Field]s and the validator; a
    body that fails any of them is answered with
    [RequestValidationError]. *)
Definition StartCallRequest_validate (body : StartCallRequest)
  : result StartCallRequest :=
  if negb ((1 <=? String.length (child_name body))%nat
           && (String.length (child_name body) <=? 50)%nat) then
    Raise RequestValidationError
  else if negb ((2 <=? child_age body)%Z && (child_age body <=? 12)%Z) then
    Raise RequestValidationError
  else
    match validate_duration (call_duration body) with
    | Ok _ => Ok body
    | Raise _ => Raise RequestValidationError
    end.

Record CallCompletionRequest : Type := {
  conversation_id : string;
  actual_duration_seconds : Z;
  parent_rating : option Z;
  parent_feedback : option string;
  child_enjoyed : option bool
}.

(** ** The provider *)

(** A JSON value as [response.json()] gives it. *)
#[warnings="-register-all"]
Inductive json_value : Type :=
  | JNull
  | JBool (b : bool)
  | JInt (n : Z)
  | JFloat (x : float)
  | JString (s : string)
  | JArray (items : list json_value)
  | JObject (fields : gmap string json_value).

(** [data[key]] for a string [key]: only an object is indexed by a
    string. *)
Definition json_getitem (data : json_value) (key : string)
  : result json_value :=
  match data with
  | JObject fields => from_option Ok (Raise KeyError) (fields !! key)
  | _ => Raise TypeError
  end.

(** [data.get(key, default)]; only an object has the method. *)
Definition json_get (data : json_value) (key : string)
    (default_value : json_value) : result json_value :=
  match data with
  | JObject fields => Ok (default default_value (fields !! key))
  | _ => Raise AttributeError
  end.

(** The validation of a [str] field of a [BaseModel], as pydantic 2 does
    it: a string passes, and any other value, [None] and a number
    included, is a [ValidationError]. *)
Definition str_field (v : json_value) : result string :=
  match v with
  | JString s => Ok s
  | _ => Raise ValidationError
  end.

Record TavusRequest : Type := {
  persona_id : string;
  conversation_name : string;
  conversational_context : string;
  max_call_duration : Z;
  enable_recording : bool;
  participant_left_timeout : Z;
  custom_metadata : StartCallRequest
}.

(** One [client.post]. *)
Record Post : Type := {
  url : string;
  x_api_key : string;
  json : TavusRequest;
  timeout : Z
}.

(** How one [client.post] ends.  [body] is what [response.json()] gives,
    [None] when the text is not JSON. *)
Inductive reply : Type :=
  | TimeoutException
  | RequestError (message : string)
  | Response (status_code : Z) (text : string) (body : option json_value).

Definition TAVUS_BASE_URL : string := "https://tavusapi.com/v2".

(** ** Analytics events *)

(** A point in time, in microseconds; a date is a number of days. *)
Definition datetime := Z.
Bind Scope Z_scope with datetime.
Definition date (t : datetime) : Z := (t / 86400000000)%Z.
Definition timedelta_seconds (s : Z) : Z := (s * 1000000)%Z.

(** The dictionary handed to [track_call_started]; the conversation id is
    the value the provider gave. *)
Record CallData : Type := {
  cd_conversation_id : json_value;
  cd_child_age : Z;
  cd_call_duration : string;
  cd_parent_email : option string
}.

(** The two shapes of dictionary the store holds, told apart by their
    ['event'] entry.  The timestamp is kept as the time itself, not its
    ISO text. *)
Inductive event : Type :=
  | call_started (timestamp : datetime) (data : CallData)
  | call_completed (timestamp : datetime) (data : CallCompletionRequest).

Definition track_call_started (utcnow : datetime) (call_data : CallData)
    (analytics_store : list event) : list event :=
  analytics_store ++ [call_started utcnow call_data].

Definition track_call_completed (utcnow : datetime)
    (completion_data : CallCompletionRequest) (analytics_store : list event)
  : list event :=
  analytics_store ++ [call_completed utcnow completion_data].

(** ** The endpoints *)

Record CallMetadata : Type := {
  md_child_name : string;
  md_child_age : Z;
  md_call_duration : string;
  md_greeting : string;
  md_arc_name : val;
  md_phases : nat
}.

Record StartCallResponse : Type := {
  r_conversation_id : string;
  r_conversation_url : string;
  r_expires_at : string;
  r_call_metadata : CallMetadata;
  r_estimated_end_time : string
}.

(** What one run of an endpoint leaves behind: what it returned or
    raised, the requests it sent to the provider in order, the object
    store, and the tasks it handed to [background_tasks]. *)
Record run (A : Type) : Type := {
  returned : result A;
  posts : list Post;
  objects : heap;
  added_tasks : list CallData
}.
Arguments returned {A} _.
Arguments posts {A} _.
Arguments objects {A} _.
Arguments added_tasks {A} _.

Definition halt {A} (e : exn) (h : heap) (sent : list Post) : run A :=
  {| returned := Raise e; posts := sent; objects := h; added_tasks := [] |}.

(** The status an exception that leaves an endpoint carries: the one
    given to an [HTTPException], 422 for a validation error (the default
    of the framework), 500 for any other. *)
Definition status_of (e : exn) : Z :=
  match e with
  | RequestValidationError => 422
  | HTTPException status_code _ => status_code
  | _ => 500
  end.

(** [bool(x)] for an environment variable. *)
Definition is_set (x : option string) : bool :=
  match x with
  | Some (String _ _) => true
  | _ => false
  end.

Section Service.

Variable TAVUS_API_KEY TAVUS_PERSONA_ID : option string.
Variable CONVERSATION_ARCS : val.
Variable float_repr : float → string.
Variable container_repr : heap → loc → string.
Variable isoformat : datetime → string.

Definition credentials_error : exn :=
  HTTPException 500
    "Tavus API credentials not configured. Please set TAVUS_API_KEY and TAVUS_PERSONA_ID environment variables.".

Definition tavus_request_of (request : StartCallRequest)
    (system_prompt : string) : Post :=
  let max_duration :=
    if String.eqb (call_duration request) "5min" then 300%Z else 600%Z in
  {| url := TAVUS_BASE_URL +:+ "/conversations";
     x_api_key := default EmptyString TAVUS_API_KEY;
     json :=
       {| persona_id := default EmptyString TAVUS_PERSONA_ID;
          conversation_name := "Santa call with " +:+ child_name request;
          conversational_context := system_prompt;
          max_call_duration := max_duration;
          enable_recording := false;
          participant_left_timeout := 60;
          custom_metadata := request |};
     timeout := 30 |}.

(** The part of [start_santa_call] after the provider answered 200 with
    JSON: the arguments of [StartCallResponse] are evaluated in order, the
    model validates its three [str] fields that come from the provider,
    and the dictionary for the analytics task is built. *)
Definition start_call_response (h : heap) (utcnow : datetime)
    (request : StartCallRequest) (greeting : string) (conversation_arc : val)
    (tavus_data : json_value) : result (StartCallResponse * CallData) :=
  let max_duration :=
    if String.eqb (call_duration request) "5min" then 300%Z else 600%Z in
  let estimated_end := (utcnow + timedelta_seconds max_duration)%Z in
  id ← json_getitem tavus_data "conversation_id";
  conversation_url ← json_getitem tavus_data "conversation_url";
  expires_at ←
    json_get tavus_data "expires_at" (JString (isoformat estimated_end));
  arc_name ← py_getitem h conversation_arc "name";
  phases ← py_getitem h conversation_arc "phases";
  phases ← py_len h phases;
  id ← str_field id;
  conversation_url ← str_field conversation_url;
  expires_at ← str_field expires_at;
  id' ← json_getitem tavus_data "conversation_id";
  Ok ({| r_conversation_id := id;
         r_conversation_url := conversation_url;
         r_expires_at := expires_at;
         r_call_metadata :=
           {| md_child_name := child_name request;
              md_child_age := child_age request;
              md_call_duration := call_duration request;
              md_greeting := greeting;
              md_arc_name := arc_name;
              md_phases := phases |};
         r_estimated_end_time := isoformat estimated_end |},
      {| cd_conversation_id := id';
         cd_child_age := child_age request;
         cd_call_duration := call_duration request;
         cd_parent_email := parent_email request |}).

(** [draw] is the random source's next value, [utcnow] the clock, and
    [provider] how the provider answers a request. *)
Definition start_santa_call (h : heap) (draw : nat) (utcnow : datetime)
    (provider : Post → reply) (request : StartCallRequest)
  : run StartCallResponse :=
  if negb (is_set TAVUS_API_KEY) || negb (is_set TAVUS_PERSONA_ID) then
    halt credentials_error h []
  else
    match generate_greeting CONVERSATION_ARCS h draw
            (child_name request) (child_age request) with
    | Raise e => halt e h []
    | Ok greeting =>
    match load_conversation_arc CONVERSATION_ARCS
            (call_duration request) (child_age request) h with
    | (Raise e, h) => halt e h []
    | (Ok conversation_arc, h) =>
    match create_system_prompt float_repr container_repr h
            (child_name request) (child_age request) (call_duration request)
            greeting conversation_arc with
    | Raise e => halt e h []
    | Ok system_prompt =>
    let tavus_request := tavus_request_of request system_prompt in
    match provider tavus_request with
    | TimeoutException =>
        halt (HTTPException 504
                "Timeout connecting to Tavus API. Please try again.")
             h [tavus_request]
    | RequestError message =>
        halt (HTTPException 503
                ("Error connecting to Tavus API: " +:+ message))
             h [tavus_request]
    | Response status_code text body =>
        if negb (status_code =? 200)%Z then
          halt (HTTPException status_code ("Tavus API error: " +:+ text))
               h [tavus_request]
        else
          match body with
          | None => halt JSONDecodeError h [tavus_request]
          | Some tavus_data =>
              match start_call_response h utcnow request greeting
                      conversation_arc tavus_data with
              | Raise e => halt e h [tavus_request]
              | Ok (response_data, call_data) =>
                  {| returned := Ok response_data;
                     posts := [tavus_request];
                     objects := h;
                     added_tasks := [call_data] |}
              end
          end
    end end end end.

(** The route [POST /api/santa/start-call]: the body is validated against
    [StartCallRequest], and the endpoint runs only on a valid one. *)
Definition post_start_call (h : heap) (draw : nat) (utcnow : datetime)
    (provider : Post → reply) (body : StartCallRequest)
  : run StartCallResponse :=
  match StartCallRequest_validate body with
  | Raise e => halt e h []
  | Ok request => start_santa_call h draw utcnow provider request
  end.

End Service.

(** ** Analytics *)

Record AnalyticsResponse : Type := {
  total_calls : nat;
  calls_today : nat;
  average_duration_seconds : float;
  average_rating : float;
  calls_by_duration : gmap string Z;
  calls_by_age : gmap string Z
}.

(** [[x for x in analytics_store if x['event'] == 'call_started']]. *)
Definition started_of (analytics_store : list event) : list (datetime * CallData) :=
  omap (λ x, match x with
             | call_started t d => Some (t, d)
             | call_completed _ _ => None
             end) analytics_store.

(** [[x for x in analytics_store if x['event'] == 'call_completed']]. *)
Definition completed_of (analytics_store : list event)
  : list CallCompletionRequest :=
  omap (λ x, match x with
             | call_completed _ d => Some d
             | call_started _ _ => None
             end) analytics_store.

Definition py_sum (xs : list Z) : Z := foldl Z.add 0%Z xs.

(** [[x['parent_rating'] for x in completed_calls if x.get('parent_rating')]]:
    a rating is kept when it is truthy. *)
Definition ratings_of (completed_calls : list CallCompletionRequest) : list Z :=
  omap (λ x, match parent_rating x with
             | Some r => if (r =? 0)%Z then None else Some r
             | None => None
             end) completed_calls.

(** [counts[key] = counts.get(key, 0) + 1]. *)
Definition count_one (counts : gmap string Z) (key : string) : gmap string Z :=
  <[key := (default 0 (counts !! key) + 1)%Z]> counts.

Definition get_analytics (utcnow : datetime) (analytics_store : list event)
  : result AnalyticsResponse :=
  match analytics_store with
  | [] =>
      Ok {| total_calls := 0; calls_today := 0;
            average_duration_seconds := 0%Q; average_rating := 0%Q;
            calls_by_duration := ∅; calls_by_age := ∅ |}
  | _ =>
      let started_calls := started_of analytics_store in
      let completed_calls := completed_of analytics_store in
      let total_calls := length started_calls in
      let today := date utcnow in
      let calls_today :=
        length (filter (λ x, date x.1 = today) started_calls) in
      avg_duration ←
        match completed_calls with
        | [] => Ok 0%Q
        | _ => PyFloat.int_truediv
                 (py_sum (actual_duration_seconds <$> completed_calls))
                 (Z.of_nat (length completed_calls))
        end;
      let ratings := ratings_of completed_calls in
      avg_rating ←
        match ratings with
        | [] => Ok 0%Q
        | _ => PyFloat.int_truediv (py_sum ratings) (Z.of_nat (length ratings))
        end;
      let calls_by_duration :=
        foldl (λ counts call, count_one counts (cd_call_duration call.2))
              ∅ started_calls in
      let calls_by_age :=
        foldl (λ counts call, count_one counts (pretty (cd_child_age call.2)))
              ∅ started_calls in
      Ok {| total_calls := total_calls;
            calls_today := calls_today;
            average_duration_seconds := PyFloat.round avg_duration 1;
            average_rating := PyFloat.round avg_rating 2;
            calls_by_duration := calls_by_duration;
            calls_by_age := calls_by_age |}
  end.

(** ** Deep reading of the store *)

(** The whole structure reachable from a value, with the references
    followed; what a deep comparison of two Python objects looks at. *)
#[warnings="-register-all"]
Inductive tree : Type :=
  | Leaf (v : val)
  | Dict (entries : list (string * tree))
  | List (items : list tree).

(** [depth] bounds how many references are followed in a row; [None] when
    it does not suffice or a reference dangles. *)
Fixpoint snapshot (depth : nat) (h : heap) (v : val) : option tree :=
  match v with
  | VRef l =>
      match depth with
      | O => None
      | S depth' =>
          match h !! l with
          | Some (ODict d) =>
              Dict <$> mapM (λ kv, pair kv.1 <$> snapshot depth' h kv.2)
                            (map_to_list d)
          | Some (OList xs) => List <$> mapM (snapshot depth' h) xs
          | None => None
          end
      end
  | _ => Some (Leaf v)
  end.

(** [CONVERSATION_ARCS['arcs'][duration]]. *)
Definition stored_arc (CONVERSATION_ARCS : val) (h : heap) (duration : string)
  : result val :=
  arcs ← py_getitem h CONVERSATION_ARCS "arcs";
  py_getitem h arcs duration.

(** [CONVERSATION_ARCS['age_adaptations'][band]] and
    [CONVERSATION_ARCS['timing_guidelines'][duration]]. *)
Definition stored_adaptation (root : val) (h : heap) (age : Z) : result val :=
  adaptations ← py_getitem h root "age_adaptations";
  py_getitem h adaptations (load_conversation_arc_band age).
Definition stored_timing (root : val) (h : heap) (duration : string)
  : result val :=
  guidelines ← py_getitem h root "timing_guidelines";
  py_getitem h guidelines duration.

(** The store after a sequence of calls of [load_conversation_arc], given
    as the [(duration, age)] of each; a call that raises counts too. *)
Fixpoint after_calls (CONVERSATION_ARCS : val) (calls : list (string * Z))
    (h : heap) : heap :=
  match calls with
  | [] => h
  | (duration, age) :: rest =>
      after_calls CONVERSATION_ARCS rest
        (load_conversation_arc CONVERSATION_ARCS duration age h).2
  end.

(** ** A small catalog

    The YAML file is not part of the sources; this catalog has its shape
    and serves to run the functions. *)

Module Sample.

Definition dict (entries : list (string * val)) : obj :=
  ODict (list_to_map entries).

Definition root : val := VRef 1.

Definition store : heap :=
  list_to_map [
    (1%positive, dict [("arcs", VRef 2); ("age_adaptations", VRef 3);
                       ("greeting_templates", VRef 4);
                       ("timing_guidelines", VRef 5)]);
    (2%positive, dict [("5min", VRef 10); ("10min", VRef 11)]);
    (3%positive, dict [("ages_2_4", VRef 20); ("ages_5_8", VRef 21);
                       ("ages_9_12", VRef 22)]);
    (4%positive, dict [("ages_2_4", VRef 30); ("ages_5_8", VRef 31);
                       ("ages_9_12", VRef 32)]);
    (5%positive, dict [("5min", VRef 40); ("10min", VRef 41)]);
    (10%positive, dict [("name", VStr "Quick Santa Chat");
                        ("total_duration_seconds", VInt 300);
                        ("phases", VRef 12)]);
    (11%positive, dict [("name", VStr "Full Santa Visit");
                        ("total_duration_seconds", VInt 600);
                        ("phases", VRef 13)]);
    (12%positive, OList [VRef 14; VRef 15]);
    (13%positive, OList [VRef 14; VRef 15; VRef 16]);
    (14%positive, dict [("name", VStr "warm_greeting");
                        ("duration_seconds", VInt 30);
                        ("percentage", VInt 10);
                        ("goals", VRef 50);
                        ("santa_guidelines", VRef 51)]);
    (15%positive, dict [("name", VStr "wish_list");
                        ("duration_seconds", VInt 240);
                        ("percentage", VInt 80);
                        ("goals", VRef 52);
                        ("santa_guidelines", VRef 53);
                        ("suggested_questions", VRef 54)]);
    (16%positive, dict [("name", VStr "magical_goodbye");
                        ("duration_seconds", VInt 30);
                        ("percentage", VInt 10);
                        ("goals", VRef 55);
                        ("santa_guidelines", VRef 56)]);
    (20%positive, dict [("language_level", VStr "very simple");
                        ("response_length", VStr "1-2 short sentences");
                        ("sentence_complexity", VStr "simple");
                        ("energy", VStr "high");
                        ("attention_span", VStr "short")]);
    (21%positive, dict [("language_level", VStr "simple");
                        ("response_length", VStr "2-3 sentences");
                        ("sentence_complexity", VStr "moderate");
                        ("energy", VStr "medium-high");
                        ("attention_span", VStr "moderate")]);
    (22%positive, dict [("language_level", VStr "conversational");
                        ("response_length", VStr "3-4 sentences");
                        ("sentence_complexity", VStr "varied");
                        ("energy", VStr "medium");
                        ("attention_span", VStr "longer")]);
    (30%positive, OList [VStr "Ho ho ho! Hello {child_name}!";
                         VStr "Hi {child_name}! It's Santa!"]);
    (31%positive, OList [VStr "Ho ho ho! Merry Christmas, {child_name}!";
                         VStr "Well hello, {child_name}, my dear {child}!"]);
    (32%positive, OList [VStr "Hello {child_name}, good to see you."]);
    (40%positive, dict [("average_response_length_seconds", VInt 10);
                        ("max_response_length_seconds", VInt 20);
                        ("pause_between_responses_seconds", VInt 2)]);
    (41%positive, dict [("average_response_length_seconds", VInt 15);
                        ("max_response_length_seconds", VInt 30);
                        ("pause_between_responses_seconds", VInt 3)]);
    (50%positive, OList [VStr "Greet the child by name"]);
    (51%positive, OList [VStr "Be jolly"; VStr "Speak slowly"]);
    (52%positive, OList [VStr "Hear the wishes"]);
    (53%positive, OList [VStr "Never promise a gift"]);
    (54%positive, OList [VStr "What would you like for Christmas?"]);
    (55%positive, OList [VStr "Say goodbye"]);
    (56%positive, OList [VStr "Mention the reindeer"])
  ].

Definition float_repr (x : float) : string := "<float>".
Definition container_repr (h : heap) (l : loc) : string := "<container>".
Definition isoformat (t : datetime) : string := pretty t.

Definition request : StartCallRequest :=
  {| child_name := "Emma"; child_age := 7; call_duration := "5min";
     parent_email := None |}.

End Sample.

(** The list [CONVERSATION_ARCS['greeting_templates'][band]], when the
    catalog has one. *)
Definition greeting_templates_of (root : val) (h : heap) (band : string)
  : option (list val) :=
  match (templates ← py_getitem h root "greeting_templates";
         py_getitem h templates band) with
  | Ok (VRef l) =>
      match h !! l with
      | Some (OList ts) => Some ts
      | _ => None
      end
  | _ => None
  end.

(** ** The shape of a rendered arc *)

Definition dict_of (h : heap) (v : val) : option (gmap string val) :=
  match v with
  | VRef l =>
      match h !! l with
      | Some (ODict d) => Some d
      | _ => None
      end
  | _ => None
  end.

Definition list_of (h : heap) (v : val) : option (list val) :=
  match v with
  | VRef l =>
      match h !! l with
      | Some (OList xs) => Some xs
      | _ => None
      end
  | _ => None
  end.

Definition has_keys (d : gmap string val) (keys : list string) : bool :=
  forallb (λ k, bool_decide (is_Some (d !! k))) keys.

Definition has_list (h : heap) (d : gmap string val) (key : string) : bool :=
  match d !! key with
  | Some v => bool_decide (is_Some (list_of h v))
  | None => false
  end.

(** A phase: a dictionary with a string [name] that has a title case, a
    [duration_seconds], a [percentage], lists of [goals] and
    [santa_guidelines] and, if it has [suggested_questions], a list of
    them. *)
Definition is_phase (h : heap) (phase : val) : bool :=
  match dict_of h phase with
  | Some d =>
      match d !! "name" with
      | Some (VStr name) =>
          bool_decide (is_Some (title (replace_char "_" " " name)))
      | _ => false
      end
      && has_keys d ["duration_seconds"; "percentage"]
      && has_list h d "goals"
      && has_list h d "santa_guidelines"
      && match d !! "suggested_questions" with
         | Some q => bool_decide (is_Some (list_of h q))
         | None => true
         end
  | None => false
  end.

(** An age adaptation and a timing guideline: dictionaries with the
    entries the prompt quotes. *)
Definition is_adaptation (h : heap) (v : val) : bool :=
  match dict_of h v with
  | Some a =>
      has_keys a ["language_level"; "response_length";
                  "sentence_complexity"; "energy"; "attention_span"]
  | None => false
  end.

Definition is_timing (h : heap) (v : val) : bool :=
  match dict_of h v with
  | Some t =>
      has_keys t ["average_response_length_seconds";
                  "max_response_length_seconds";
                  "pause_between_responses_seconds"]
  | None => false
  end.

(** The entries of an arc as the catalog stores it: a
    [total_duration_seconds] and a list of [phases]. *)
Definition is_arc_dict (h : heap) (d : gmap string val) : bool :=
  has_keys d ["total_duration_seconds"]
  && match d !! "phases" ≫= list_of h with
     | Some phases => forallb (is_phase h) phases
     | None => false
     end.

(** A rendered arc: an arc with an [age_adaptation] and a [timing]. *)
Definition is_rendered_arc (h : heap) (arc : val) : bool :=
  match dict_of h arc with
  | Some d =>
      is_arc_dict h d
      && match d !! "age_adaptation" with
         | Some a => is_adaptation h a
         | None => false
         end
      && match d !! "timing" with
         | Some t => is_timing h t
         | None => false
         end
  | None => false
  end.

(** [enumerate(xs, start)]. *)
Fixpoint enumerate (start : Z) (xs : list val) : list (Z * val) :=
  match xs with
  | [] => []
  | x :: rest => (start, x) :: enumerate (start + 1) rest
  end.

(** The strings of a list, one after the other. *)
Definition concat_all (blocks : list string) : string :=
  foldr String.append EmptyString blocks.

(** ** The band of an age

    The band of the ages 2 to 4, of the ages 5 to 8 and of the ages 9 to
    12, by the key it has in the catalog. *)
Definition band_of_age (age : Z) (band : string) : Prop :=
  ((2 ≤ age ≤ 4)%Z ∧ band = "ages_2_4")
  ∨ ((5 ≤ age ≤ 8)%Z ∧ band = "ages_5_8")
  ∨ ((9 ≤ age ≤ 12)%Z ∧ band = "ages_9_12").

(** ** The sections of a prompt

    What a rendered prompt is to hold, written out from the catalog: the
    block of a phase, the age-adaptation block, the timing block and the
    list of the ten rules. *)

(** One bullet line per entry. *)
Definition bullet_lines (entries : list string) : string :=
  join nl ((λ entry, "  - " +:+ entry) <$> entries).

(** The block of the phase numbered [i]: the name as it is shown, with
    the duration and the percentage; the goals and the guidelines, a
    bullet line each; and the suggested questions when there are some. *)
Definition phase_section (i : Z) (shown seconds percentage : string)
    (goals guidelines : list string) (questions : option (list string))
  : string :=
  let block :=
    nl +:+ text [
      "Phase " +:+ pretty i +:+ ": " +:+ shown +:+ " (" +:+
        seconds +:+ "s - " +:+ percentage +:+ "%)";
      "Goals:";
      bullet_lines goals;
      EmptyString;
      "Guidelines:";
      bullet_lines guidelines ] in
  match questions with
  | Some questions =>
      block +:+ nl +:+ "Suggested Questions:" +:+ nl +:+
      bullet_lines questions +:+ nl
  | None => block
  end.

Definition adaptation_section (age : Z)
    (response_length sentence_complexity energy attention_span : string)
  : string :=
  text [
    "AGE-SPECIFIC ADAPTATIONS (Age " +:+ pretty age +:+ "):";
    "- Response Length: " +:+ response_length;
    "- Sentence Complexity: " +:+ sentence_complexity;
    "- Energy Level: " +:+ energy;
    "- Attention Span: " +:+ attention_span ].

Definition timing_section (average maximum pause : string) : string :=
  text [
    "TIMING GUIDELINES:";
    "- Average response: " +:+ average +:+ " seconds";
    "- Max response: " +:+ maximum +:+ " seconds";
    "- Pause between responses: " +:+ pause +:+ " seconds" ].

(** The ten rules, and the list that numbers them from 1. *)
Definition rule_sentences (child_name : string) : list string := [
  "Use " +:+ child_name +:+ "'s name naturally 2-3 times per minute";
  "Keep responses within time limits for your age group";
  "Listen actively - reference what the child says";
  "Never promise specific gifts - use " +:+ dquote +:+
    "I'll see what I can do" +:+ dquote +:+ " or " +:+ dquote +:+
    "I'll talk to my elves" +:+ dquote;
  "Stay in character as Santa Claus at all times";
  "If child shows objects, acknowledge and comment on them";
  "Keep the magic of Christmas alive";
  "Be warm, encouraging, and kind";
  "Follow the phase structure but allow natural conversation flow";
  "If running long, gracefully transition to closing phase" ].

Definition rules_section (child_name : string) : string :=
  text ("CONVERSATION RULES:"
        :: imap (λ k rule, pretty (S k) +:+ ". " +:+ rule)
                (rule_sentences child_name)).

Section Sections.

Variable float_repr : float → string.
Variable container_repr : heap → loc → string.

Local Abbreviation shown_value := (py_str float_repr container_repr).

(** [block] is the block of the phase [phase], numbered [i]: the name is
    shown in title case with spaces for underscores, and every value as
    [str] prints it. *)
Definition is_phase_section (h : heap) (i : Z) (phase : val)
    (block : string) : Prop :=
  ∃ (d : gmap string val) (name shown : string)
    (seconds percentage goals_list guidelines_list : val)
    (goals guidelines : list val) (questions : option (list val)),
    dict_of h phase = Some d ∧
    d !! "name" = Some (VStr name) ∧
    title (replace_char "_" " " name) = Some shown ∧
    d !! "duration_seconds" = Some seconds ∧
    d !! "percentage" = Some percentage ∧
    d !! "goals" = Some goals_list ∧ list_of h goals_list = Some goals ∧
    d !! "santa_guidelines" = Some guidelines_list ∧
    list_of h guidelines_list = Some guidelines ∧
    match d !! "suggested_questions" with
    | Some q => ∃ qs, list_of h q = Some qs ∧ questions = Some qs
    | None => questions = None
    end ∧
    block = phase_section i shown (shown_value h seconds)
              (shown_value h percentage) (shown_value h <$> goals)
              (shown_value h <$> guidelines)
              (option_map (λ qs, shown_value h <$> qs) questions).

(** [block] is the age-adaptation block of the arc, for the age. *)
Definition is_adaptation_section (h : heap) (age : Z) (arc : val)
    (block : string) : Prop :=
  ∃ (d a : gmap string val) (adaptation : val)
    (response_length sentence_complexity energy attention_span : val),
    dict_of h arc = Some d ∧
    d !! "age_adaptation" = Some adaptation ∧
    dict_of h adaptation = Some a ∧
    a !! "response_length" = Some response_length ∧
    a !! "sentence_complexity" = Some sentence_complexity ∧
    a !! "energy" = Some energy ∧
    a !! "attention_span" = Some attention_span ∧
    block = adaptation_section age (shown_value h response_length)
              (shown_value h sentence_complexity) (shown_value h energy)
              (shown_value h attention_span).

(** [block] is the timing block of the arc. *)
Definition is_timing_section (h : heap) (arc : val) (block : string) : Prop :=
  ∃ (d t : gmap string val) (timing average maximum pause : val),
    dict_of h arc = Some d ∧
    d !! "timing" = Some timing ∧
    dict_of h timing = Some t ∧
    t !! "average_response_length_seconds" = Some average ∧
    t !! "max_response_length_seconds" = Some maximum ∧
    t !! "pause_between_responses_seconds" = Some pause ∧
    block = timing_section (shown_value h average) (shown_value h maximum)
              (shown_value h pause).

End Sections.

(** ** What the analytics summary is about *)

(** The constraint of [CallCompletionRequest]: a rating, when given, is
    from 1 to 5. *)
Definition valid_completion (x : CallCompletionRequest) : bool :=
  match parent_rating x with
  | Some r => (1 <=? r)%Z && (r <=? 5)%Z
  | None => true
  end.

(** The durations of the completed calls, and the ratings of the
    completed calls that supplied one. *)
Definition durations_of (analytics_store : list event) : list Z :=
  actual_duration_seconds <$> completed_of analytics_store.
Definition supplied_ratings (analytics_store : list event) : list Z :=
  omap parent_rating (completed_of analytics_store).

(** The mean of integers, exactly; 0 for none. *)
Definition mean (xs : list Z) : Q :=
  match xs with
  | [] => 0%Q
  | _ => Qred (py_sum xs # Pos.of_nat (length xs))
  end.

(** The integer nearest to a number, the even one of the two when it is
    half way between them. *)
Definition nearest_integer (x : Q) : Z :=
  let below := Qfloor x in
  match (x - inject_Z below ?= 1 # 2)%Q with
  | Lt => below
  | Gt => (below + 1)%Z
  | Eq => if Z.even below then below else (below + 1)%Z
  end.

(** The number with [ndigits] decimal places nearest to a number, the one
    with the even last digit when it is half way between two. *)
Definition nearest_decimal (ndigits : Z) (x : Q) : Q :=
  nearest_integer (x * inject_Z (10 ^ ndigits)) # Z.to_pos (10 ^ ndigits).

(** A mean as the summary reports it: the float nearest to the exact
    mean, and then the float nearest to the decimal with [ndigits]
    places that is nearest to that float; 0 for no number, and
    [OverflowError] for a mean beyond the floats. *)
Definition reported_mean (ndigits : Z) (xs : list Z) : result float :=
  match xs with
  | [] => Ok 0%Q
  | _ =>
      let m := PyFloat.nearest (mean xs) in
      if PyFloat.too_large m then Raise OverflowError
      else Ok (PyFloat.nearest (nearest_decimal ndigits m))
  end.

(** The mean as the code computes it: the float division of the sum by
    the count, then [round]; 0 for none. *)
Definition rounded_mean (ndigits : Z) (xs : list Z) : result float :=
  match xs with
  | [] => Ok 0%Q
  | _ =>
      m ← PyFloat.int_truediv (py_sum xs) (Z.of_nat (length xs));
      Ok (PyFloat.round m ndigits)
  end.

(** The averages are the exact means. *)
Definition averages_are_means (analytics_store : list event)
    (r : AnalyticsResponse) : Prop :=
  average_duration_seconds r = mean (durations_of analytics_store) ∧
  average_rating r = mean (supplied_ratings analytics_store).

(** How many started calls have a property. *)
Definition started_with (P : CallData → Prop) `{∀ x, Decision (P x)}
    (analytics_store : list event) : nat :=
  length (filter (λ x, P x.2) (started_of analytics_store)).

(** The entry of a count in a dictionary of counts: none for zero. *)
Definition count_entry (n : nat) : option Z :=
  match n with
  | O => None
  | S _ => Some (Z.of_nat n)
  end.

(** ** Recording completions *)

Record Ack : Type := {
  ack_status : string;
  ack_message : string;
  ack_conversation_id : string
}.

(** [complete_call]: the acknowledgement, and the task handed to
    [background_tasks]. *)
Definition complete_call (request : CallCompletionRequest)
  : Ack * list CallCompletionRequest :=
  ({| ack_status := "success";
      ack_message := "Call completion recorded";
      ack_conversation_id := conversation_id request |},
   [request]).

(** The route [POST /api/santa/complete-call]: the body is validated
    against [CallCompletionRequest] first. *)
Definition post_complete_call (body : CallCompletionRequest)
  : result Ack * list CallCompletionRequest :=
  if valid_completion body then
    let (ack, tasks) := complete_call body in (Ok ack, tasks)
  else (Raise RequestValidationError, []).

(** The store once the tasks added by a run of the two routes have run,
    the clock reading [utcnow]. *)
Definition run_tasks (utcnow : datetime) (started : list CallData)
    (completions : list CallCompletionRequest) (analytics_store : list event)
  : list event :=
  foldl (λ store data, track_call_completed utcnow data store)
        (foldl (λ store data, track_call_started utcnow data store)
               analytics_store started)
        completions.

Definition completed (seconds : Z) (rating : option Z) : event :=
  call_completed 0
    {| conversation_id := "c"; actual_duration_seconds := seconds;
       parent_rating := rating; parent_feedback := None;
       child_enjoyed := None |}.

Definition started (age : Z) (duration : string) : event :=
  call_started 0
    {| cd_conversation_id := JString "c"; cd_child_age := age;
       cd_call_duration := duration; cd_parent_email := None |}.

(** ** The other endpoints *)

(** [bool(x)]. *)
Definition py_bool (h : heap) (x : val) : result bool :=
  match x with
  | VNone => Ok false
  | VBool b => Ok b
  | VInt n => Ok (negb (n =? 0)%Z)
  | VFloat q => Ok (negb (Qnum q =? 0)%Z)
  | VStr s => Ok (negb (String.eqb s EmptyString))
  | VRef l =>
      match h !! l with
      | Some (ODict d) => Ok (negb (size d =? 0)%nat)
      | Some (OList xs) => Ok (negb (length xs =? 0)%nat)
      | None => Raise Dangling
      end
  end.

(** [x.get(key)]: the entry, [None] without one; only a dictionary has the
    method. *)
Definition py_get (h : heap) (x : val) (key : string) : result val :=
  match x with
  | VRef l =>
      match h !! l with
      | Some (ODict d) => Ok (default VNone (d !! key))
      | Some (OList _) => Raise AttributeError
      | None => Raise Dangling
      end
  | _ => Raise AttributeError
  end.

(** [list(x.keys())]; only a dictionary has the method.  The list holds
    the keys, each once; Python lists them in the order of insertion,
    which the store does not keep, and here they come in the order of the
    map: nothing is to be read from their order. *)
Definition py_keys (h : heap) (x : val) : result (list string) :=
  match x with
  | VRef l =>
      match h !! l with
      | Some (ODict d) => Ok (map_to_list d).*1
      | Some (OList _) => Raise AttributeError
      | None => Raise Dangling
      end
  | _ => Raise AttributeError
  end.

Record ConfigStatus : Type := {
  tavus_api_key_set : bool;
  tavus_persona_id_set : bool;
  conversation_arcs_loaded : bool;
  arcs_available : list string
}.

Record HealthResponse : Type := {
  health_status : string;
  health_service : string;
  health_version : string;
  health_timestamp : datetime;
  configuration : ConfigStatus;
  tavus_api_reachable : bool;
  total_calls_tracked : nat
}.

(** [health_check].  [probe] is how the request to the provider ends once
    it is sent: the status of the answer, or [None] when anything was
    raised.  Without a key no request is sent: [None] is not a header
    value, so building the request raises.  The bare [except] swallows
    whatever the [try] block raises.  The default of [get('arcs', {})] is a
    dictionary without keys. *)
Definition health_check (TAVUS_API_KEY TAVUS_PERSONA_ID : option string)
    (CONVERSATION_ARCS : val) (h : heap) (utcnow : datetime)
    (probe : option Z) (analytics_store : list event)
  : result HealthResponse :=
  loaded ← py_bool h CONVERSATION_ARCS;
  arcs ← match CONVERSATION_ARCS with
         | VRef l =>
             match h !! l with
             | Some (ODict d) =>
                 match d !! "arcs" with
                 | Some arcs => py_keys h arcs
                 | None => Ok []
                 end
             | Some (OList _) => Raise AttributeError
             | None => Raise Dangling
             end
         | _ => Raise AttributeError
         end;
  let config_status :=
    {| tavus_api_key_set := is_set TAVUS_API_KEY;
       tavus_persona_id_set := is_set TAVUS_PERSONA_ID;
       conversation_arcs_loaded := loaded;
       arcs_available := arcs |} in
  let tavus_reachable :=
    match TAVUS_API_KEY with
    | None => false
    | Some _ =>
        match probe with
        | Some status_code => bool_decide (status_code ∈ [200%Z; 401%Z])
        | None => false
        end
    end in
  Ok {| health_status := "healthy";
        health_service := "santa-api";
        health_version := "1.0.0";
        health_timestamp := utcnow;
        configuration := config_status;
        tavus_api_reachable := tavus_reachable;
        total_calls_tracked := length (started_of analytics_store) |}.

Record ArcDetails : Type := {
  ad_duration : string;
  ad_arc : val;
  ad_timing_guidelines : val
}.

(** [get_conversation_arc]. *)
Definition get_conversation_arc (CONVERSATION_ARCS : val) (h : heap)
    (duration : string) : result ArcDetails :=
  if negb (bool_decide (duration ∈ ["5min"; "10min"])) then
    Raise (HTTPException 400 "Duration must be '5min' or '10min'")
  else
    arcs ← py_getitem h CONVERSATION_ARCS "arcs";
    arc ← py_get h arcs duration;
    truthy ← py_bool h arc;
    if negb truthy then Raise (HTTPException 404 "Arc not found")
    else
      guidelines ← py_getitem h CONVERSATION_ARCS "timing_guidelines";
      timing ← py_getitem h guidelines duration;
      Ok {| ad_duration := duration; ad_arc := arc;
            ad_timing_guidelines := timing |}.

(** The envelope [http_exception_handler] builds from an [HTTPException]. *)
Record ErrorEnvelope : Type := {
  env_error : bool;
  env_status_code : Z;
  env_message : string;
  env_timestamp : datetime
}.

Definition http_exception_handler (utcnow : datetime) (status_code : Z)
    (detail : string) : ErrorEnvelope :=
  {| env_error := true; env_status_code := status_code;
     env_message := detail; env_timestamp := utcnow |}.

(** ** Shapes and totals used below *)

(** A catalog that serves a duration and an age: the band has templates
    that format, the arc has a name and the shape of an arc, and the
    adaptation and the guideline have their entries. *)
Definition catalog_serves (root : val) (h : heap) (duration : string)
    (age : Z) : Prop :=
  (∃ ts, greeting_templates_of root h (generate_greeting_band age) = Some ts
         ∧ ts ≠ [] ∧ Forall (λ v, has_known_fields v = true) ts) ∧
  (∃ base d, stored_arc root h duration = Ok base ∧ dict_of h base = Some d
             ∧ is_arc_dict h d = true ∧ is_Some (d !! "name")) ∧
  (∃ a, stored_adaptation root h age = Ok a ∧ is_adaptation h a = true) ∧
  (∃ t, stored_timing root h duration = Ok t ∧ is_timing h t = true).

(** The sum of the counts of a dictionary of counts. *)
Definition counts_total (counts : gmap string Z) : Z :=
  map_fold (λ _ n acc, (n + acc)%Z) 0%Z counts.

(** The seconds a validated duration stands for. *)
Definition max_duration_of (duration : string) : Z :=
  if String.eqb duration "5min" then 300%Z else 600%Z.

(** Text of ASCII characters only. *)
Definition is_ascii_text (s : string) : bool :=
  forallb (λ c, (nat_of_ascii c <? 128)%nat) (list_ascii_of_string s).

(** * Properties *)

(** ** The string and float operations on known values *)

Example title_phase_name :
  title (replace_char "_" " " "warm_greeting_and_intro")
  = Some "Warm Greeting And Intro".
Proof. reflexivity. Qed.

Example title_after_digit_and_quote :
  title "hello wORLD it's 3rd" = Some "Hello World It'S 3Rd".
Proof. reflexivity. Qed.

(** Letters of Latin-1: 233 and 234 are lowercase, 201 is the uppercase of
    233; the text is that of two French words joined by an underscore. *)
Example title_latin1 :
  title (replace_char "_" " "
           (String "233" "t" +:+ String "233" "_f" +:+ String "234" "te"))
  = Some (String "201" "t" +:+ String "233" " F" +:+ String "234" "te").
Proof. reflexivity. Qed.

(** The sharp s has a title case of two characters. *)
Example title_sharp_s : title (String "223" "a") = None.
Proof. reflexivity. Qed.

Example format_escapes_and_fields :
  py_format "Ho ho {child_name}! {{ok}} dear {child}"
            (greeting_kwargs "Ann" "child")
  = Ok "Ho ho Ann! {ok} dear child".
Proof. reflexivity. Qed.

Example format_unknown_field :
  py_format "Ho ho {name}" (greeting_kwargs "Ann" "child") = Raise KeyError.
Proof. reflexivity. Qed.

Example format_positional_field :
  py_format "Ho ho {}" (greeting_kwargs "Ann" "child") = Raise IndexError.
Proof. reflexivity. Qed.

Example format_single_brace :
  py_format "Ho ho }" (greeting_kwargs "Ann" "child") = Raise ValueError.
Proof. reflexivity. Qed.

(** [302 / 3] is [100.66666666666667] and rounds to [100.7]; [1.25] and
    [2.675] round to [1.2] and [2.67]; [0.125] and [0.375] round to [0.12]
    and [0.38]. *)
Example truediv_302_3 :
  PyFloat.int_truediv 302 3 = Ok (7083786913884843 # 70368744177664)%Q.
Proof. by vm_compute. Qed.

Example round_100_67 :
  PyFloat.round (7083786913884843 # 70368744177664) 1
  = (7086132538690765 # 70368744177664)%Q.
Proof. by vm_compute. Qed.

Example round_1_25 :
  PyFloat.round (5 # 4) 1 = (5404319552844595 # 4503599627370496)%Q.
Proof. by vm_compute. Qed.

Example round_2_675 :
  PyFloat.round (3011782250804019 # 1125899906842624) 2
  = (1503076375634903 # 562949953421312)%Q.
Proof. by vm_compute. Qed.

Example round_ties_to_even :
  PyFloat.round (1 # 8) 2 = (1080863910568919 # 9007199254740992)%Q ∧
  PyFloat.round (3 # 8) 2 = (3422735716801577 # 9007199254740992)%Q.
Proof. by vm_compute. Qed.

Example truediv_overflow :
  PyFloat.int_truediv (2 ^ 1024) 1 = Raise OverflowError.
Proof. by vm_compute. Qed.


Lemma bind_Ok {A B} (a : A) (f : A → result B) : (Ok a ≫= f) = f a.
Proof. reflexivity. Qed.

(** ** Reading a store that only grew *)

Lemma py_getitem_weaken (h h' : heap) (x : val) (key : string) (v : val) :
  h ⊆ h' → py_getitem h x key = Ok v → py_getitem h' x key = Ok v.
Proof.
  intros Hsub. unfold py_getitem.
  destruct x as [| | | | |l]; try discriminate.
  destruct (h !! l) as [o|] eqn:Hl; [|discriminate].
  by rewrite (lookup_weaken _ _ _ _ Hl Hsub).
Qed.

Lemma stored_arc_weaken (root : val) (h h' : heap) (duration : string) (v : val) :
  h ⊆ h' → stored_arc root h duration = Ok v → stored_arc root h' duration = Ok v.
Proof.
  intros Hsub. unfold stored_arc.
  destruct (py_getitem h root "arcs") as [arcs|] eqn:Harcs; [|discriminate].
  simpl. intros Hentry.
  rewrite (py_getitem_weaken _ _ _ _ _ Hsub Harcs). simpl.
  by apply (py_getitem_weaken h).
Qed.

Lemma snapshot_weaken (depth : nat) (h h' : heap) (v : val) (t : tree) :
  h ⊆ h' → snapshot depth h v = Some t → snapshot depth h' v = Some t.
Proof.
  intros Hsub. revert v t.
  induction depth as [|depth IH]; intros [| | | | |l] t; simpl; try done.
  destruct (h !! l) as [o|] eqn:Hl; [|discriminate].
  rewrite (lookup_weaken _ _ _ _ Hl Hsub).
  destruct o as [d|xs]; intros Ht.
  - destruct (mapM _ (map_to_list d)) as [entries|] eqn:Hm; [|discriminate].
    apply mapM_Some in Hm.
    erewrite (proj2 (mapM_Some _ _ _)); [exact Ht|].
    eapply Forall2_impl; [exact Hm|].
    intros [k x] [k' t'] Hkx. simpl in *.
    destruct (snapshot depth h x) as [tx|] eqn:Hx; [|discriminate].
    by rewrite (IH _ _ Hx).
  - destruct (mapM _ xs) as [items|] eqn:Hm; [|discriminate].
    apply mapM_Some in Hm.
    erewrite (proj2 (mapM_Some _ _ _)); [exact Ht|].
    eapply Forall2_impl; [exact Hm|]. intros x t'. apply IH.
Qed.

(** ** [load_conversation_arc] *)

Lemma fresh_lookup_None (h : heap) : h !! fresh (dom h) = None.
Proof. apply not_elem_of_dom, is_fresh. Qed.

Lemma insert_fresh_subseteq (h : heap) (o : obj) :
  h ⊆ <[fresh (dom h) := o]> h.
Proof. apply insert_subseteq, fresh_lookup_None. Qed.

Lemma insert_insert_fresh_subseteq (h : heap) (o o' : obj) :
  h ⊆ <[fresh (dom h) := o']> (<[fresh (dom h) := o]> h).
Proof. rewrite insert_insert_eq. apply insert_fresh_subseteq. Qed.

(** Whatever a call does, it leaves every object of the store as it was:
    it only allocates. *)
Lemma load_conversation_arc_extends (root : val) (duration : string) (age : Z)
    (h : heap) :
  h ⊆ (load_conversation_arc root duration age h).2.
Proof.
  unfold load_conversation_arc, M_bind, M_read, M_ret.
  destruct (py_getitem h root "arcs") as [arcs|]; [|done].
  destruct (py_getitem h arcs duration) as [entry|]; [|done].
  unfold py_copy.
  destruct entry as [| | | | |l]; try done.
  destruct (h !! l) as [o|]; [|done].
  set (l' := fresh (dom h)). set (h1 := <[l' := o]> h).
  assert (h ⊆ h1) as H1 by apply insert_fresh_subseteq.
  destruct (py_getitem h1 root "age_adaptations") as [adaptations|]; [|done].
  destruct (py_getitem h1 adaptations _) as [adaptation|]; [|done].
  unfold py_setitem at 1. subst h1. rewrite lookup_insert_eq.
  destruct o as [d|xs]; [|done].
  rewrite insert_insert_eq.
  set (h2 := <[l' := _]> h).
  assert (h ⊆ h2) as H2 by apply insert_fresh_subseteq.
  destruct (py_getitem h2 root "timing_guidelines") as [guidelines|]; [|done].
  destruct (py_getitem h2 guidelines duration) as [timing|]; [|done].
  unfold py_setitem. subst h2. rewrite lookup_insert_eq, insert_insert_eq.
  apply insert_fresh_subseteq.
Qed.

Lemma after_calls_extends (root : val) (calls : list (string * Z)) (h : heap) :
  h ⊆ after_calls root calls h.
Proof.
  revert h. induction calls as [|[duration age] calls IH]; intros h; [done|].
  simpl. etrans; [apply load_conversation_arc_extends|apply IH].
Qed.

Lemma stored_adaptation_weaken (root : val) (h h' : heap) (age : Z) (v : val) :
  h ⊆ h' → stored_adaptation root h age = Ok v →
  stored_adaptation root h' age = Ok v.
Proof.
  intros Hsub. unfold stored_adaptation.
  destruct (py_getitem h root "age_adaptations") as [a|] eqn:Ha; [|discriminate].
  simpl. intros Hv.
  rewrite (py_getitem_weaken _ _ _ _ _ Hsub Ha). simpl.
  by apply (py_getitem_weaken h).
Qed.

Lemma stored_timing_weaken (root : val) (h h' : heap) (duration : string)
    (v : val) :
  h ⊆ h' → stored_timing root h duration = Ok v →
  stored_timing root h' duration = Ok v.
Proof.
  intros Hsub. unfold stored_timing.
  destruct (py_getitem h root "timing_guidelines") as [g|] eqn:Hg; [|discriminate].
  simpl. intros Hv.
  rewrite (py_getitem_weaken _ _ _ _ _ Hsub Hg). simpl.
  by apply (py_getitem_weaken h).
Qed.

(** What a successful call did: one object allocated, the copy of the
    stored arc with two entries set. *)
Lemma load_conversation_arc_Ok (root : val) (duration : string) (age : Z)
    (h h' : heap) (arc : val) :
  load_conversation_arc root duration age h = (Ok arc, h') →
  ∃ (l_cat : loc) (d : gmap string val) (adaptation timing : val),
    stored_arc root h duration = Ok (VRef l_cat) ∧
    h !! l_cat = Some (ODict d) ∧
    arc = VRef (fresh (dom h)) ∧
    h' = <[fresh (dom h) :=
             ODict (<["timing" := timing]>
                      (<["age_adaptation" := adaptation]> d))]> h ∧
    (∀ v, stored_adaptation root h age = Ok v → adaptation = v) ∧
    (∀ v, stored_timing root h duration = Ok v → timing = v).
Proof.
  unfold load_conversation_arc, M_bind, M_read, M_ret, stored_arc.
  destruct (py_getitem h root "arcs") as [arcs|]; [|done]. simpl.
  destruct (py_getitem h arcs duration) as [entry|]; [|done].
  unfold py_copy.
  destruct entry as [| | | | |l]; try done.
  destruct (h !! l) as [o|] eqn:Hl; [|done].
  set (l' := fresh (dom h)). set (h1 := <[l' := o]> h).
  assert (h ⊆ h1) as H1 by apply insert_fresh_subseteq.
  destruct (py_getitem h1 root "age_adaptations") as [adaptations|] eqn:Ha;
    [|done].
  destruct (py_getitem h1 adaptations _) as [adaptation|] eqn:Hb; [|done].
  unfold py_setitem at 1. subst h1. rewrite lookup_insert_eq.
  destruct o as [d|xs]; [|done].
  rewrite insert_insert_eq.
  set (h2 := <[l' := _]> h).
  assert (h ⊆ h2) as H2 by apply insert_fresh_subseteq.
  destruct (py_getitem h2 root "timing_guidelines") as [guidelines|] eqn:Hg;
    [|done].
  destruct (py_getitem h2 guidelines duration) as [timing|] eqn:Ht; [|done].
  unfold py_setitem. subst h2. rewrite lookup_insert_eq, insert_insert_eq.
  intros [= <- <-].
  exists l, d, adaptation, timing. repeat split; try done.
  - intros v Hv. apply (stored_adaptation_weaken _ _ _ _ _ H1) in Hv.
    unfold stored_adaptation in Hv. rewrite Ha in Hv. simpl in Hv.
    congruence.
  - intros v Hv. apply (stored_timing_weaken _ _ _ _ _ H2) in Hv.
    unfold stored_timing in Hv. rewrite Hg in Hv. simpl in Hv.
    congruence.
Qed.

(** C3. Calling [load_conversation_arc] any number of times, with any
    durations and ages, never changes the arc the catalog stores for a
    duration: the entry is the same object, and everything reachable from
    it reads as it did at load time. *)
Theorem load_conversation_arc_preserves_catalog (root : val)
    (calls : list (string * Z)) (h : heap) (duration : string) (arc : val)
    (depth : nat) (t : tree) :
  stored_arc root h duration = Ok arc →
  snapshot depth h arc = Some t →
  h ⊆ after_calls root calls h ∧
  stored_arc root (after_calls root calls h) duration = Ok arc ∧
  snapshot depth (after_calls root calls h) arc = Some t.
Proof.
  intros Harc Ht. pose proof (after_calls_extends root calls h) as Hsub.
  split; [done|]. split.
  - by apply (stored_arc_weaken root h).
  - by apply (snapshot_weaken depth h).
Qed.

Lemma load_conversation_arc_preserves_catalog_sample :
  ∃ t, snapshot 5 Sample.store (VRef 10) = Some t ∧
    let calls := [("5min", 3%Z); ("10min", 9%Z); ("5min", 7%Z); ("7min", 5%Z)] in
    Sample.store ⊆ after_calls Sample.root calls Sample.store ∧
    stored_arc Sample.root (after_calls Sample.root calls Sample.store) "5min"
      = Ok (VRef 10) ∧
    snapshot 5 (after_calls Sample.root calls Sample.store) (VRef 10) = Some t.
Proof.
  eexists. split; [vm_compute; reflexivity|].
  apply (load_conversation_arc_preserves_catalog Sample.root _ Sample.store
           "5min" (VRef 10) 5); vm_compute; reflexivity.
Defined.

(** C10. The arc [load_conversation_arc] returns is a shallow copy of the
    stored arc: one new dictionary, whose keys are those of the stored arc
    and the two keys [age_adaptation] and [timing]; every other key maps
    to the very value the stored arc has, a reference to the same nested
    object, and no nested object is created; the stored arc itself does
    not get the two entries. *)
Theorem load_conversation_arc_shallow_copy (root : val) (duration : string)
    (age : Z) (h h' : heap) (arc : val) :
  load_conversation_arc root duration age h = (Ok arc, h') →
  ∃ (l l_cat : loc) (d d' : gmap string val),
    arc = VRef l ∧ h !! l = None ∧
    stored_arc root h duration = Ok (VRef l_cat) ∧
    h !! l_cat = Some (ODict d) ∧
    h' = <[l := ODict d']> h ∧
    h' !! l_cat = Some (ODict d) ∧
    dom d' = dom d ∪ {["age_adaptation"; "timing"]} ∧
    (∀ k, k ≠ "age_adaptation" → k ≠ "timing" → d' !! k = d !! k) ∧
    (∀ k l0 o, k ≠ "age_adaptation" → k ≠ "timing" →
       d !! k = Some (VRef l0) → h !! l0 = Some o →
       d' !! k = Some (VRef l0) ∧ h' !! l0 = Some o).
Proof.
  intros Hload.
  destruct (load_conversation_arc_Ok _ _ _ _ _ _ Hload)
    as (l_cat & d & adaptation & timing & Hstored & Hcat & -> & -> & _ & _).
  pose proof (fresh_lookup_None h) as Hfresh.
  assert (fresh (dom h) ≠ l_cat) as Hne by congruence.
  eexists (fresh (dom h)), l_cat, d, _.
  split; [done|]. split; [done|]. split; [done|]. split; [done|].
  split; [done|]. split; [by rewrite lookup_insert_ne|].
  split.
  { rewrite !dom_insert_L. apply set_eq. intros k.
    rewrite !elem_of_union, !elem_of_singleton. tauto. }
  split.
  - intros k Hk1 Hk2. by rewrite !lookup_insert_ne.
  - intros k l0 o Hk1 Hk2 Hk Hl0. split.
    + by rewrite !lookup_insert_ne.
    + rewrite lookup_insert_ne; [done|congruence].
Qed.

Lemma load_conversation_arc_shallow_copy_sample :
  let h := Sample.store in
  let h' := (load_conversation_arc Sample.root "5min" 7 h).2 in
  ∃ (l l_cat : loc) (d d' : gmap string val),
    VRef 57 = VRef l ∧ h !! l = None ∧
    stored_arc Sample.root h "5min" = Ok (VRef l_cat) ∧
    h !! l_cat = Some (ODict d) ∧
    h' = <[l := ODict d']> h ∧
    h' !! l_cat = Some (ODict d) ∧
    dom d' = dom d ∪ {["age_adaptation"; "timing"]} ∧
    (∀ k, k ≠ "age_adaptation" → k ≠ "timing" → d' !! k = d !! k) ∧
    (∀ k l0 o, k ≠ "age_adaptation" → k ≠ "timing" →
       d !! k = Some (VRef l0) → h !! l0 = Some o →
       d' !! k = Some (VRef l0) ∧ h' !! l0 = Some o).
Proof.
  apply (load_conversation_arc_shallow_copy Sample.root "5min" 7 Sample.store).
  vm_compute; reflexivity.
Defined.

(** ** [generate_greeting] *)

Lemma append_cons (c : ascii) (s1 s2 : string) :
  String c s1 +:+ s2 = String c (s1 +:+ s2).
Proof. reflexivity. Qed.

Lemma append_nil_l (s : string) : EmptyString +:+ s = s.
Proof. reflexivity. Qed.

Lemma append_assoc (s1 s2 s3 : string) :
  (s1 +:+ s2) +:+ s3 = s1 +:+ (s2 +:+ s3).
Proof.
  induction s1 as [|c s1 IH]; [done|]. rewrite !append_cons. by f_equal.
Qed.

Lemma append_nil_r (s : string) : s +:+ EmptyString = s.
Proof. induction s as [|c s IH]; [done|]. rewrite append_cons. by f_equal. Qed.

Lemma substring_app_r (needle s before : string) :
  substring needle s → substring needle (before +:+ s).
Proof.
  intros (b & a & ->). exists (before +:+ b), a.
  by rewrite append_assoc.
Qed.

Lemma substring_app_l (needle s after : string) :
  substring needle s → substring needle (s +:+ after).
Proof.
  intros (b & a & ->). exists b, (a +:+ after).
  by rewrite !append_assoc.
Qed.

Lemma substring_refl_app (needle after : string) :
  substring needle (needle +:+ after).
Proof. by exists EmptyString, after. Qed.

(** The one-pass formatter computes the substitution. *)
Lemma format_go_fill (kwargs : gmap string string) (n : nat) :
  ∀ (s : string) (field : option string) (segs : list segment) (out : string),
    (String.length s < n)%nat →
    segments_go field s = Some segs →
    fill kwargs segs = Some out →
    format_go kwargs field s = Ok out.
Proof.
  induction n as [|n IH]; intros s field segs out Hlen; [lia|].
  destruct s as [|c rest]; simpl.
  { destruct field; [done|]. intros [= <-]. simpl. by intros [= <-]. }
  simpl in Hlen.
  assert (∀ f segs' out', segments_go f rest = Some segs' →
            fill kwargs segs' = Some out' →
            format_go kwargs f rest = Ok out') as IHrest.
  { intros. eapply IH; [lia|done..]. }
  assert (∀ c' rest' f segs' out', rest = String c' rest' →
            segments_go f rest' = Some segs' →
            fill kwargs segs' = Some out' →
            format_go kwargs f rest' = Ok out') as IHrest'.
  { intros c' rest' f segs' out' -> ??. eapply IH; [simpl in Hlen; lia|done..]. }
  destruct field as [name|].
  - destruct (Ascii.eqb c "}").
    { destruct (segments_go None rest) as [segs'|] eqn:Hs; [|done].
      intros [= <-]. simpl.
      destruct (kwargs !! name) as [v|] eqn:Hv; [|done]. simpl.
      destruct (fill kwargs segs') as [out'|] eqn:Hf; [|done].
      intros [= <-]. unfold format_field. rewrite Hv. simpl.
      by rewrite (IHrest _ _ _ Hs Hf). }
    destruct (Ascii.eqb c "{"); [done|].
    destruct (field_special c); [done|]. apply IHrest.
  - destruct (Ascii.eqb c "{").
    { destruct rest as [|c' rest']; [apply IHrest|].
      destruct (Ascii.eqb_spec c' "{") as [->|Hc'].
      - destruct (segments_go None rest') as [segs'|] eqn:Hs; [|done].
        intros [= <-]. simpl.
        destruct (fill kwargs segs') as [out'|] eqn:Hf; [|done].
        intros [= <-]. by rewrite (IHrest' _ _ _ _ _ eq_refl Hs Hf).
      - intros Hs Hf.
        assert (format_go kwargs (Some EmptyString) (String c' rest') = Ok out)
          as Hgo by (apply (IHrest _ segs); [|done];
                     destruct c' as [[] [] [] [] [] [] [] []]; done).
        destruct c' as [[] [] [] [] [] [] [] []]; done. }
    destruct (Ascii.eqb c "}").
    { destruct rest as [|c' rest']; [done|].
      destruct (Ascii.eqb_spec c' "}") as [->|Hc'].
      - destruct (segments_go None rest') as [segs'|] eqn:Hs; [|done].
        intros [= <-]. simpl.
        destruct (fill kwargs segs') as [out'|] eqn:Hf; [|done].
        intros [= <-]. by rewrite (IHrest' _ _ _ _ _ eq_refl Hs Hf).
      - destruct c' as [[] [] [] [] [] [] [] []]; done. }
    destruct (segments_go None rest) as [segs'|] eqn:Hs; [|done].
    intros [= <-]. simpl.
    destruct (fill kwargs segs') as [out'|] eqn:Hf; [|done].
    intros [= <-]. by rewrite (IHrest _ _ _ Hs Hf).
Qed.

Lemma py_format_fill (kwargs : gmap string string) (t : string)
    (segs : list segment) (out : string) :
  template_segments t = Some segs → fill kwargs segs = Some out →
  py_format t kwargs = Ok out.
Proof. apply (format_go_fill kwargs (S (String.length t))). lia. Qed.

Lemma fill_contains (kwargs : gmap string string) (segs : list segment)
    (out name v : string) :
  fill kwargs segs = Some out → Field name ∈ segs → kwargs !! name = Some v →
  substring v out.
Proof.
  revert out. induction segs as [|seg segs IH]; intros out Hfill Hin Hv.
  { by apply elem_of_nil in Hin. }
  apply elem_of_cons in Hin. destruct seg as [c|name']; simpl in Hfill.
  - destruct (fill kwargs segs) as [out'|]; [|done].
    injection Hfill as <-. destruct Hin as [|Hin]; [done|].
    apply (substring_app_r _ _ (String c EmptyString)). by apply IH.
  - destruct (kwargs !! name') as [v'|] eqn:Hv'; [|done]. simpl in Hfill.
    destruct (fill kwargs segs) as [out'|]; [|done].
    injection Hfill as <-. destruct Hin as [[= ->]|Hin].
    + assert (v' = v) as -> by congruence. apply substring_refl_app.
    + apply substring_app_r. by apply IH.
Qed.

Lemma fill_is_Some (kwargs : gmap string string) (segs : list segment) :
  (∀ name, Field name ∈ segs → is_Some (kwargs !! name)) →
  is_Some (fill kwargs segs).
Proof.
  induction segs as [|seg segs IH]; intros Hall; [by eexists|].
  destruct IH as [out Hout].
  { intros name Hin. apply Hall. by apply elem_of_cons; right. }
  destruct seg as [c|name]; simpl; rewrite Hout; [by eexists|].
  destruct (Hall name) as [v ->]; [by apply elem_of_cons; left|].
  by eexists.
Qed.

(** What the one-pass formatter returns is the substitution. *)
Lemma format_go_segments (kwargs : gmap string string) (n : nat) :
  ∀ (s : string) (field : option string) (segs : list segment) (out : string),
    (String.length s < n)%nat →
    segments_go field s = Some segs →
    format_go kwargs field s = Ok out →
    fill kwargs segs = Some out.
Proof.
  induction n as [|n IH]; intros s field segs out Hlen; [lia|].
  destruct s as [|c rest]; simpl.
  { destruct field; [done|]. by intros [= <-] [= <-]. }
  simpl in Hlen.
  assert (∀ f segs' out', segments_go f rest = Some segs' →
            format_go kwargs f rest = Ok out' →
            fill kwargs segs' = Some out') as IHrest.
  { intros. eapply IH; [|done..]. lia. }
  assert (∀ c' rest' f segs' out', rest = String c' rest' →
            segments_go f rest' = Some segs' →
            format_go kwargs f rest' = Ok out' →
            fill kwargs segs' = Some out') as IHrest'.
  { intros c' rest' f segs' out' -> ??. eapply IH; [|done..].
    simpl in Hlen; lia. }
  destruct field as [name|].
  - destruct (Ascii.eqb c "}").
    { destruct (segments_go None rest) as [segs'|] eqn:Hs; [|done].
      intros [= <-]. unfold format_field.
      destruct (kwargs !! name) as [v|] eqn:Hv;
        [|by destruct (all_digits name)].
      rewrite bind_Ok.
      destruct (format_go kwargs None rest) as [out'|] eqn:Hf; [|done].
      intros [= <-]. simpl. rewrite Hv. simpl.
      by rewrite (IHrest _ _ _ Hs Hf). }
    destruct (Ascii.eqb c "{"); [done|].
    destruct (field_special c); [done|]. apply IHrest.
  - destruct (Ascii.eqb c "{").
    { destruct rest as [|c' rest']; [apply IHrest|].
      destruct (Ascii.eqb_spec c' "{") as [->|Hc'].
      - destruct (segments_go None rest') as [segs'|] eqn:Hs; [|done].
        intros [= <-].
        destruct (format_go kwargs None rest') as [out'|] eqn:Hf; [|done].
        intros [= <-]. simpl. by rewrite (IHrest' _ _ _ _ _ eq_refl Hs Hf).
      - intros Hs Hf. apply (IHrest (Some EmptyString));
          destruct c' as [[] [] [] [] [] [] [] []]; done. }
    destruct (Ascii.eqb c "}").
    { destruct rest as [|c' rest']; [done|].
      destruct (Ascii.eqb_spec c' "}") as [->|Hc'].
      - destruct (segments_go None rest') as [segs'|] eqn:Hs; [|done].
        intros [= <-].
        destruct (format_go kwargs None rest') as [out'|] eqn:Hf; [|done].
        intros [= <-]. simpl. by rewrite (IHrest' _ _ _ _ _ eq_refl Hs Hf).
      - destruct c' as [[] [] [] [] [] [] [] []]; done. }
    destruct (segments_go None rest) as [segs'|] eqn:Hs; [|done].
    intros [= <-].
    destruct (format_go kwargs None rest) as [out'|] eqn:Hf; [|done].
    intros [= <-]. simpl. by rewrite (IHrest _ _ _ Hs Hf).
Qed.

Lemma py_format_segments (kwargs : gmap string string) (t : string)
    (segs : list segment) (out : string) :
  template_segments t = Some segs → py_format t kwargs = Ok out →
  fill kwargs segs = Some out.
Proof. apply (format_go_segments kwargs (S (String.length t))). lia. Qed.

(** A template all of whose holes are known formats. *)
Lemma known_fields_format (v : val) (child_name : string) :
  has_known_fields v = true →
  ∃ g, str_format v (greeting_kwargs child_name "child") = Ok g.
Proof.
  unfold has_known_fields.
  destruct v as [| | | |t|]; try done.
  destruct (template_segments t) as [segs|] eqn:Hsegs; [|done].
  intros Hfields.
  destruct (fill_is_Some (greeting_kwargs child_name "child") segs) as [g Hg].
  { intros name Hin. rewrite forallb_forall in Hfields.
    specialize (Hfields (Field name)). simpl in Hfields.
    apply bool_decide_eq_true in Hfields; [|by apply list_elem_of_In].
    unfold greeting_kwargs.
    apply elem_of_cons in Hfields as [->|Hfields]; [by eexists|].
    apply elem_of_cons in Hfields as [->|Hfields]; [by eexists|].
    by apply elem_of_nil in Hfields. }
  exists g. by apply py_format_fill with segs.
Qed.

(** What a template with the name placeholder formats to has the name. *)
Lemma name_placeholder_format (v : val) (child_name g : string) :
  has_name_placeholder v = true →
  str_format v (greeting_kwargs child_name "child") = Ok g →
  ∃ (t : string) (segs : list segment),
    v = VStr t ∧ template_segments t = Some segs ∧
    fill (greeting_kwargs child_name "child") segs = Some g ∧
    substring child_name g.
Proof.
  unfold has_name_placeholder.
  destruct v as [| | | |t|]; try done.
  destruct (template_segments t) as [segs|] eqn:Hsegs; [|done].
  intros Hname%bool_decide_eq_true Hformat. simpl in Hformat.
  pose proof (py_format_segments _ _ _ _ Hsegs Hformat) as Hfill.
  exists t, segs. repeat split; try done.
  by apply (fill_contains _ _ _ _ _ Hfill Hname).
Qed.

Lemma random_choice_list (h : heap) (draw : nat) (l : loc) (ts : list val) :
  h !! l = Some (OList ts) → ts ≠ [] →
  ∃ v, random_choice h draw (VRef l) = Ok v ∧ v ∈ ts.
Proof.
  intros Hl Hne. unfold random_choice, py_len, py_getitem_int.
  rewrite Hl. simpl.
  assert (length ts ≠ 0)%nat as Hlen by (by destruct ts).
  destruct (Nat.eqb_spec (length ts) 0) as [|_]; [done|].
  assert (draw mod length ts < length ts)%nat as Hlt
    by (by apply Nat.mod_upper_bound).
  destruct (lookup_lt_is_Some_2 _ _ Hlt) as [v Hv].
  exists v. rewrite Hv. split; [done|].
  by apply list_elem_of_lookup_2 in Hv.
Qed.

Lemma random_choice_list_inv (h : heap) (draw : nat) (l : loc)
    (ts : list val) (v : val) :
  h !! l = Some (OList ts) → random_choice h draw (VRef l) = Ok v → v ∈ ts.
Proof.
  intros Hl. unfold random_choice, py_len, py_getitem_int.
  rewrite Hl. simpl. destruct (length ts =? 0)%nat; [done|].
  destruct (ts !! _) as [v'|] eqn:Hv; [|done]. intros [= <-].
  by apply list_elem_of_lookup_2 in Hv.
Qed.

(** C9. When every template of the selected band has the [child_name]
    placeholder, a greeting that [generate_greeting] produces is one of
    these templates with the name and the term [child] substituted in, and
    it contains the child's name; and a greeting is produced when the list
    is not empty and the templates have no other placeholder than
    [child_name] and [child]. *)
Theorem generate_greeting_contains_name (root : val) (h : heap) (draw : nat)
    (child_name : string) (child_age : Z) (ts : list val) :
  greeting_templates_of root h (generate_greeting_band child_age) = Some ts →
  Forall (λ v, has_name_placeholder v = true) ts →
  (∀ g, generate_greeting root h draw child_name child_age = Ok g →
     ∃ (t : string) (segs : list segment),
       VStr t ∈ ts ∧
       template_segments t = Some segs ∧
       fill (greeting_kwargs child_name "child") segs = Some g ∧
       substring child_name g) ∧
  (ts ≠ [] → Forall (λ v, has_known_fields v = true) ts →
     ∃ g, generate_greeting root h draw child_name child_age = Ok g).
Proof.
  unfold greeting_templates_of, generate_greeting.
  destruct (py_getitem h root "greeting_templates") as [gt|]; [|done].
  rewrite !bind_Ok.
  destruct (py_getitem h gt _) as [[| | | | |l]|]; try done.
  destruct (h !! l) as [[d|ts']|] eqn:Hl; try done.
  intros [= ->] Hall. rewrite !bind_Ok. rewrite Forall_forall in Hall.
  split.
  - intros g.
    destruct (random_choice h draw (VRef l)) as [v|] eqn:Hv; [|done].
    rewrite bind_Ok. intros Hformat.
    apply (random_choice_list_inv _ _ _ _ _ Hl) in Hv.
    destruct (name_placeholder_format v child_name g (Hall v Hv) Hformat)
      as (t & segs & -> & Hsegs & Hfill & Hsub).
    by exists t, segs.
  - intros Hne Hknown. rewrite Forall_forall in Hknown.
    destruct (random_choice_list h draw l ts Hl Hne) as (v & -> & Hin).
    rewrite bind_Ok. by apply known_fields_format, Hknown.
Qed.

Lemma generate_greeting_contains_name_sample :
  let ts := [VStr "Ho ho ho! Merry Christmas, {child_name}!";
             VStr "Well hello, {child_name}, my dear {child}!"] in
  (∀ g, generate_greeting Sample.root Sample.store 3 "Emma" 7 = Ok g →
     ∃ (t : string) (segs : list segment),
       VStr t ∈ ts ∧
       template_segments t = Some segs ∧
       fill (greeting_kwargs "Emma" "child") segs = Some g ∧
       substring "Emma" g) ∧
  (ts ≠ [] → Forall (λ v, has_known_fields v = true) ts →
     ∃ g, generate_greeting Sample.root Sample.store 3 "Emma" 7 = Ok g).
Proof.
  apply (generate_greeting_contains_name Sample.root Sample.store 3 "Emma" 7).
  - vm_compute; reflexivity.
  - repeat constructor.
Defined.

(** ** [create_system_prompt] *)

Lemma dict_of_getitem (h : heap) (v : val) (d : gmap string val)
    (key : string) :
  dict_of h v = Some d →
  py_getitem h v key = from_option Ok (Raise KeyError) (d !! key).
Proof.
  unfold dict_of, py_getitem. destruct v as [| | | | |l]; try done.
  destruct (h !! l) as [[d'|]|]; try done. intros [= ->].
  by destruct (d !! key).
Qed.

Lemma dict_of_contains (h : heap) (v : val) (d : gmap string val)
    (key : string) :
  dict_of h v = Some d →
  py_contains h v key = Ok (bool_decide (is_Some (d !! key))).
Proof.
  unfold dict_of, py_contains. destruct v as [| | | | |l]; try done.
  destruct (h !! l) as [[d'|]|]; try done. by intros [= ->].
Qed.

Lemma list_of_iter (h : heap) (v : val) (xs : list val) :
  list_of h v = Some xs → py_iter h v = Ok xs ∧ py_len h v = Ok (length xs).
Proof.
  unfold list_of, py_iter, py_len. destruct v as [| | | | |l]; try done.
  destruct (h !! l) as [[|xs']|]; try done. by intros [= ->].
Qed.

Lemma has_keys_lookup (d : gmap string val) (keys : list string) (key : string) :
  has_keys d keys = true → key ∈ keys → ∃ v, d !! key = Some v.
Proof.
  unfold has_keys. rewrite forallb_forall. intros Hall Hin.
  apply list_elem_of_In, Hall, bool_decide_eq_true in Hin. exact Hin.
Qed.

Lemma has_list_lookup (h : heap) (d : gmap string val) (key : string) :
  has_list h d key = true →
  ∃ v xs, d !! key = Some v ∧ list_of h v = Some xs.
Proof.
  unfold has_list. destruct (d !! key) as [v|]; [|done].
  intros [xs Hxs]%bool_decide_eq_true. by exists v, xs.
Qed.

(** ** From the catalog to a rendered arc *)

Lemma dict_of_weaken (h h' : heap) (v : val) (d : gmap string val) :
  h ⊆ h' → dict_of h v = Some d → dict_of h' v = Some d.
Proof.
  intros Hsub. unfold dict_of. destruct v as [| | | | |l]; try done.
  destruct (h !! l) as [o|] eqn:Hl; [|done].
  by rewrite (lookup_weaken _ _ _ _ Hl Hsub).
Qed.

Lemma list_of_weaken (h h' : heap) (v : val) (xs : list val) :
  h ⊆ h' → list_of h v = Some xs → list_of h' v = Some xs.
Proof.
  intros Hsub. unfold list_of. destruct v as [| | | | |l]; try done.
  destruct (h !! l) as [o|] eqn:Hl; [|done].
  by rewrite (lookup_weaken _ _ _ _ Hl Hsub).
Qed.

Lemma has_list_weaken (h h' : heap) (d : gmap string val) (key : string) :
  h ⊆ h' → has_list h d key = true → has_list h' d key = true.
Proof.
  intros Hsub. unfold has_list. destruct (d !! key) as [v|]; [|done].
  intros [xs Hxs]%bool_decide_eq_true. apply bool_decide_eq_true.
  exists xs. by apply (list_of_weaken h).
Qed.

Lemma is_phase_weaken (h h' : heap) (phase : val) :
  h ⊆ h' → is_phase h phase = true → is_phase h' phase = true.
Proof.
  intros Hsub. unfold is_phase.
  destruct (dict_of h phase) as [d|] eqn:Hd; [|done].
  rewrite (dict_of_weaken _ _ _ _ Hsub Hd). intros H.
  apply andb_true_iff in H as [H Hquestions].
  apply andb_true_iff in H as [H Hguides].
  apply andb_true_iff in H as [H Hgoals].
  rewrite H, (has_list_weaken _ _ _ _ Hsub Hgoals),
    (has_list_weaken _ _ _ _ Hsub Hguides). simpl.
  destruct (d !! "suggested_questions") as [q|]; [|done].
  apply bool_decide_eq_true in Hquestions as [qs Hqs].
  apply bool_decide_eq_true. exists qs. by apply (list_of_weaken h).
Qed.

Lemma is_arc_dict_weaken (h h' : heap) (d : gmap string val) :
  h ⊆ h' → is_arc_dict h d = true → is_arc_dict h' d = true.
Proof.
  intros Hsub. unfold is_arc_dict.
  intros [Hkeys Hphases]%andb_true_iff. rewrite Hkeys. simpl.
  destruct (d !! "phases") as [ps|]; [|done]. simpl in *.
  destruct (list_of h ps) as [phases|] eqn:Hps; [|done].
  rewrite (list_of_weaken _ _ _ _ Hsub Hps).
  rewrite forallb_forall in Hphases. apply forallb_forall.
  intros phase Hin. apply (is_phase_weaken h); auto.
Qed.

Lemma is_adaptation_weaken (h h' : heap) (v : val) :
  h ⊆ h' → is_adaptation h v = true → is_adaptation h' v = true.
Proof.
  intros Hsub. unfold is_adaptation.
  destruct (dict_of h v) as [d|] eqn:Hd; [|done].
  by rewrite (dict_of_weaken _ _ _ _ Hsub Hd).
Qed.

Lemma is_timing_weaken (h h' : heap) (v : val) :
  h ⊆ h' → is_timing h v = true → is_timing h' v = true.
Proof.
  intros Hsub. unfold is_timing.
  destruct (dict_of h v) as [d|] eqn:Hd; [|done].
  by rewrite (dict_of_weaken _ _ _ _ Hsub Hd).
Qed.

Lemma is_arc_dict_insert (h : heap) (d : gmap string val) (key : string)
    (v : val) :
  key ≠ "total_duration_seconds" → key ≠ "phases" →
  is_arc_dict h d = true → is_arc_dict h (<[key := v]> d) = true.
Proof.
  intros Hk1 Hk2. unfold is_arc_dict, has_keys. simpl.
  by rewrite !lookup_insert_ne.
Qed.

(** On a catalog whose arc for the duration, adaptation for the age and
    guideline for the duration have the shapes above,
    [load_conversation_arc] returns, and returns a rendered arc. *)
Lemma load_conversation_arc_rendered (root : val) (duration : string)
    (age : Z) (h : heap) (base adaptation timing : val)
    (d : gmap string val) :
  stored_arc root h duration = Ok base →
  dict_of h base = Some d → is_arc_dict h d = true →
  stored_adaptation root h age = Ok adaptation →
  is_adaptation h adaptation = true →
  stored_timing root h duration = Ok timing →
  is_timing h timing = true →
  ∃ arc h',
    load_conversation_arc root duration age h = (Ok arc, h') ∧
    is_rendered_arc h' arc = true.
Proof.
  intros Hbase Hd Hshape Had Hadshape Htm Htmshape.
  unfold load_conversation_arc, M_bind, M_read, M_ret.
  unfold stored_arc in Hbase.
  destruct (py_getitem h root "arcs") as [arcs|]; [|done].
  rewrite bind_Ok in Hbase. rewrite Hbase.
  unfold dict_of in Hd. destruct base as [| | | | |l]; try done.
  destruct (h !! l) as [[d'|]|] eqn:Hl; try done. injection Hd as ->.
  unfold py_copy. rewrite Hl.
  set (l' := fresh (dom h)). set (h1 := <[l' := ODict d]> h).
  assert (h ⊆ h1) as H1 by apply insert_fresh_subseteq.
  pose proof (stored_adaptation_weaken _ _ _ _ _ H1 Had) as Had1.
  unfold stored_adaptation in Had1.
  destruct (py_getitem h1 root "age_adaptations") as [ads|]; [|done].
  rewrite bind_Ok in Had1. rewrite Had1.
  unfold py_setitem at 1. subst h1. rewrite lookup_insert_eq, insert_insert_eq.
  set (h2 := <[l' := _]> h).
  assert (h ⊆ h2) as H2 by apply insert_fresh_subseteq.
  pose proof (stored_timing_weaken _ _ _ _ _ H2 Htm) as Htm2.
  unfold stored_timing in Htm2.
  destruct (py_getitem h2 root "timing_guidelines") as [gs|]; [|done].
  rewrite bind_Ok in Htm2. rewrite Htm2.
  unfold py_setitem. subst h2. rewrite lookup_insert_eq, insert_insert_eq.
  set (h3 := <[l' := _]> h).
  assert (h ⊆ h3) as H3 by apply insert_fresh_subseteq.
  eexists _, _. split; [reflexivity|].
  unfold is_rendered_arc, dict_of. unfold h3 at 1. rewrite lookup_insert_eq.
  rewrite lookup_insert_eq, lookup_insert_ne, lookup_insert_eq by done.
  rewrite (is_adaptation_weaken _ _ _ H3 Hadshape),
    (is_timing_weaken _ _ _ H3 Htmshape), !andb_true_r.
  do 2 (apply is_arc_dict_insert; [done|done|]).
  by apply (is_arc_dict_weaken h).
Qed.

Section Prompt.

Variable float_repr : float → string.
Variable container_repr : heap → loc → string.

Lemma phase_block_is_Ok (h : heap) (i : Z) (phase : val) :
  is_phase h phase = true →
  ∃ block, phase_block float_repr container_repr h i phase = Ok block.
Proof.
  unfold is_phase. destruct (dict_of h phase) as [d|] eqn:Hd; [|done].
  intros H.
  apply andb_true_iff in H as [H Hquestions].
  apply andb_true_iff in H as [H Hguides].
  apply andb_true_iff in H as [H Hgoals].
  apply andb_true_iff in H as [Hname Hkeys].
  destruct (d !! "name") as [[| | | |name|]|] eqn:Hn; try done.
  apply bool_decide_eq_true in Hname as [shown Hshown].
  destruct (has_keys_lookup d _ "duration_seconds" Hkeys) as [dur Hdur];
    [by repeat constructor|].
  destruct (has_keys_lookup d _ "percentage" Hkeys) as [pct Hpct];
    [by repeat constructor|].
  destruct (has_list_lookup _ _ _ Hgoals) as (goals & gs & Hg & Hgs).
  destruct (has_list_lookup _ _ _ Hguides) as (guides & us & Hu & Hus).
  apply list_of_iter in Hgs as [Hgs _]. apply list_of_iter in Hus as [Hus _].
  unfold phase_block, humanize.
  rewrite !(dict_of_getitem _ _ _ _ Hd), Hn, Hdur, Hpct, Hg, Hu.
  cbn [from_option]. rewrite bind_Ok, Hshown. cbn [from_option].
  repeat first [rewrite bind_Ok; cbv beta | rewrite Hgs | rewrite Hus].
  rewrite (dict_of_contains _ _ _ _ Hd).
  destruct (d !! "suggested_questions") as [q|] eqn:Hq.
  - apply bool_decide_eq_true in Hquestions as [qs Hqs].
    apply list_of_iter in Hqs as [Hqs _].
    rewrite bool_decide_eq_true_2 by by eexists. rewrite bind_Ok.
    cbn [from_option]. rewrite bind_Ok, Hqs, bind_Ok. by eexists.
  - rewrite bool_decide_eq_false_2 by by intros [? ?]. by eexists.
Qed.

Lemma bullets_lines (h : heap) (items : list val) :
  bullets float_repr container_repr h items
  = bullet_lines (py_str float_repr container_repr h <$> items).
Proof. unfold bullets, bullet_lines. by rewrite <- list_fmap_compose. Qed.

(** The block the loop appends for a phase is the block of that phase. *)
Lemma phase_block_section (h : heap) (i : Z) (phase : val) (block : string) :
  is_phase h phase = true →
  phase_block float_repr container_repr h i phase = Ok block →
  is_phase_section float_repr container_repr h i phase block.
Proof.
  unfold is_phase. destruct (dict_of h phase) as [d|] eqn:Hd; [|done].
  intros H.
  apply andb_true_iff in H as [H Hquestions].
  apply andb_true_iff in H as [H Hguides].
  apply andb_true_iff in H as [H Hgoals].
  apply andb_true_iff in H as [Hname Hkeys].
  destruct (d !! "name") as [[| | | |name|]|] eqn:Hn; try done.
  apply bool_decide_eq_true in Hname as [shown Hshown].
  destruct (has_keys_lookup d _ "duration_seconds" Hkeys) as [dur Hdur];
    [by repeat constructor|].
  destruct (has_keys_lookup d _ "percentage" Hkeys) as [pct Hpct];
    [by repeat constructor|].
  destruct (has_list_lookup _ _ _ Hgoals) as (goals & gs & Hg & Hgs).
  destruct (has_list_lookup _ _ _ Hguides) as (guides & us & Hu & Hus).
  pose proof Hgs as Hgs'. pose proof Hus as Hus'.
  apply list_of_iter in Hgs as [Hgs _]. apply list_of_iter in Hus as [Hus _].
  unfold phase_block, humanize.
  rewrite !(dict_of_getitem _ _ _ _ Hd), Hn, Hdur, Hpct, Hg, Hu.
  cbn [from_option]. rewrite bind_Ok, Hshown. cbn [from_option].
  repeat first [rewrite bind_Ok; cbv beta | rewrite Hgs | rewrite Hus].
  rewrite (dict_of_contains _ _ _ _ Hd), !bullets_lines.
  destruct (d !! "suggested_questions") as [q|] eqn:Hq.
  - apply bool_decide_eq_true in Hquestions as [qs Hqs].
    pose proof Hqs as Hqs'. apply list_of_iter in Hqs as [Hqs _].
    rewrite bool_decide_eq_true_2 by by eexists. rewrite bind_Ok.
    cbn [from_option]. rewrite bind_Ok, Hqs, bind_Ok, bullets_lines.
    intros [= <-].
    exists d, name, shown, dur, pct, goals, guides, gs, us, (Some qs).
    rewrite Hq. repeat split; try done. by exists qs.
  - rewrite bool_decide_eq_false_2 by by intros [? ?].
    intros [= <-].
    exists d, name, shown, dur, pct, goals, guides, gs, us, None.
    rewrite Hq. by repeat split.
Qed.

Lemma phase_blocks_exist (h : heap) (phases : list val) (i : Z) :
  forallb (is_phase h) phases = true →
  ∃ blocks,
    Forall2 (λ ip block,
               phase_block float_repr container_repr h ip.1 ip.2 = Ok block)
            (enumerate i phases) blocks.
Proof.
  revert i. induction phases as [|phase phases IH]; intros i Hall.
  { exists []. constructor. }
  simpl in Hall. apply andb_true_iff in Hall as [Hphase Hall].
  destruct (phase_block_is_Ok h i phase Hphase) as [block Hblock].
  destruct (IH (i + 1)%Z Hall) as [blocks Hblocks].
  exists (block :: blocks). by constructor.
Qed.

Lemma phase_blocks_sections (h : heap) (phases : list val) (i : Z)
    (blocks : list string) :
  forallb (is_phase h) phases = true →
  Forall2 (λ ip block,
             phase_block float_repr container_repr h ip.1 ip.2 = Ok block)
          (enumerate i phases) blocks →
  Forall2 (λ ip block,
             is_phase_section float_repr container_repr h ip.1 ip.2 block)
          (enumerate i phases) blocks.
Proof.
  revert i blocks. induction phases as [|phase phases IH];
    intros i blocks Hall Hblocks.
  { inversion Hblocks; subst. constructor. }
  simpl in Hall. apply andb_true_iff in Hall as [Hphase Hall].
  simpl in Hblocks. inversion Hblocks as [|? block ? blocks' Hb Hbs]; subst.
  simpl. constructor; [by apply phase_block_section|by apply IH].
Qed.

Lemma conversation_rules_section (child_name : string) :
  conversation_rules child_name = rules_section child_name.
Proof. reflexivity. Qed.

(** The loop appends the blocks of the phases, in their order. *)
Lemma phases_loop_concat (h : heap) (phases : list val) (i : Z)
    (blocks : list string) (prompt : string) :
  Forall2 (λ ip block,
             phase_block float_repr container_repr h ip.1 ip.2 = Ok block)
          (enumerate i phases) blocks →
  phases_loop float_repr container_repr h i phases prompt
    = Ok (prompt +:+ concat_all blocks).
Proof.
  revert i blocks prompt.
  induction phases as [|phase phases IH]; intros i blocks prompt Hblocks.
  { inversion Hblocks; subst. simpl. by rewrite append_nil_r. }
  simpl in Hblocks. inversion Hblocks as [|? block ? blocks' Hb Hbs]; subst.
  simpl in *. rewrite Hb. simpl. rewrite (IH _ _ _ Hbs).
  by rewrite append_assoc.
Qed.

Lemma enumerate_length (i : Z) (xs : list val) :
  length (enumerate i xs) = length xs.
Proof. revert i. induction xs as [|x xs IH]; intros i; simpl; auto. Qed.

(** C2. For every name, age, duration and greeting, the prompt rendered
    for a rendered arc contains, in this order: the greeting; one block
    per phase in the order of the arc's phases, each the block of its
    phase, numbered from 1, with the name in title case, the duration and
    percentage, and the goals, guidelines and suggested questions as
    bullet lines; the age-adaptation block; the timing block; and the
    list of the ten conversation rules, numbered from 1 to 10. *)
Theorem create_system_prompt_sections (h : heap) (child_name : string)
    (child_age : Z) (duration greeting : string) (arc : val) :
  is_rendered_arc h arc = true →
  ∃ (phases : list val) (blocks : list string)
    (adaptations timing before between after : string),
    (py_getitem h arc "phases" ≫= py_iter h) = Ok phases ∧
    length blocks = length phases ∧
    Forall2 (λ ip block,
               is_phase_section float_repr container_repr h ip.1 ip.2 block)
            (enumerate 1 phases) blocks ∧
    is_adaptation_section float_repr container_repr h child_age arc
      adaptations ∧
    is_timing_section float_repr container_repr h arc timing ∧
    length (rule_sentences child_name) = 10%nat ∧
    create_system_prompt float_repr container_repr h child_name child_age
        duration greeting arc
      = Ok (before +:+ greeting +:+ between +:+ concat_all blocks +:+
            (nl +:+ nl) +:+ adaptations +:+ nl +:+ timing +:+ nl +:+
            rules_section child_name +:+ after).
Proof.
  unfold is_rendered_arc. destruct (dict_of h arc) as [d|] eqn:Hd; [|done].
  intros H.
  apply andb_true_iff in H as [H Htiming].
  apply andb_true_iff in H as [H Hadapt].
  apply andb_true_iff in H as [Htotal Hphases].
  destruct (has_keys_lookup d _ "total_duration_seconds" Htotal)
    as [total Htot]; [by repeat constructor|].
  destruct (d !! "age_adaptation") as [a|] eqn:Ha; [|done].
  unfold is_adaptation in Hadapt.
  destruct (dict_of h a) as [da|] eqn:Hda; [|done].
  destruct (d !! "timing") as [g|] eqn:Hg; [|done].
  unfold is_timing in Htiming.
  destruct (dict_of h g) as [dg|] eqn:Hdg; [|done].
  destruct (d !! "phases") as [ps|] eqn:Hps; [|done].
  simpl (_ ≫= _) in Hphases.
  destruct (list_of h ps) as [phases|] eqn:Hlist; [|done].
  destruct (phase_blocks_exist h phases 1 Hphases) as [blocks Hblocks].
  destruct (has_keys_lookup da _ "language_level" Hadapt) as [v1 Hv1];
    [by repeat constructor|].
  destruct (has_keys_lookup da _ "response_length" Hadapt) as [v2 Hv2];
    [by repeat constructor|].
  destruct (has_keys_lookup da _ "sentence_complexity" Hadapt) as [v3 Hv3];
    [by repeat constructor|].
  destruct (has_keys_lookup da _ "energy" Hadapt) as [v4 Hv4];
    [by repeat constructor|].
  destruct (has_keys_lookup da _ "attention_span" Hadapt) as [v5 Hv5];
    [by repeat constructor|].
  destruct (has_keys_lookup dg _ "average_response_length_seconds" Htiming)
    as [w1 Hw1]; [by repeat constructor|].
  destruct (has_keys_lookup dg _ "max_response_length_seconds" Htiming)
    as [w2 Hw2]; [by repeat constructor|].
  destruct (has_keys_lookup dg _ "pause_between_responses_seconds" Htiming)
    as [w3 Hw3]; [by repeat constructor|].
  destruct (list_of_iter _ _ _ Hlist) as [Hiter Hlen].
  assert (py_getitem h arc "phases" = Ok ps) as Hgps
    by (by rewrite (dict_of_getitem _ _ _ _ Hd), Hps).
  assert (py_getitem h arc "age_adaptation" = Ok a) as Hga
    by (by rewrite (dict_of_getitem _ _ _ _ Hd), Ha).
  assert (py_getitem h arc "timing" = Ok g) as Hgg
    by (by rewrite (dict_of_getitem _ _ _ _ Hd), Hg).
  assert (py_getitem h arc "total_duration_seconds" = Ok total) as Hgt
    by (by rewrite (dict_of_getitem _ _ _ _ Hd), Htot).
  assert (∀ key v, da !! key = Some v → py_getitem h a key = Ok v) as Hgda
    by (intros key v Hv; by rewrite (dict_of_getitem _ _ _ _ Hda), Hv).
  assert (∀ key v, dg !! key = Some v → py_getitem h g key = Ok v) as Hgdg
    by (intros key v Hv; by rewrite (dict_of_getitem _ _ _ _ Hdg), Hv).
  exists phases, blocks,
    (adaptation_section child_age
       (py_str float_repr container_repr h v2)
       (py_str float_repr container_repr h v3)
       (py_str float_repr container_repr h v4)
       (py_str float_repr container_repr h v5)),
    (timing_section (py_str float_repr container_repr h w1)
       (py_str float_repr container_repr h w2)
       (py_str float_repr container_repr h w3)),
    (header_text child_name child_age duration
       (py_str float_repr container_repr h total)
       (py_str float_repr container_repr h v1)),
    (structure_text duration (length phases)),
    (nl +:+ quality_indicators child_name).
  split. { by rewrite Hgps, bind_Ok. }
  split. { apply Forall2_length in Hblocks.
           by rewrite enumerate_length in Hblocks. }
  split; [by apply phase_blocks_sections|].
  split. { exists d, da, a, v2, v3, v4, v5. by repeat split. }
  split. { exists d, dg, g, w1, w2, w3. by repeat split. }
  split; [reflexivity|].
  rewrite <- conversation_rules_section.
  change (adaptation_section child_age) with (age_adaptation_text child_age).
  change timing_section with timing_text.
  unfold create_system_prompt, age_adaptation_block, timing_block,
    prompt_header, prompt_structure.
  repeat first
    [ rewrite bind_Ok; cbv beta
    | rewrite Hgt | rewrite Hga | rewrite Hgg | rewrite Hgps
    | rewrite (Hgda _ _ Hv1) | rewrite (Hgda _ _ Hv2)
    | rewrite (Hgda _ _ Hv3) | rewrite (Hgda _ _ Hv4)
    | rewrite (Hgda _ _ Hv5) | rewrite (Hgdg _ _ Hw1)
    | rewrite (Hgdg _ _ Hw2) | rewrite (Hgdg _ _ Hw3)
    | rewrite Hlen | rewrite Hiter
    | rewrite (phases_loop_concat _ _ _ _ _ Hblocks) ].
  f_equal. by rewrite !append_assoc.
Qed.

End Prompt.

Lemma create_system_prompt_sections_sample :
  let h := (load_conversation_arc Sample.root "5min" 7 Sample.store).2 in
  let arc := VRef 57 in
  ∃ (phases : list val) (blocks : list string)
    (adaptations timing before between after : string),
    (py_getitem h arc "phases" ≫= py_iter h) = Ok phases ∧
    length blocks = length phases ∧
    Forall2 (λ ip block,
               is_phase_section Sample.float_repr Sample.container_repr h
                 ip.1 ip.2 block)
            (enumerate 1 phases) blocks ∧
    is_adaptation_section Sample.float_repr Sample.container_repr h 7 arc
      adaptations ∧
    is_timing_section Sample.float_repr Sample.container_repr h arc timing ∧
    length (rule_sentences "Emma") = 10%nat ∧
    create_system_prompt Sample.float_repr Sample.container_repr h "Emma" 7
        "5min" "Ho ho ho! Merry Christmas, Emma!" arc
      = Ok (before +:+ "Ho ho ho! Merry Christmas, Emma!" +:+ between +:+
            concat_all blocks +:+
            (nl +:+ nl) +:+ adaptations +:+ nl +:+ timing +:+ nl +:+
            rules_section "Emma" +:+ after).
Proof.
  apply (create_system_prompt_sections Sample.float_repr Sample.container_repr).
  vm_compute; reflexivity.
Defined.

(** ** The start-call route *)

Section Orchestrator.

Variable TAVUS_API_KEY TAVUS_PERSONA_ID : option string.
Variable CONVERSATION_ARCS : val.
Variable float_repr : float → string.
Variable container_repr : heap → loc → string.
Variable isoformat : datetime → string.

Local Abbreviation endpoint :=
  (start_santa_call TAVUS_API_KEY TAVUS_PERSONA_ID CONVERSATION_ARCS
     float_repr container_repr isoformat).
Local Abbreviation route :=
  (post_start_call TAVUS_API_KEY TAVUS_PERSONA_ID CONVERSATION_ARCS
     float_repr container_repr isoformat).

Lemma validate_duration_Ok (v : string) :
  validate_duration v = Ok v ↔ v = "5min" ∨ v = "10min".
Proof.
  unfold validate_duration. case_bool_decide as Hv.
  - split; [|done]. intros _.
    apply elem_of_cons in Hv as [->|Hv]; [by left|].
    apply elem_of_cons in Hv as [->|Hv]; [by right|].
    by apply elem_of_nil in Hv.
  - split; [done|]. intros [->| ->]; destruct Hv; repeat constructor.
Qed.

(** C4. A request whose name is not 1 to 50 characters long, whose age is
    not from 2 to 12, or whose duration is neither [5min] nor [10min] is
    rejected with a validation error, a client error (422), and nothing is
    sent to the provider. *)
Theorem invalid_start_call_rejected (h : heap) (draw : nat) (utcnow : datetime)
    (provider : Post → reply) (body : StartCallRequest) :
  ¬ (1 ≤ String.length (child_name body) ≤ 50)%nat
  ∨ ¬ (2 ≤ child_age body ≤ 12)%Z
  ∨ (call_duration body ≠ "5min" ∧ call_duration body ≠ "10min") →
  returned (route h draw utcnow provider body)
    = Raise RequestValidationError ∧
  (400 ≤ status_of RequestValidationError < 500)%Z ∧
  posts (route h draw utcnow provider body) = [] ∧
  added_tasks (route h draw utcnow provider body) = [].
Proof.
  intros Hbad.
  assert (StartCallRequest_validate body = Raise RequestValidationError)
    as Hval.
  { unfold StartCallRequest_validate.
    destruct (Nat.leb_spec 1 (String.length (child_name body)));
      destruct (Nat.leb_spec (String.length (child_name body)) 50);
      simpl; try done.
    destruct (Z.leb_spec 2 (child_age body));
      destruct (Z.leb_spec (child_age body) 12); simpl; try done.
    destruct (validate_duration (call_duration body)) as [v|e] eqn:Hv;
      [|done].
    assert (validate_duration (call_duration body) = Ok (call_duration body))
      as Hv' by (unfold validate_duration in *; by case_bool_decide).
    apply validate_duration_Ok in Hv'.
    destruct Hbad as [Hbad|[Hbad|[Hbad1 Hbad2]]]; [lia|lia|].
    by destruct Hv'. }
  unfold post_start_call. rewrite Hval. simpl.
  repeat split; done.
Qed.

(** C5. On a valid request, when the API key or the persona id is unset,
    the call fails with an [HTTPException] of status 500, which is not the
    status of a validation error, and nothing is sent to the provider. *)
Theorem unset_credentials_server_error (h : heap) (draw : nat)
    (utcnow : datetime) (provider : Post → reply) (body : StartCallRequest) :
  StartCallRequest_validate body = Ok body →
  TAVUS_API_KEY = None ∨ TAVUS_PERSONA_ID = None →
  ∃ detail,
    returned (route h draw utcnow provider body)
      = Raise (HTTPException 500 detail) ∧
    status_of (HTTPException 500 detail) ≠ status_of RequestValidationError ∧
    posts (route h draw utcnow provider body) = [] ∧
    added_tasks (route h draw utcnow provider body) = [].
Proof.
  intros Hval Hunset. eexists.
  unfold post_start_call, start_santa_call.
  rewrite Hval.
  assert (negb (is_set TAVUS_API_KEY) || negb (is_set TAVUS_PERSONA_ID) = true)
    as -> by (destruct Hunset as [-> | ->]; simpl;
              [done|by rewrite orb_true_r]).
  unfold credentials_error. simpl. repeat split; done.
Qed.

(** C6. When a start call reaches the provider, exactly one request is
    sent, and: a timeout is raised as 504 with a message that tells the
    caller to try again; another transport failure is raised as 503; an
    answer whose status is not 200 is raised with that status and a detail
    that holds the text of the answer. *)
Theorem provider_failures_mapped (h : heap) (draw : nat) (utcnow : datetime)
    (provider : Post → reply) (request : StartCallRequest) :
  posts (endpoint h draw utcnow provider request) ≠ [] →
  ∃ call,
    posts (endpoint h draw utcnow provider request) = [call] ∧
    (provider call = TimeoutException →
       returned (endpoint h draw utcnow provider request)
         = Raise (HTTPException 504
                    "Timeout connecting to Tavus API. Please try again.")) ∧
    (∀ message, provider call = RequestError message →
       returned (endpoint h draw utcnow provider request)
         = Raise (HTTPException 503
                    ("Error connecting to Tavus API: " +:+ message))) ∧
    (∀ status_code text body,
       provider call = Response status_code text body →
       status_code ≠ 200%Z →
       returned (endpoint h draw utcnow provider request)
         = Raise (HTTPException status_code ("Tavus API error: " +:+ text))
       ∧ substring text ("Tavus API error: " +:+ text)).
Proof.
  unfold start_santa_call.
  destruct (negb (is_set TAVUS_API_KEY) || negb (is_set TAVUS_PERSONA_ID));
    [done|].
  destruct (generate_greeting _ _ _ _ _) as [greeting|]; [|done].
  destruct (load_conversation_arc _ _ _ _) as [[arc|] h']; [|done].
  destruct (create_system_prompt _ _ _ _ _ _ _ _) as [system_prompt|];
    [|done].
  intros _. exists (tavus_request_of TAVUS_API_KEY TAVUS_PERSONA_ID
                      request system_prompt).
  destruct (provider _) as [|message|status_code text body] eqn:Hreply.
  - repeat split; try done.
  - repeat split; try done. by intros ? [= ->].
  - destruct (Z.eqb_spec status_code 200) as [->|Hne]; simpl.
    + split.
      { destruct body as [tavus_data|]; [|done].
        by destruct (start_call_response _ _ _ _ _ _ _) as [[? ?]|]. }
      repeat split; try done; intros; simplify_eq.
    + repeat split; try done; intros; simplify_eq; [done|].
      apply substring_app_r.
      exists EmptyString, EmptyString. by rewrite append_nil_r.
Qed.

End Orchestrator.

Lemma invalid_start_call_rejected_7min :
  let body := {| child_name := "Emma"; child_age := 7;
                 call_duration := "7min"; parent_email := None |} in
  let r := post_start_call (Some "key") (Some "persona") Sample.root
             Sample.float_repr Sample.container_repr Sample.isoformat
             Sample.store 0 0 (λ _, Response 200 "{}" (Some (JObject ∅)))
             body in
  returned r = Raise RequestValidationError ∧
  (400 ≤ status_of RequestValidationError < 500)%Z ∧
  posts r = [] ∧ added_tasks r = [].
Proof.
  apply invalid_start_call_rejected. right. right. split; discriminate.
Defined.

Lemma unset_credentials_server_error_sample :
  let r := post_start_call None (Some "persona") Sample.root
             Sample.float_repr Sample.container_repr Sample.isoformat
             Sample.store 0 0 (λ _, Response 200 "{}" (Some (JObject ∅)))
             Sample.request in
  ∃ detail,
    returned r = Raise (HTTPException 500 detail) ∧
    status_of (HTTPException 500 detail) ≠ status_of RequestValidationError ∧
    posts r = [] ∧ added_tasks r = [].
Proof.
  apply unset_credentials_server_error; [reflexivity|by left].
Defined.

Lemma provider_failures_mapped_timeout :
  let provider := λ _ : Post, TimeoutException in
  let r := start_santa_call (Some "key") (Some "persona") Sample.root
             Sample.float_repr Sample.container_repr Sample.isoformat
             Sample.store 0 0 provider Sample.request in
  ∃ call,
    posts r = [call] ∧
    (provider call = TimeoutException →
       returned r
         = Raise (HTTPException 504
                    "Timeout connecting to Tavus API. Please try again.")) ∧
    (∀ message, provider call = RequestError message →
       returned r
         = Raise (HTTPException 503
                    ("Error connecting to Tavus API: " +:+ message))) ∧
    (∀ status_code text body,
       provider call = Response status_code text body →
       status_code ≠ 200%Z →
       returned r
         = Raise (HTTPException status_code ("Tavus API error: " +:+ text))
       ∧ substring text ("Tavus API error: " +:+ text)).
Proof.
  apply provider_failures_mapped. vm_compute. discriminate.
Defined.

(** ** [get_analytics] *)

Lemma ratings_of_valid (completed_calls : list CallCompletionRequest) :
  Forall (λ x, valid_completion x = true) completed_calls →
  ratings_of completed_calls = omap parent_rating completed_calls.
Proof.
  induction 1 as [|x xs Hx _ IH]; [done|].
  unfold ratings_of in *. cbn [omap list_omap]. rewrite IH.
  unfold valid_completion in Hx.
  destruct (parent_rating x) as [r|]; [|done].
  destruct (Z.eqb_spec r 0) as [->|]; done.
Qed.

(** ** No overflow on means of bounded numbers *)

Lemma round_half_even_bounds (n d : Z) :
  (0 < d)%Z → (0 ≤ n)%Z →
  (0 ≤ PyFloat.round_half_even n d ≤ n / d + 1)%Z.
Proof.
  intros Hd Hn. unfold PyFloat.round_half_even.
  pose proof (Z.div_pos n d Hn Hd).
  destruct (2 * (n mod d) ?= d)%Z; [destruct (Z.even _)|..]; lia.
Qed.

Lemma last_digit_le (a d : Z) :
  (0 < d)%Z → (0 < a < 2 ^ 1000 * d)%Z → (PyFloat.last_digit a d ≤ 948)%Z.
Proof.
  intros Hd Ha. unfold PyFloat.last_digit, PyFloat.floor_log2.
  assert (Z.log2 a ≤ 1000 + Z.log2 d)%Z.
  { rewrite <- Z.log2_mul_pow2 by lia.
    apply Z.log2_le_mono. lia. }
  repeat case_match; lia.
Qed.

Lemma rounded_value_lt (a d e : Z) :
  (0 < d)%Z → (0 < a < 2 ^ 1000 * d)%Z → (e ≤ 948)%Z →
  (inject_Z (if (0 <=? e)%Z then PyFloat.round_half_even a (d * 2 ^ e)
             else PyFloat.round_half_even (a * 2 ^ (- e)) d)
   * Qpower (2 # 1) e
   < inject_Z (2 ^ 1024))%Q.
Proof.
  intros Hd Ha He.
  destruct (Z.leb_spec 0 e) as [He0|He0].
  - assert (0 < 2 ^ e)%Z as Hp by (by apply Z.pow_pos_nonneg).
    destruct (round_half_even_bounds a (d * 2 ^ e)) as [Hm0 Hm]; [lia|lia|].
    rewrite <- (Zpower_Qpower 2 e He0), <- inject_Z_mult.
    rewrite <- Zlt_Qlt.
    assert (a / (d * 2 ^ e) * 2 ^ e ≤ a / d)%Z.
    { rewrite <- Z.div_div by lia.
      rewrite Z.mul_comm. apply Z.mul_div_le. lia. }
    assert (a / d < 2 ^ 1000)%Z by (apply Z.div_lt_upper_bound; lia).
    assert (2 ^ e ≤ 2 ^ 948)%Z by (apply Z.pow_le_mono_r; lia).
    assert (2 ^ 1000 + 2 ^ 948 < 2 ^ 1024)%Z by (by vm_compute).
    nia.
  - set (k := (- e)%Z). assert (0 < k)%Z as Hk by lia.
    assert (0 < 2 ^ k)%Z as Hp by (apply Z.pow_pos_nonneg; lia).
    destruct (round_half_even_bounds (a * 2 ^ k) d) as [Hm0 Hm]; [lia|nia|].
    replace e with (- k)%Z by lia.
    rewrite Qpower_opp, <- (Zpower_Qpower 2 k) by lia.
    apply Qlt_shift_div_r.
    { replace 0%Q with (inject_Z 0) by done. by rewrite <- Zlt_Qlt. }
    rewrite <- inject_Z_mult, <- Zlt_Qlt.
    assert (a * 2 ^ k / d < 2 ^ 1000 * 2 ^ k)%Z
      by (apply Z.div_lt_upper_bound; nia).
    assert (2 ^ 1000 < 2 ^ 1024)%Z by (by vm_compute).
    nia.
Qed.

Lemma nearest_not_too_large (a : Z) (p : positive) :
  (Z.abs a < 2 ^ 1000 * Z.pos p)%Z →
  PyFloat.too_large (PyFloat.nearest (a # p)) = false.
Proof.
  intros Ha. unfold PyFloat.nearest. cbn [Qnum Qden].
  destruct (Z.eqb_spec a 0) as [->|Hne]; [by vm_compute|].
  set (A := Z.abs a). set (d := Z.pos p).
  set (e := PyFloat.last_digit A d).
  set (m := if (0 <=? e)%Z then _ else _).
  assert (0 < A < 2 ^ 1000 * d)%Z as HA by (unfold A, d; lia).
  assert (e ≤ 948)%Z as He by (by apply last_digit_le).
  pose proof (rounded_value_lt A d e eq_refl HA He) as Hlt. fold m in Hlt.
  assert (0 ≤ m)%Z as Hm.
  { unfold m. destruct (0 <=? e)%Z eqn:Hsign.
    - apply round_half_even_bounds; [|lia].
      apply Z.leb_le in Hsign.
      assert (0 < 2 ^ e)%Z by (by apply Z.pow_pos_nonneg). unfold d. lia.
    - apply Z.leb_gt in Hsign. apply round_half_even_bounds; [done|].
      assert (0 < 2 ^ (- e))%Z by (apply Z.pow_pos_nonneg; lia). lia. }
  unfold PyFloat.too_large.
  destruct (Qle_bool _ _) eqn:Hle; [|done]. exfalso.
  apply Qle_bool_iff in Hle. revert Hle. apply Qlt_not_le.
  rewrite Qred_correct, Qabs_Qmult.
  rewrite (Qabs_pos (Qpower _ _)) by (by apply Qpower_0_le).
  change (Qabs (inject_Z (Z.sgn a * m))) with (inject_Z (Z.abs (Z.sgn a * m))).
  replace (Z.abs (Z.sgn a * m)) with m by lia.
  rewrite <- (Zpower_Qpower 2 1024) by done. exact Hlt.
Qed.

Lemma int_truediv_is_Ok (a b : Z) :
  b ≠ 0%Z → (Z.abs a < 2 ^ 1000 * Z.abs b)%Z →
  ∃ x, PyFloat.int_truediv a b = Ok x.
Proof.
  intros Hb Ha. unfold PyFloat.int_truediv. destruct b as [|p|p]; [done|..].
  - rewrite nearest_not_too_large by done. by eexists.
  - rewrite nearest_not_too_large by (rewrite Z.abs_opp; done). by eexists.
Qed.

Lemma foldl_add_acc (acc : Z) (xs : list Z) :
  foldl Z.add acc xs = (acc + foldl Z.add 0 xs)%Z.
Proof.
  revert acc. induction xs as [|x xs IH]; intros acc; simpl; [lia|].
  rewrite (IH (acc + x)%Z), (IH (0 + x)%Z). lia.
Qed.

Lemma py_sum_cons (x : Z) (xs : list Z) : py_sum (x :: xs) = (x + py_sum xs)%Z.
Proof. unfold py_sum. simpl. apply foldl_add_acc. Qed.

Lemma py_sum_bound (B : Z) (xs : list Z) :
  Forall (λ x, Z.abs x ≤ B)%Z xs →
  (Z.abs (py_sum xs) ≤ B * Z.of_nat (length xs))%Z.
Proof.
  induction 1 as [|x xs Hx _ IH]; [unfold py_sum; simpl; lia|].
  rewrite py_sum_cons. cbn [length]. lia.
Qed.

(** A mean of numbers below [2 ^ 1000] in size does not overflow. *)
Lemma mean_is_Ok (xs : list Z) :
  xs ≠ [] → Forall (λ x, Z.abs x < 2 ^ 1000)%Z xs →
  ∃ m, PyFloat.int_truediv (py_sum xs) (Z.of_nat (length xs)) = Ok m.
Proof.
  intros Hne Hall. apply int_truediv_is_Ok.
  { destruct xs; [done|]. simpl. lia. }
  assert (Z.abs (py_sum xs) ≤ (2 ^ 1000 - 1) * Z.of_nat (length xs))%Z.
  { apply py_sum_bound. eapply Forall_impl; [exact Hall|]. simpl. lia. }
  assert (0 < Z.of_nat (length xs))%Z by (destruct xs; [done|simpl; lia]).
  lia.
Qed.

Lemma ratings_of_range (completed_calls : list CallCompletionRequest) :
  Forall (λ x, valid_completion x = true) completed_calls →
  Forall (λ r, Z.abs r < 2 ^ 1000)%Z (ratings_of completed_calls).
Proof.
  intros Hvalid. rewrite (ratings_of_valid _ Hvalid).
  induction Hvalid as [|x xs Hx _ IH]; [constructor|].
  cbn [omap list_omap]. unfold valid_completion in Hx.
  destruct (parent_rating x) as [r|]; [|done].
  constructor; [|done].
  apply andb_true_iff in Hx as [H1%Z.leb_le H5%Z.leb_le].
  assert (5 < 2 ^ 1000)%Z by (by vm_compute). lia.
Qed.

(** [get_analytics] returns on every log of valid completion requests
    whose durations are below [2 ^ 1000] in size. *)
Lemma get_analytics_is_Ok (utcnow : datetime) (analytics_store : list event) :
  Forall (λ x, valid_completion x = true
               ∧ (Z.abs (actual_duration_seconds x) < 2 ^ 1000)%Z)
         (completed_of analytics_store) →
  ∃ r, get_analytics utcnow analytics_store = Ok r.
Proof.
  intros Hall. unfold get_analytics.
  destruct analytics_store as [|x xs]; [by eexists|].
  set (log := x :: xs) in *.
  destruct (match completed_of log with [] => _ | _ => _ end) as [d|e] eqn:Hd.
  2:{ exfalso. destruct (completed_of log) as [|c cs] eqn:Hc; [done|].
      destruct (mean_is_Ok (actual_duration_seconds <$> c :: cs)) as [m Hm].
      - done.
      - apply Forall_fmap. eapply Forall_impl; [exact Hall|]. by intros ? [_ ?].
      - rewrite length_fmap in Hm. congruence. }
  rewrite bind_Ok.
  destruct (match ratings_of (completed_of log) with [] => _ | _ => _ end)
    as [g|e] eqn:Hg.
  2:{ exfalso.
      destruct (ratings_of (completed_of log)) as [|r rs] eqn:Hr; [done|].
      destruct (mean_is_Ok (r :: rs)) as [m Hm]; [done| |congruence].
      rewrite <- Hr. apply ratings_of_range.
      eapply Forall_impl; [exact Hall|]. by intros ? [? _]. }
  rewrite bind_Ok. by eexists.
Qed.

Lemma get_analytics_averages (utcnow : datetime) (analytics_store : list event) :
  (λ r, (average_duration_seconds r, average_rating r))
    <$> get_analytics utcnow analytics_store
  = (d ← rounded_mean 1 (actual_duration_seconds
                            <$> completed_of analytics_store);
     r ← rounded_mean 2 (ratings_of (completed_of analytics_store));
     Ok (d, r)).
Proof.
  unfold get_analytics. destruct analytics_store as [|x xs]; [done|].
  set (log := x :: xs). unfold rounded_mean.
  destruct (completed_of log) as [|c cs] eqn:Hc.
  - done.
  - rewrite length_fmap, fmap_cons. cbv iota.
    destruct (PyFloat.int_truediv (py_sum (actual_duration_seconds c :: _)) _)
      as [d|]; [|done]. rewrite !bind_Ok.
    destruct (ratings_of (c :: cs)) as [|r rs]; [done|].
    by destruct (PyFloat.int_truediv _ _).
Qed.

(** ** The float operations, by the numbers they stand for *)

Lemma round_half_even_nearest_integer (n : Z) (p : positive) :
  PyFloat.round_half_even n (Z.pos p) = nearest_integer (n # p).
Proof.
  unfold PyFloat.round_half_even, nearest_integer, Qfloor.
  set (q := (n / Z.pos p)%Z).
  assert (((n # p) - inject_Z q ?= 1 # 2)%Q = (2 * (n mod Z.pos p) ?= Z.pos p)%Z)
    as ->; [|done].
  unfold Qcompare, Qminus, Qplus, Qopp, inject_Z. cbn [Qnum Qden].
  rewrite Z.mod_eq by done. fold q.
  rewrite Pos.mul_1_r.
  replace ((n * 1 + - q * Z.pos p) * Z.pos 2)%Z
    with (2 * (n - Z.pos p * q))%Z by lia.
  by rewrite Z.mul_1_l.
Qed.

Lemma nearest_integer_comp (x y : Q) :
  (x == y)%Q → nearest_integer x = nearest_integer y.
Proof.
  intros Hxy. unfold nearest_integer.
  rewrite (Qfloor_comp _ _ Hxy).
  assert ((x - inject_Z (Qfloor y) ?= 1 # 2)%Q
          = (y - inject_Z (Qfloor y) ?= 1 # 2)%Q) as ->; [|done].
  by rewrite Hxy.
Qed.

Lemma round_nearest_decimal (x : float) (ndigits : Z) :
  PyFloat.round x ndigits
  = PyFloat.nearest (nearest_decimal ndigits x).
Proof.
  unfold PyFloat.round, nearest_decimal. f_equal. f_equal.
  destruct x as [n d]. cbn [Qnum Qden].
  rewrite round_half_even_nearest_integer.
  apply nearest_integer_comp.
  unfold Qeq, Qmult, inject_Z. cbn [Qnum Qden]. rewrite Pos.mul_1_r. lia.
Qed.

Lemma Qpow2_nonneg (f : Z) :
  (0 ≤ f)%Z → ((2 # 1) ^ f == inject_Z (2 ^ f))%Q.
Proof. intros Hf. symmetry. by apply (Zpower_Qpower 2). Qed.

Lemma Qpow2_neg (f : Z) :
  (f < 0)%Z → ((2 # 1) ^ f == 1 # Z.to_pos (2 ^ (- f)))%Q.
Proof.
  intros Hf. replace f with (- - f)%Z at 1 by lia.
  rewrite Qpower_opp, Qpow2_nonneg by lia.
  assert (0 < 2 ^ (- f))%Z as Hpos by (apply Z.pow_pos_nonneg; lia).
  destruct (2 ^ (- f))%Z as [|q|q]; try lia. done.
Qed.

Lemma pow2_le_fraction (f a : Z) (p : positive) :
  ((2 # 1) ^ f <= a # p)%Q
  ↔ if (0 <=? f)%Z then (Z.pos p * 2 ^ f ≤ a)%Z
    else (Z.pos p ≤ a * 2 ^ (- f))%Z.
Proof.
  destruct (Z.leb_spec 0 f) as [Hf|Hf].
  - rewrite Qpow2_nonneg by done. unfold Qle, inject_Z. cbn [Qnum Qden]. lia.
  - rewrite Qpow2_neg by done. unfold Qle. cbn [Qnum Qden].
    assert (0 < 2 ^ (- f))%Z as Hpos by (apply Z.pow_pos_nonneg; lia).
    rewrite Z2Pos.id by done. lia.
Qed.

Lemma fraction_lt_pow2 (f a : Z) (p : positive) :
  (a # p < (2 # 1) ^ f)%Q
  ↔ if (0 <=? f)%Z then (a < Z.pos p * 2 ^ f)%Z
    else (a * 2 ^ (- f) < Z.pos p)%Z.
Proof.
  destruct (Z.leb_spec 0 f) as [Hf|Hf].
  - rewrite Qpow2_nonneg by done. unfold Qlt, inject_Z. cbn [Qnum Qden]. lia.
  - rewrite Qpow2_neg by done. unfold Qlt. cbn [Qnum Qden].
    assert (0 < 2 ^ (- f))%Z as Hpos by (apply Z.pow_pos_nonneg; lia).
    rewrite Z2Pos.id by done. lia.
Qed.

(** [floor_log2 a d] is the exponent of the power of two at or below
    [a / d]. *)
Lemma floor_log2_spec (a : Z) (p : positive) :
  (0 < a)%Z →
  ((2 # 1) ^ PyFloat.floor_log2 a (Z.pos p) <= a # p)%Q ∧
  (a # p < (2 # 1) ^ (PyFloat.floor_log2 a (Z.pos p) + 1))%Q.
Proof.
  intros Ha. rewrite pow2_le_fraction, fraction_lt_pow2.
  unfold PyFloat.floor_log2.
  set (d := Z.pos p). set (la := Z.log2 a). set (ld := Z.log2 d).
  assert (0 < d)%Z as Hd by done.
  destruct (Z.log2_spec a Ha) as [Hla1 Hla2]. fold la in Hla1, Hla2.
  destruct (Z.log2_spec d Hd) as [Hld1 Hld2]. fold ld in Hld1, Hld2.
  assert (0 ≤ la)%Z as Hla0 by apply Z.log2_nonneg.
  assert (0 ≤ ld)%Z as Hld0 by apply Z.log2_nonneg.
  rewrite <- Z.add_1_r in Hla2, Hld2.
  rewrite Z.pow_add_r in Hla2, Hld2 by lia.
  change (2 ^ 1)%Z with 2%Z in *.
  set (e := (la - ld)%Z).
  destruct (Z.leb_spec 0 e) as [He|He].
  - assert (la = ld + e)%Z as Hla by lia.
    rewrite Hla in Hla1, Hla2. rewrite Z.pow_add_r in Hla1, Hla2 by lia.
    assert (0 < 2 ^ e)%Z by (apply Z.pow_pos_nonneg; lia).
    assert (0 < 2 ^ ld)%Z by (apply Z.pow_pos_nonneg; lia).
    change (2 ^ 1)%Z with 2%Z in *.
    destruct (Z.ltb_spec a (d * 2 ^ e)) as [Hbelow|Hbelow].
    + replace (e - 1 + 1)%Z with e by lia.
      rewrite (proj2 (Z.leb_le 0 e)) by done. split; [|done].
      destruct (Z.leb_spec 0 (e - 1)) as [He1|He1].
      * replace e with (e - 1 + 1)%Z in Hla1 by lia.
        rewrite Z.pow_add_r in Hla1 by lia.
        assert (0 < 2 ^ (e - 1))%Z by (apply Z.pow_pos_nonneg; lia).
        change (2 ^ 1)%Z with 2%Z in *. nia.
      * replace (- (e - 1))%Z with 1%Z by lia.
        replace e with 0%Z in * by lia. change (2 ^ 0)%Z with 1%Z in *.
        change (2 ^ 1)%Z with 2%Z. lia.
    + rewrite (proj2 (Z.leb_le 0 e)) by done.
      rewrite (proj2 (Z.leb_le 0 (e + 1))) by lia.
      split; [lia|]. rewrite Z.pow_add_r by lia.
      change (2 ^ 1)%Z with 2%Z. nia.
  - set (k := (- e)%Z). assert (0 < k)%Z as Hk by lia.
    assert (ld = la + k)%Z as Hld by lia.
    rewrite Hld in Hld1, Hld2. rewrite Z.pow_add_r in Hld1, Hld2 by lia.
    assert (0 < 2 ^ k)%Z by (apply Z.pow_pos_nonneg; lia).
    assert (0 < 2 ^ la)%Z by (apply Z.pow_pos_nonneg; lia).
    change (2 ^ 1)%Z with 2%Z in *.
    destruct (Z.ltb_spec (a * 2 ^ k) d) as [Hbelow|Hbelow].
    + replace (e - 1 + 1)%Z with e by lia.
      rewrite (proj2 (Z.leb_gt 0 (e - 1))) by lia.
      rewrite (proj2 (Z.leb_gt 0 e)) by lia.
      split; [|done].
      replace (- (e - 1))%Z with (k + 1)%Z by lia.
      rewrite Z.pow_add_r by lia. change (2 ^ 1)%Z with 2%Z. nia.
    + rewrite (proj2 (Z.leb_gt 0 e)) by lia. split; [done|].
      destruct (Z.leb_spec 0 (e + 1)) as [He1|He1].
      * replace (e + 1)%Z with 0%Z by lia. change (2 ^ 0)%Z with 1%Z.
        replace k with 1%Z in * by lia. change (2 ^ 1)%Z with 2%Z in *. lia.
      * replace (- (e + 1))%Z with (k - 1)%Z by lia.
        replace k with (k - 1 + 1)%Z in Hld1 by lia.
        rewrite Z.pow_add_r in Hld1 by lia.
        assert (0 < 2 ^ (k - 1))%Z by (apply Z.pow_pos_nonneg; lia).
        change (2 ^ 1)%Z with 2%Z in *. nia.
Qed.

Lemma binade_unique (x : Q) (f g : Z) :
  ((2 # 1) ^ f <= x)%Q → (x < (2 # 1) ^ (f + 1))%Q →
  ((2 # 1) ^ g <= x)%Q → (x < (2 # 1) ^ (g + 1))%Q →
  f = g.
Proof.
  intros Hf1 Hf2 Hg1 Hg2.
  destruct (Z.lt_trichotomy f g) as [Hlt|[->|Hlt]]; [exfalso|done|exfalso].
  - assert ((2 # 1) ^ (f + 1) <= (2 # 1) ^ g)%Q
      by (apply Qpower_le_compat_l; [lia|done]).
    apply (Qlt_irrefl x).
    eapply Qlt_le_trans; [exact Hf2|]. by eapply Qle_trans.
  - assert ((2 # 1) ^ (g + 1) <= (2 # 1) ^ f)%Q
      by (apply Qpower_le_compat_l; [lia|done]).
    apply (Qlt_irrefl x).
    eapply Qlt_le_trans; [exact Hg2|]. by eapply Qle_trans.
Qed.

Lemma floor_log2_comp (a1 a2 : Z) (p1 p2 : positive) :
  (0 < a1)%Z → (0 < a2)%Z → (a1 # p1 == a2 # p2)%Q →
  PyFloat.floor_log2 a1 (Z.pos p1) = PyFloat.floor_log2 a2 (Z.pos p2).
Proof.
  intros H1 H2 Heq.
  destruct (floor_log2_spec a1 p1 H1) as [Hle1 Hlt1].
  destruct (floor_log2_spec a2 p2 H2) as [Hle2 Hlt2].
  rewrite Heq in Hle1, Hlt1. by eapply binade_unique.
Qed.

(** The nearest float depends on the number, not on the fraction that
    writes it. *)
Lemma nearest_comp (x y : Q) :
  (x == y)%Q → PyFloat.nearest x = PyFloat.nearest y.
Proof.
  destruct x as [n1 p1], y as [n2 p2]. intros Heq.
  pose proof Heq as Hcross. unfold Qeq in Hcross. cbn [Qnum Qden] in Hcross.
  unfold PyFloat.nearest. cbn [Qnum Qden].
  destruct (Z.eqb_spec n1 0) as [->|Hn1].
  { destruct (Z.eqb_spec n2 0) as [|Hn2]; [done|]. lia. }
  destruct (Z.eqb_spec n2 0) as [->|Hn2]; [lia|].
  assert (Z.sgn n1 = Z.sgn n2) as -> by nia.
  assert (Z.abs n1 # p1 == Z.abs n2 # p2)%Q as Habs
    by (unfold Qeq; cbn [Qnum Qden]; nia).
  unfold PyFloat.last_digit.
  rewrite (floor_log2_comp (Z.abs n1) (Z.abs n2) p1 p2) by (lia || done).
  set (e := Z.max _ _).
  assert ((if (0 <=? e)%Z
           then PyFloat.round_half_even (Z.abs n1) (Z.pos p1 * 2 ^ e)
           else PyFloat.round_half_even (Z.abs n1 * 2 ^ (- e)) (Z.pos p1))
          = (if (0 <=? e)%Z
             then PyFloat.round_half_even (Z.abs n2) (Z.pos p2 * 2 ^ e)
             else PyFloat.round_half_even (Z.abs n2 * 2 ^ (- e)) (Z.pos p2)))
    as ->; [|done].
  unfold Qeq in Habs. cbn [Qnum Qden] in Habs.
  destruct (Z.leb_spec 0 e) as [He|He].
  - assert (0 < 2 ^ e)%Z as Hpos by (by apply Z.pow_pos_nonneg).
    replace (Z.pos p1 * 2 ^ e)%Z with (Z.pos (p1 * Z.to_pos (2 ^ e)))
      by (rewrite Pos2Z.inj_mul, Z2Pos.id; done).
    replace (Z.pos p2 * 2 ^ e)%Z with (Z.pos (p2 * Z.to_pos (2 ^ e)))
      by (rewrite Pos2Z.inj_mul, Z2Pos.id; done).
    rewrite !round_half_even_nearest_integer.
    apply nearest_integer_comp. unfold Qeq. cbn [Qnum Qden].
    rewrite !Pos2Z.inj_mul. nia.
  - rewrite !round_half_even_nearest_integer.
    apply nearest_integer_comp. unfold Qeq. cbn [Qnum Qden]. nia.
Qed.

Lemma of_nat_length_pos {A} (x : A) (xs : list A) :
  Z.of_nat (length (x :: xs)) = Z.pos (Pos.of_nat (length (x :: xs))).
Proof. cbn [length]. lia. Qed.

(** What the code computes for a mean is what the summary is to
    report. *)
Lemma rounded_mean_reported (ndigits : Z) (xs : list Z) :
  rounded_mean ndigits xs = reported_mean ndigits xs.
Proof.
  unfold rounded_mean, reported_mean, mean. destruct xs as [|x xs]; [done|].
  rewrite of_nat_length_pos. unfold PyFloat.int_truediv.
  rewrite (nearest_comp (Qred _) _ (Qred_correct _)).
  destruct (PyFloat.too_large _); [done|].
  by rewrite bind_Ok, round_nearest_decimal.
Qed.

(** ** How far a reported mean is from the mean *)

Lemma nearest_integer_error (x : Q) :
  (Qabs (inject_Z (nearest_integer x) - x) <= 1 # 2)%Q.
Proof.
  unfold nearest_integer.
  pose proof (Qfloor_le x) as Hle. pose proof (Qlt_floor x) as Hlt.
  set (below := Qfloor x) in *.
  rewrite inject_Z_plus in Hlt. change (inject_Z 1) with 1%Q in Hlt.
  apply Qabs_Qle_condition.
  destruct (Qcompare_spec (x - inject_Z below) (1 # 2)) as [Heq|Hcmp|Hcmp].
  - destruct (Z.even below); rewrite ?inject_Z_plus;
      change (inject_Z 1) with 1%Q; lra.
  - lra.
  - rewrite inject_Z_plus. change (inject_Z 1) with 1%Q. lra.
Qed.

Lemma Qpow2_pos (e : Z) : (0 < (2 # 1) ^ e)%Q.
Proof. by apply Qpower_0_lt. Qed.

Lemma Qpow2_cancel (e : Z) : ((2 # 1) ^ e * (2 # 1) ^ (- e) == 1)%Q.
Proof. rewrite <- Qpower_plus by done. by rewrite Z.add_opp_diag_r. Qed.

(** The integer [nearest] keeps is the one nearest to the number in units
    of the last digit. *)
Lemma nearest_digits (a : Z) (p : positive) (e : Z) :
  (if (0 <=? e)%Z then PyFloat.round_half_even a (Z.pos p * 2 ^ e)
   else PyFloat.round_half_even (a * 2 ^ (- e)) (Z.pos p))
  = nearest_integer ((a # p) * (2 # 1) ^ (- e)).
Proof.
  destruct (Z.leb_spec 0 e) as [He|He].
  - assert (0 < 2 ^ e)%Z as Hpos by (by apply Z.pow_pos_nonneg).
    replace (Z.pos p * 2 ^ e)%Z with (Z.pos (p * Z.to_pos (2 ^ e)))
      by (rewrite Pos2Z.inj_mul, Z2Pos.id; done).
    rewrite round_half_even_nearest_integer. apply nearest_integer_comp.
    rewrite Qpower_opp, Qpow2_nonneg by done.
    unfold Qeq, Qmult, Qinv, inject_Z. cbn [Qnum Qden].
    destruct (2 ^ e)%Z as [|q|q] eqn:Hq; try lia. cbn [Qnum Qden].
    rewrite Pos2Z.inj_mul. rewrite Pos2Z.inj_mul. cbn [Z.to_pos]. lia.
  - rewrite round_half_even_nearest_integer. apply nearest_integer_comp.
    rewrite Qpow2_nonneg by lia.
    unfold Qeq, Qmult, inject_Z. cbn [Qnum Qden]. rewrite Pos.mul_1_r. lia.
Qed.

Lemma last_digit_bound (a : Z) (p : positive) :
  (0 < a)%Z →
  ((2 # 1) ^ PyFloat.last_digit a (Z.pos p)
   <= (a # p) * (2 # 1) ^ (-52) + (2 # 1) ^ (-1074))%Q.
Proof.
  intros Ha. unfold PyFloat.last_digit.
  destruct (floor_log2_spec a p Ha) as [Hle _].
  set (f := PyFloat.floor_log2 a (Z.pos p)) in *.
  pose proof (Qpow2_pos (-52)). pose proof (Qpow2_pos (-1074)).
  pose proof (Qpow2_pos f).
  destruct (Z.max_spec (f - 52) (-1074)) as [[_ ->]|[_ ->]].
  - assert (0 <= a # p)%Q by (unfold Qle; cbn [Qnum Qden]; lia).
    assert (0 <= (a # p) * (2 # 1) ^ (-52))%Q by (apply Qmult_le_0_compat; lra).
    lra.
  - replace (f - 52)%Z with (f + -52)%Z by lia.
    rewrite Qpower_plus by done.
    assert ((2 # 1) ^ f * (2 # 1) ^ (-52) <= (a # p) * (2 # 1) ^ (-52))%Q
      by (apply Qmult_le_compat_r; lra).
    lra.
Qed.

(** The nearest float is within half a unit of its last digit. *)
Lemma nearest_error (x : Q) :
  (Qabs (PyFloat.nearest x - x)
   <= (Qabs x * (2 # 1) ^ (-52) + (2 # 1) ^ (-1074)) * (1 # 2))%Q.
Proof.
  destruct x as [n p]. unfold PyFloat.nearest. cbn [Qnum Qden].
  pose proof (Qpow2_pos (-52)). pose proof (Qpow2_pos (-1074)).
  destruct (Z.eqb_spec n 0) as [->|Hn].
  { assert (0 # p == 0)%Q as -> by done.
    change (Qabs (0 - 0)) with 0%Q. change (Qabs 0) with 0%Q. lra. }
  rewrite Qred_correct, nearest_digits.
  set (a := Z.abs n). assert (0 < a)%Z as Ha by (unfold a; lia).
  set (e := PyFloat.last_digit a (Z.pos p)).
  pose proof (last_digit_bound a p Ha) as He. fold e in He.
  set (y := ((a # p) * (2 # 1) ^ (- e))%Q).
  pose proof (nearest_integer_error y) as Hm.
  set (m := nearest_integer y) in *.
  pose proof (Qpow2_pos e) as Hpe. pose proof (Qpow2_cancel e) as Hcancel.
  assert (Qabs (n # p) == a # p)%Q as Habs by done.
  rewrite Habs.
  assert (inject_Z (Z.sgn n * m) * (2 # 1) ^ e - (n # p)
          == inject_Z (Z.sgn n) * ((inject_Z m - y) * (2 # 1) ^ e))%Q as ->.
  { rewrite inject_Z_mult. unfold y.
    assert (n # p == inject_Z (Z.sgn n) * (a # p))%Q as Hsign.
    { unfold Qeq, Qmult, inject_Z. cbn [Qnum Qden]. unfold a. nia. }
    rewrite Hsign at 1.
    transitivity (inject_Z (Z.sgn n)
                  * (inject_Z m * (2 # 1) ^ e
                     - (a # p) * ((2 # 1) ^ e * (2 # 1) ^ (- e))))%Q.
    - rewrite Hcancel. ring.
    - ring. }
  rewrite Qabs_Qmult, Qabs_Qmult.
  assert (Qabs (inject_Z (Z.sgn n)) == 1)%Q as ->.
  { change (Qabs (inject_Z (Z.sgn n))) with (inject_Z (Z.abs (Z.sgn n))).
    replace (Z.abs (Z.sgn n)) with 1%Z by lia. done. }
  rewrite (Qabs_pos ((2 # 1) ^ e)) by lra.
  assert (Qabs (inject_Z m - y) * (2 # 1) ^ e <= (1 # 2) * (2 # 1) ^ e)%Q
    by (apply Qmult_le_compat_r; [done|lra]).
  lra.
Qed.

(** The nearest decimal is within half a unit of its last place. *)
Lemma nearest_decimal_error (ndigits : Z) (x : Q) :
  (0 ≤ ndigits)%Z →
  (Qabs (nearest_decimal ndigits x - x) <= (1 # 2) / inject_Z (10 ^ ndigits))%Q.
Proof.
  intros Hn. unfold nearest_decimal.
  assert (0 < 10 ^ ndigits)%Z as Hpos by (by apply Z.pow_pos_nonneg).
  set (P := (10 ^ ndigits)%Z) in *.
  pose proof (nearest_integer_error (x * inject_Z P)) as Hk.
  set (k := nearest_integer (x * inject_Z P)) in *.
  assert (0 < inject_Z P)%Q as HP
    by (replace 0%Q with (inject_Z 0) by done; by rewrite <- Zlt_Qlt).
  rewrite Qmake_Qdiv, Z2Pos.id by done.
  assert (inject_Z k / inject_Z P - x
          == (inject_Z k - x * inject_Z P) / inject_Z P)%Q as ->
    by (field; lra).
  unfold Qdiv. rewrite Qabs_Qmult.
  rewrite (Qabs_pos (/ inject_Z P)) by (apply Qlt_le_weak, Qinv_lt_0_compat, HP).
  apply Qmult_le_compat_r; [done|].
  apply Qlt_le_weak, Qinv_lt_0_compat, HP.
Qed.

Lemma Qabs_step (x y : Q) : (Qabs x <= Qabs y + Qabs (x - y))%Q.
Proof.
  assert (x == y + (x - y))%Q as Heq by ring.
  rewrite Heq at 1. apply Qabs_triangle.
Qed.

Lemma Qabs_chain (r dec m mu : Q) :
  (Qabs (r - mu) <= Qabs (r - dec) + Qabs (dec - m) + Qabs (m - mu))%Q.
Proof.
  assert (r - mu == (r - dec) + ((dec - m) + (m - mu)))%Q as -> by ring.
  eapply Qle_trans; [apply Qabs_triangle|].
  pose proof (Qabs_triangle (dec - m) (m - mu)). lra.
Qed.

(** A reported mean is within half a unit of its last decimal place of
    the mean, up to the two roundings to a float. *)
Lemma reported_mean_close (ndigits : Z) (xs : list Z) (r : float) :
  (0 ≤ ndigits)%Z →
  reported_mean ndigits xs = Ok r →
  (Qabs (r - mean xs)
   <= (1 # 2) / inject_Z (10 ^ ndigits)
      + (Qabs (mean xs) + 1) * (2 # 1) ^ (-51))%Q.
Proof.
  intros Hn. unfold reported_mean. destruct xs as [|x xs].
  { intros [= <-]. change (Qabs (0 - mean [])) with 0%Q.
    change (Qabs (mean [])) with 0%Q.
    assert (0 < inject_Z (10 ^ ndigits))%Q as HP.
    { replace 0%Q with (inject_Z 0) by done. rewrite <- Zlt_Qlt.
      by apply Z.pow_pos_nonneg. }
    assert (0 <= (1 # 2) / inject_Z (10 ^ ndigits))%Q
      by (apply Qle_shift_div_l; lra).
    assert (0 < (2 # 1) ^ (-51))%Q by done. lra. }
  set (mu := mean (x :: xs)). set (m := PyFloat.nearest mu).
  destruct (PyFloat.too_large m); [done|]. intros [= <-].
  set (dec := nearest_decimal ndigits m).
  pose proof (nearest_error mu) as H1. fold m in H1.
  pose proof (nearest_decimal_error ndigits m Hn) as H2. fold dec in H2.
  pose proof (nearest_error dec) as H3.
  pose proof (Qabs_chain (PyFloat.nearest dec) dec m mu) as Hchain.
  pose proof (Qabs_step dec m) as Hdec. pose proof (Qabs_step m mu) as Hm.
  pose proof (Qabs_nonneg mu).
  assert ((1 # 2) / inject_Z (10 ^ ndigits) <= 1 # 2)%Q as Hh.
  { assert (1 ≤ 10 ^ ndigits)%Z
      by (change 1%Z with (10 ^ 0)%Z; apply Z.pow_le_mono_r; lia).
    assert (1 <= inject_Z (10 ^ ndigits))%Q as HP
      by (replace 1%Q with (inject_Z 1) by done; by rewrite <- Zle_Qle).
    apply Qle_shift_div_r; lra. }
  set (h := ((1 # 2) / inject_Z (10 ^ ndigits))%Q) in *.
  assert ((2 # 1) ^ (-52) == 1 # 4503599627370496)%Q as E52 by done.
  assert ((2 # 1) ^ (-51) == 1 # 2251799813685248)%Q as E51 by done.
  assert ((2 # 1) ^ (-1074) <= 1 # 4503599627370496)%Q as E1074.
  { rewrite <- E52. apply Qpower_le_compat_l; [lia|done]. }
  pose proof (Qpow2_pos (-1074)) as Ht.
  set (t := ((2 # 1) ^ (-1074))%Q) in *.
  rewrite E52 in H1, H3. rewrite E51.
  set (a0 := Qabs mu) in *. set (e1 := Qabs (m - mu)) in *.
  set (e2 := Qabs (dec - m)) in *.
  set (e3 := Qabs (PyFloat.nearest dec - dec)) in *.
  set (dm := Qabs m) in *. set (dd := Qabs dec) in *.
  lra.
Qed.



(** The ratings of that log have the mean 2.675, whose nearest decimal
    with two places is 2.68; the float nearest to 2.675 lies below it, and
    the summary reports the float nearest to 2.67. *)
Example reported_mean_2_675 :
  let log := replicate 27 (completed 60 (Some 3%Z))
             ++ replicate 13 (completed 60 (Some 2%Z)) in
  mean (supplied_ratings log) = (107 # 40)%Q ∧
  nearest_decimal 2 (107 # 40) = (268 # 100)%Q ∧
  reported_mean 2 (supplied_ratings log) = Ok (PyFloat.nearest (267 # 100)) ∧
  average_rating <$> get_analytics 0 log = Ok (PyFloat.nearest (267 # 100)) ∧
  PyFloat.nearest (267 # 100) ≠ PyFloat.nearest (268 # 100).
Proof. by vm_compute. Qed.


(** Counting into a dictionary: what the loop over the started calls
    leaves under a key. *)
Lemma count_loop_lookup {A} (key_of : A → string) (xs : list A)
    (counts : gmap string Z) (key : string) :
  foldl (λ counts x, count_one counts (key_of x)) counts xs !! key
  = match length (filter (λ x, key_of x = key) xs) with
    | O => counts !! key
    | S n => Some (default 0 (counts !! key) + Z.of_nat (S n))%Z
    end.
Proof.
  revert counts. induction xs as [|x xs IH]; intros counts; [done|].
  cbn [foldl]. rewrite IH. unfold count_one.
  destruct (decide (key_of x = key)) as [Heq|Hne].
  - rewrite filter_cons_True by done. rewrite Heq, lookup_insert_eq.
    cbn [length default]. unfold id.
    destruct (length (filter _ xs)); f_equal; lia.
  - rewrite filter_cons_False by done. by rewrite lookup_insert_ne.
Qed.

Lemma count_loop_empty {A} (key_of : A → string) (xs : list A) (key : string) :
  foldl (λ counts x, count_one counts (key_of x)) ∅ xs !! key
  = count_entry (length (filter (λ x, key_of x = key) xs)).
Proof.
  rewrite count_loop_lookup, lookup_empty. unfold count_entry.
  by destruct (length _).
Qed.

Lemma filter_length_ext {A} (P Q : A → Prop) `{∀ x, Decision (P x)}
    `{∀ x, Decision (Q x)} (xs : list A) :
  (∀ x, P x ↔ Q x) → length (filter P xs) = length (filter Q xs).
Proof.
  intros HPQ. induction xs as [|x xs IH]; [done|].
  destruct (decide (P x)) as [HP|HP].
  - rewrite !filter_cons_True by (done || by apply HPQ). simpl. by rewrite IH.
  - rewrite !filter_cons_False by (done || by rewrite <- HPQ). done.
Qed.

Lemma get_analytics_counts (utcnow : datetime) (analytics_store : list event)
    (r : AnalyticsResponse) :
  get_analytics utcnow analytics_store = Ok r →
  calls_by_duration r
    = foldl (λ counts call, count_one counts (cd_call_duration call.2))
            ∅ (started_of analytics_store) ∧
  calls_by_age r
    = foldl (λ counts call, count_one counts (pretty (cd_child_age call.2)))
            ∅ (started_of analytics_store).
Proof.
  unfold get_analytics. destruct analytics_store as [|x xs].
  { by intros [= <-]. }
  set (log := x :: xs).
  destruct (match completed_of log with [] => _ | _ => _ end) as [d|];
    [|done].
  rewrite bind_Ok.
  destruct (match ratings_of (completed_of log) with [] => _ | _ => _ end)
    as [g|]; [|done].
  rewrite bind_Ok. by intros [= <-].
Qed.

(** What the store holds satisfies the constraint of the request model:
    only the routes add to it. *)
Lemma post_complete_call_valid (body : CallCompletionRequest) :
  Forall (λ x, valid_completion x = true) (post_complete_call body).2.
Proof.
  unfold post_complete_call.
  destruct (valid_completion body) eqn:Hvalid; simpl; by repeat constructor.
Qed.

Lemma run_tasks_valid (utcnow : datetime) (started : list CallData)
    (completions : list CallCompletionRequest) (analytics_store : list event) :
  Forall (λ x, valid_completion x = true) (completed_of analytics_store) →
  Forall (λ x, valid_completion x = true) completions →
  Forall (λ x, valid_completion x = true)
         (completed_of (run_tasks utcnow started completions analytics_store)).
Proof.
  unfold run_tasks. intros Hstore Hnew.
  assert (Forall (λ x, valid_completion x = true)
            (completed_of (foldl (λ store data,
                                    track_call_started utcnow data store)
                                 analytics_store started))) as Hstarted.
  { clear Hnew. revert analytics_store Hstore.
    induction started as [|data started IH]; intros store Hstore; [done|].
    simpl. apply IH. unfold track_call_started, completed_of.
    rewrite omap_app. simpl. by rewrite app_nil_r. }
  revert Hstarted. generalize (foldl (λ store data,
                                 track_call_started utcnow data store)
                              analytics_store started) as store.
  induction Hnew as [|data completions Hdata _ IH]; intros store Hvalid;
    [done|].
  simpl. apply IH. unfold track_call_completed, completed_of.
  rewrite omap_app. apply Forall_app. split; [done|]. by repeat constructor.
Qed.



(** ** The band of an age *)

Lemma band_of_age_keys (age : Z) (band : string) :
  band_of_age age band →
  load_conversation_arc_band age = band ∧ generate_greeting_band age = band.
Proof.
  unfold band_of_age, load_conversation_arc_band, generate_greeting_band.
  destruct (Z.leb_spec age 4); destruct (Z.leb_spec age 8);
    intros [[? ->]|[[? ->]|[? ->]]]; (done || lia).
Qed.

(** The arc that is built carries the adaptation the catalog has under
    the key [load_conversation_arc] computes from the age, and there is
    one. *)
Lemma load_conversation_arc_adaptation (root : val) (duration : string)
    (age : Z) (h h' : heap) (arc adaptations : val) (A : gmap string val) :
  py_getitem h root "age_adaptations" = Ok adaptations →
  dict_of h adaptations = Some A →
  load_conversation_arc root duration age h = (Ok arc, h') →
  ∃ adaptation,
    A !! load_conversation_arc_band age = Some adaptation ∧
    py_getitem h' arc "age_adaptation" = Ok adaptation.
Proof.
  intros Ha HA.
  unfold load_conversation_arc, M_bind, M_read, M_ret.
  destruct (py_getitem h root "arcs") as [arcs|]; [|done].
  destruct (py_getitem h arcs duration) as [entry|]; [|done].
  unfold py_copy.
  destruct entry as [| | | | |l]; try done.
  destruct (h !! l) as [o|] eqn:Hl; [|done].
  set (l' := fresh (dom h)). set (h1 := <[l' := o]> h).
  assert (h ⊆ h1) as H1 by apply insert_fresh_subseteq.
  rewrite (py_getitem_weaken _ _ _ _ _ H1 Ha).
  rewrite (dict_of_getitem h1 adaptations A) by (by eapply dict_of_weaken).
  destruct (A !! load_conversation_arc_band age) as [adaptation|]; [|done].
  cbn [from_option].
  unfold py_setitem at 1. subst h1. rewrite lookup_insert_eq.
  destruct o as [d|xs]; [|done].
  rewrite insert_insert_eq.
  set (h2 := <[l' := _]> h).
  destruct (py_getitem h2 root "timing_guidelines") as [guidelines|]; [|done].
  destruct (py_getitem h2 guidelines duration) as [timing|]; [|done].
  unfold py_setitem. subst h2. rewrite lookup_insert_eq, insert_insert_eq.
  intros [= <- <-]. exists adaptation. split; [done|].
  unfold py_getitem. rewrite lookup_insert_eq.
  by rewrite lookup_insert_ne, lookup_insert_eq.
Qed.

(** C1. For every age from 2 to 12, greeting selection and arc building
    go by the band of the age, [ages_2_4] for 2 to 4, [ages_5_8] for 5 to
    8 and [ages_9_12] for 9 to 12, with 4 and 8 in the lower band: the
    greeting is a template drawn from the list the catalog has under that
    band, and fails with [KeyError] without one; an arc that is built
    carries the adaptation the catalog has under that band. *)
Theorem age_band_selection (root : val) (h : heap) (age : Z) (band : string) :
  band_of_age age band →
  (∀ draw child_name templates (G : gmap string val),
     py_getitem h root "greeting_templates" = Ok templates →
     dict_of h templates = Some G →
     generate_greeting root h draw child_name age
     = (ts ← from_option Ok (Raise KeyError) (G !! band);
        template ← random_choice h draw ts;
        str_format template (greeting_kwargs child_name "child"))) ∧
  (∀ duration adaptations (A : gmap string val) arc h',
     py_getitem h root "age_adaptations" = Ok adaptations →
     dict_of h adaptations = Some A →
     load_conversation_arc root duration age h = (Ok arc, h') →
     ∃ adaptation,
       A !! band = Some adaptation ∧
       py_getitem h' arc "age_adaptation" = Ok adaptation).
Proof.
  intros [Harc Hgreeting]%band_of_age_keys. split.
  - intros draw child_name templates G Htemplates HG.
    unfold generate_greeting.
    by rewrite Htemplates, bind_Ok, (dict_of_getitem _ _ _ _ HG), Hgreeting.
  - intros duration adaptations A arc h' Ha HA Hload.
    rewrite <- Harc. by eapply load_conversation_arc_adaptation.
Qed.

(** The edges 4 and 8 on the sample catalog, whose bands hold different
    templates and adaptations. *)
Lemma age_band_selection_edges :
  generate_greeting Sample.root Sample.store 0 "Emma" 4
  = Ok "Ho ho ho! Hello Emma!" ∧
  generate_greeting Sample.root Sample.store 0 "Emma" 8
  = Ok "Ho ho ho! Merry Christmas, Emma!" ∧
  py_getitem (load_conversation_arc Sample.root "5min" 4 Sample.store).2
    (VRef 57) "age_adaptation" = Ok (VRef 20) ∧
  py_getitem (load_conversation_arc Sample.root "5min" 8 Sample.store).2
    (VRef 57) "age_adaptation" = Ok (VRef 21).
Proof.
  pose (G := list_to_map [("ages_2_4", VRef 30); ("ages_5_8", VRef 31);
                          ("ages_9_12", VRef 32)] : gmap string val).
  pose (A := list_to_map [("ages_2_4", VRef 20); ("ages_5_8", VRef 21);
                          ("ages_9_12", VRef 22)] : gmap string val).
  destruct (age_band_selection Sample.root Sample.store 4 "ages_2_4")
    as [Hgreeting4 Harc4]; [left; split; [lia|done]|].
  destruct (age_band_selection Sample.root Sample.store 8 "ages_5_8")
    as [Hgreeting8 Harc8]; [right; left; split; [lia|done]|].
  split; [|split; [|split]].
  - by rewrite (Hgreeting4 0%nat "Emma" (VRef 4) G eq_refl eq_refl).
  - by rewrite (Hgreeting8 0%nat "Emma" (VRef 4) G eq_refl eq_refl).
  - destruct (Harc4 "5min" (VRef 3) A (VRef 57)
                (load_conversation_arc Sample.root "5min" 4 Sample.store).2
                eq_refl eq_refl eq_refl) as (adaptation & Hband & ->).
    f_equal. vm_compute in Hband. congruence.
  - destruct (Harc8 "5min" (VRef 3) A (VRef 57)
                (load_conversation_arc Sample.root "5min" 8 Sample.store).2
                eq_refl eq_refl eq_refl) as (adaptation & Hband & ->).
    f_equal. vm_compute in Hband. congruence.
Defined.

(** * Further properties *)

(** ** Validation of a start-call body *)

(** The model [StartCallRequest] accepts exactly the bodies whose
    name has 1 to 50 characters, whose age is from 2 to 12 and whose
    duration is [5min] or [10min], whatever the e-mail; an accepted body
    reaches the endpoint unchanged. *)
Lemma StartCallRequest_validate_accepts (body : StartCallRequest) :
  (∀ request, StartCallRequest_validate body = Ok request → request = body) ∧
  (StartCallRequest_validate body = Ok body ↔
     (1 ≤ String.length (child_name body) ≤ 50)%nat
     ∧ (2 ≤ child_age body ≤ 12)%Z
     ∧ (call_duration body = "5min" ∨ call_duration body = "10min")).
Proof.
  unfold StartCallRequest_validate.
  destruct (Nat.leb_spec 1 (String.length (child_name body)));
    destruct (Nat.leb_spec (String.length (child_name body)) 50);
    simpl; try (split; [done|split; [done|lia]]).
  destruct (Z.leb_spec 2 (child_age body));
    destruct (Z.leb_spec (child_age body) 12);
    simpl; try (split; [done|split; [done|lia]]).
  destruct (validate_duration (call_duration body)) as [v|e] eqn:Hv.
  - assert (validate_duration (call_duration body) = Ok (call_duration body))
      as Hv' by (unfold validate_duration in *; by case_bool_decide).
    apply validate_duration_Ok in Hv'.
    split; [by intros ? [= <-]|]. split; [|done]. intros _.
    split; [lia|]. split; [lia|done].
  - split; [done|]. split; [done|]. intros (_ & _ & Hd).
    apply validate_duration_Ok in Hd. congruence.
Qed.

(** ** [start_santa_call] *)

(** What the last part of the call went through when it returns. *)
Lemma start_call_response_Ok (isoformat : datetime → string) (h : heap)
    (utcnow : datetime) (request : StartCallRequest) (greeting : string)
    (conversation_arc : val) (tavus_data : json_value)
    (response : StartCallResponse * CallData) :
  start_call_response isoformat h utcnow request greeting conversation_arc
    tavus_data = Ok response →
  ∃ fields id conversation_url expires_at arc_name phases,
    tavus_data = JObject fields ∧
    fields !! "conversation_id" = Some (JString id) ∧
    fields !! "conversation_url" = Some (JString conversation_url) ∧
    JString expires_at
      = default (JString (isoformat (utcnow + timedelta_seconds
                   (max_duration_of (call_duration request)))%Z))
                (fields !! "expires_at") ∧
    py_getitem h conversation_arc "name" = Ok arc_name ∧
    response
    = ({| r_conversation_id := id;
           r_conversation_url := conversation_url;
           r_expires_at := expires_at;
           r_call_metadata :=
             {| md_child_name := child_name request;
                md_child_age := child_age request;
                md_call_duration := call_duration request;
                md_greeting := greeting;
                md_arc_name := arc_name;
                md_phases := phases |};
           r_estimated_end_time :=
             isoformat (utcnow + timedelta_seconds
                          (max_duration_of (call_duration request)))%Z |},
       {| cd_conversation_id := JString id;
          cd_child_age := child_age request;
          cd_call_duration := call_duration request;
          cd_parent_email := parent_email request |}).
Proof.
  unfold start_call_response, max_duration_of.
  destruct tavus_data as [| | | | | |fields]; try done.
  cbn [json_getitem json_get].
  destruct (fields !! "conversation_id") as [id|] eqn:Hid; [|done].
  destruct (fields !! "conversation_url") as [conversation_url|] eqn:Hurl;
    [|done].
  cbn [from_option]. rewrite !bind_Ok.
  destruct (py_getitem h conversation_arc "name") as [arc_name|]; [|done].
  rewrite bind_Ok.
  destruct (py_getitem h conversation_arc "phases") as [phases|]; [|done].
  rewrite bind_Ok.
  destruct (py_len h phases) as [n|]; [|done]. rewrite bind_Ok.
  destruct id as [| | | |id| |]; try done.
  destruct conversation_url as [| | | |conversation_url| |]; try done.
  cbn [str_field]. rewrite !bind_Ok.
  destruct (default _ (fields !! "expires_at")) as [| | | |expires_at| |]
    eqn:Hexpires; try done.
  cbn [str_field]. rewrite !bind_Ok. intros [= <-].
  by eexists fields, id, conversation_url, expires_at, arc_name, n.
Qed.

Section StartCall.

Variable TAVUS_API_KEY TAVUS_PERSONA_ID : option string.
Variable CONVERSATION_ARCS : val.
Variable float_repr : float → string.
Variable container_repr : heap → loc → string.
Variable isoformat : datetime → string.

Local Abbreviation handler :=
  (start_santa_call TAVUS_API_KEY TAVUS_PERSONA_ID CONVERSATION_ARCS
     float_repr container_repr isoformat).

(** X1. The credentials are checked before anything else: when one of
    them is unset or empty, the call fails with the configuration error
    whatever the request and the catalog are, nothing is sent, no task is
    added and the store is left as it was. *)
Theorem credentials_checked_first (h : heap) (draw : nat) (utcnow : datetime)
    (provider : Post → reply) (request : StartCallRequest) :
  is_set TAVUS_API_KEY = false ∨ is_set TAVUS_PERSONA_ID = false →
  handler h draw utcnow provider request = halt credentials_error h [] ∧
  status_of credentials_error = 500%Z.
Proof.
  intros Hunset. unfold start_santa_call.
  assert (negb (is_set TAVUS_API_KEY) || negb (is_set TAVUS_PERSONA_ID) = true)
    as -> by (destruct Hunset as [-> | ->]; simpl;
              [done|by rewrite orb_true_r]).
  done.
Qed.

(** X2. When the call returns, one request was sent, the provider
    answered it 200 with a JSON object whose conversation id and URL are
    strings, and these are the ones returned; the expiry is the provider's
    when it gave one, a string then, and the estimated end otherwise; the estimated end is the clock plus 300
    seconds for [5min] and 600 otherwise, the same number that was sent as
    the maximal duration; and one analytics task is added, with the
    provider's id and the age, duration and e-mail of the request. *)
Theorem start_santa_call_returned (h : heap) (draw : nat) (utcnow : datetime)
    (provider : Post → reply) (request : StartCallRequest)
    (response : StartCallResponse) :
  returned (handler h draw utcnow provider request) = Ok response →
  ∃ call text tavus_data,
    posts (handler h draw utcnow provider request) = [call] ∧
    provider call = Response 200 text (Some (JObject tavus_data)) ∧
    tavus_data !! "conversation_id"
      = Some (JString (r_conversation_id response)) ∧
    tavus_data !! "conversation_url"
      = Some (JString (r_conversation_url response)) ∧
    max_call_duration (json call) = max_duration_of (call_duration request) ∧
    custom_metadata (json call) = request ∧
    r_estimated_end_time response
      = isoformat (utcnow + timedelta_seconds
                              (max_duration_of (call_duration request)))%Z ∧
    JString (r_expires_at response)
      = default (JString (r_estimated_end_time response))
                (tavus_data !! "expires_at") ∧
    added_tasks (handler h draw utcnow provider request)
      = [ {| cd_conversation_id := JString (r_conversation_id response);
             cd_child_age := child_age request;
             cd_call_duration := call_duration request;
             cd_parent_email := parent_email request |} ].
Proof.
  unfold start_santa_call.
  destruct (negb (is_set TAVUS_API_KEY) || negb (is_set TAVUS_PERSONA_ID));
    [done|].
  destruct (generate_greeting _ _ _ _ _) as [greeting|]; [|done].
  destruct (load_conversation_arc _ _ _ _) as [[arc|] h']; [|done].
  destruct (create_system_prompt _ _ _ _ _ _ _ _) as [system_prompt|];
    [|done].
  destruct (provider _) as [|message|status_code text body] eqn:Hreply;
    [done|done|].
  destruct (Z.eqb_spec status_code 200) as [->|Hne]; [|done]. simpl.
  destruct body as [tavus_data|]; [|done].
  destruct (start_call_response _ _ _ _ _ _ _) as [[resp task]|] eqn:Hresp;
    [|done].
  simpl. intros [= ->].
  destruct (start_call_response_Ok _ _ _ _ _ _ _ _ Hresp)
    as (fields & id & conversation_url & expires_at & arc_name & n & ->
        & Hid & Hurl & Hexpires & _ & [= -> ->]).
  eexists _, text, fields. by repeat split.
Qed.

(** X3. A call that fails adds no analytics task; no call sends more than
    one request or adds more than one task. *)
Theorem start_santa_call_at_most_once (h : heap) (draw : nat)
    (utcnow : datetime) (provider : Post → reply) (request : StartCallRequest) :
  (∀ e, returned (handler h draw utcnow provider request) = Raise e →
        added_tasks (handler h draw utcnow provider request) = []) ∧
  (length (posts (handler h draw utcnow provider request)) ≤ 1)%nat ∧
  (length (added_tasks (handler h draw utcnow provider request)) ≤ 1)%nat.
Proof.
  unfold start_santa_call.
  destruct (negb (is_set TAVUS_API_KEY) || negb (is_set TAVUS_PERSONA_ID));
    [by repeat split; simpl; auto|].
  destruct (generate_greeting _ _ _ _ _) as [greeting|];
    [|by repeat split; simpl; auto].
  destruct (load_conversation_arc _ _ _ _) as [[arc|] h'];
    [|by repeat split; simpl; auto].
  destruct (create_system_prompt _ _ _ _ _ _ _ _) as [system_prompt|];
    [|by repeat split; simpl; auto].
  destruct (provider _) as [|message|status_code text body];
    [by repeat split; simpl; auto..|].
  destruct (negb (status_code =? 200)%Z); [by repeat split; simpl; auto|].
  destruct body as [tavus_data|]; [|by repeat split; simpl; auto].
  destruct (start_call_response _ _ _ _ _ _ _) as [[resp task]|];
    by repeat split; simpl; auto.
Qed.

(** X4. Whatever a call does, every object of the store is left as it
    was: the endpoint only allocates, so the catalog is never modified by
    serving a request. *)
Theorem start_santa_call_extends (h : heap) (draw : nat) (utcnow : datetime)
    (provider : Post → reply) (request : StartCallRequest) :
  h ⊆ objects (handler h draw utcnow provider request).
Proof.
  unfold start_santa_call.
  destruct (negb (is_set TAVUS_API_KEY) || negb (is_set TAVUS_PERSONA_ID));
    [done|].
  destruct (generate_greeting _ _ _ _ _) as [greeting|]; [|done].
  pose proof (load_conversation_arc_extends CONVERSATION_ARCS
                (call_duration request) (child_age request) h) as Hsub.
  destruct (load_conversation_arc _ _ _ _) as [[arc|] h']; [|done].
  simpl in Hsub.
  destruct (create_system_prompt _ _ _ _ _ _ _ _) as [system_prompt|];
    [|done].
  destruct (provider _) as [|message|status_code text body]; [done..|].
  destruct (negb (status_code =? 200)%Z); [done|].
  destruct body as [tavus_data|]; [|done].
  by destruct (start_call_response _ _ _ _ _ _ _) as [[resp task]|].
Qed.

End StartCall.

Lemma credentials_checked_first_empty_key :
  let r := start_santa_call (Some EmptyString) (Some "persona") VNone
             Sample.float_repr Sample.container_repr Sample.isoformat
             ∅ 0 0 (λ _, TimeoutException) Sample.request in
  r = halt (credentials_error) ∅ [] ∧ status_of credentials_error = 500%Z.
Proof.
  apply credentials_checked_first. by left.
Defined.

Lemma start_santa_call_returned_sample :
  let provider := λ _ : Post,
    Response 200 "{}"
      (Some (JObject
               (<["conversation_id" := JString "c1"]>
                  (<["conversation_url" :=
                       JString "https://tavus.daily.co/c1"]> ∅)))) in
  let r := start_santa_call (Some "key") (Some "persona") Sample.root
             Sample.float_repr Sample.container_repr Sample.isoformat
             Sample.store 0 0 provider Sample.request in
  ∃ response, returned r = Ok response ∧
  ∃ call text tavus_data,
    posts r = [call] ∧
    provider call = Response 200 text (Some (JObject tavus_data)) ∧
    tavus_data !! "conversation_id"
      = Some (JString (r_conversation_id response)) ∧
    tavus_data !! "conversation_url"
      = Some (JString (r_conversation_url response)) ∧
    max_call_duration (json call) = max_duration_of "5min" ∧
    custom_metadata (json call) = Sample.request ∧
    r_estimated_end_time response
      = Sample.isoformat (0 + timedelta_seconds (max_duration_of "5min"))%Z ∧
    JString (r_expires_at response)
      = default (JString (r_estimated_end_time response))
                (tavus_data !! "expires_at") ∧
    added_tasks r
      = [ {| cd_conversation_id := JString (r_conversation_id response);
             cd_child_age := 7;
             cd_call_duration := "5min";
             cd_parent_email := None |} ].
Proof.
  intros provider r.
  destruct (returned r) as [response|e] eqn:Hr; [|by vm_compute in Hr].
  exists response. split; [done|].
  by apply (start_santa_call_returned (Some "key") (Some "persona")
              Sample.root Sample.float_repr Sample.container_repr
              Sample.isoformat Sample.store 0 0 provider Sample.request).
Defined.

(** ** The prompt that is sent *)

Section SentPrompt.

Variable TAVUS_API_KEY TAVUS_PERSONA_ID : option string.
Variable CONVERSATION_ARCS : val.
Variable float_repr : float → string.
Variable container_repr : heap → loc → string.
Variable isoformat : datetime → string.

Local Abbreviation handler :=
  (start_santa_call TAVUS_API_KEY TAVUS_PERSONA_ID CONVERSATION_ARCS
     float_repr container_repr isoformat).

(** The loop over the phases only appends. *)
Lemma phases_loop_appends (h : heap) (phases : list val) (i : Z)
    (prompt out : string) :
  phases_loop float_repr container_repr h i phases prompt = Ok out →
  ∃ blocks, out = prompt +:+ blocks.
Proof.
  revert i prompt. induction phases as [|phase phases IH]; intros i prompt.
  { intros [= <-]. exists EmptyString. by rewrite append_nil_r. }
  simpl. destruct (phase_block _ _ _ _ _) as [block|]; [|done].
  rewrite bind_Ok. intros [blocks ->]%IH.
  exists (block +:+ blocks). by rewrite append_assoc.
Qed.

(** Whatever the arc, a prompt that is rendered quotes the greeting and
    names the child. *)
Lemma create_system_prompt_quotes (h : heap) (child_name : string)
    (child_age : Z) (duration greeting : string) (arc : val) (prompt : string) :
  create_system_prompt float_repr container_repr h child_name child_age
    duration greeting arc = Ok prompt →
  substring (dquote +:+ greeting +:+ dquote) prompt ∧
  substring ("- Name: " +:+ child_name +:+ nl) prompt.
Proof.
  unfold create_system_prompt, prompt_header, prompt_structure.
  destruct (py_getitem h arc "total_duration_seconds") as [total|]; [|done].
  rewrite bind_Ok.
  destruct (py_getitem h arc "age_adaptation") as [a|]; [|done].
  rewrite bind_Ok.
  destruct (py_getitem h a "language_level") as [level|]; [|done].
  rewrite !bind_Ok.
  destruct (py_getitem h arc "phases") as [ps|]; [|done]. rewrite bind_Ok.
  destruct (py_len h ps) as [n|]; [|done]. rewrite !bind_Ok.
  destruct (py_iter h ps) as [phases|]; [|done]. rewrite bind_Ok.
  destruct (phases_loop _ _ _ _ _ _) as [out|] eqn:Hloop; [|done].
  rewrite bind_Ok. apply phases_loop_appends in Hloop as [blocks ->].
  destruct (age_adaptation_block _ _ _ _ _) as [adaptations|]; [|done].
  rewrite bind_Ok.
  destruct (timing_block _ _ _ _) as [timing|]; [|done].
  rewrite bind_Ok. intros [= <-].
  unfold header_text, structure_text. split.
  - rewrite !append_assoc. do 3 apply substring_app_r.
    exists EmptyString. eexists. rewrite !append_assoc. reflexivity.
  - cbn [text]. rewrite !append_assoc. do 7 apply substring_app_r.
    exists EmptyString. eexists. rewrite !append_assoc. reflexivity.
Qed.

(** X5. When the call returns, the greeting reported in the metadata is
    the one [generate_greeting] drew, and the prompt that was sent to the
    provider quotes that very greeting and names the child of the
    request. *)
Theorem sent_prompt_quotes_greeting (h : heap) (draw : nat) (utcnow : datetime)
    (provider : Post → reply) (request : StartCallRequest)
    (response : StartCallResponse) :
  returned (handler h draw utcnow provider request) = Ok response →
  ∃ call,
    posts (handler h draw utcnow provider request) = [call] ∧
    generate_greeting CONVERSATION_ARCS h draw (child_name request)
      (child_age request) = Ok (md_greeting (r_call_metadata response)) ∧
    md_child_name (r_call_metadata response) = child_name request ∧
    substring (dquote +:+ md_greeting (r_call_metadata response) +:+ dquote)
              (conversational_context (json call)) ∧
    substring ("- Name: " +:+ child_name request +:+ nl)
              (conversational_context (json call)) ∧
    conversation_name (json call)
      = "Santa call with " +:+ child_name request.
Proof.
  unfold start_santa_call.
  destruct (negb (is_set TAVUS_API_KEY) || negb (is_set TAVUS_PERSONA_ID));
    [done|].
  destruct (generate_greeting _ _ _ _ _) as [greeting|]; [|done].
  destruct (load_conversation_arc _ _ _ _) as [[arc|] h']; [|done].
  destruct (create_system_prompt _ _ _ _ _ _ _ _) as [system_prompt|]
    eqn:Hprompt; [|done].
  apply create_system_prompt_quotes in Hprompt as [Hgreeting Hname].
  destruct (provider _) as [|message|status_code text body]; [done|done|].
  destruct (negb (status_code =? 200)%Z); [done|].
  destruct body as [tavus_data|]; [|done].
  destruct (start_call_response _ _ _ _ _ _ _) as [[resp task]|] eqn:Hresp;
    [|done].
  simpl. intros [= ->].
  destruct (start_call_response_Ok _ _ _ _ _ _ _ _ Hresp)
    as (fields & id & conversation_url & expires_at & arc_name & n & _
        & _ & _ & _ & _ & [= -> ->]).
  eexists. by repeat split.
Qed.

End SentPrompt.

Lemma sent_prompt_quotes_greeting_sample :
  let provider := λ _ : Post,
    Response 200 "{}"
      (Some (JObject
               (<["conversation_id" := JString "c1"]>
                  (<["conversation_url" :=
                       JString "https://tavus.daily.co/c1"]> ∅)))) in
  let r := start_santa_call (Some "key") (Some "persona") Sample.root
             Sample.float_repr Sample.container_repr Sample.isoformat
             Sample.store 3 0 provider Sample.request in
  ∃ response, returned r = Ok response ∧
  ∃ call,
    posts r = [call] ∧
    generate_greeting Sample.root Sample.store 3 "Emma" 7
      = Ok (md_greeting (r_call_metadata response)) ∧
    md_child_name (r_call_metadata response) = "Emma" ∧
    substring (dquote +:+ md_greeting (r_call_metadata response) +:+ dquote)
              (conversational_context (json call)) ∧
    substring ("- Name: " +:+ "Emma" +:+ nl)
              (conversational_context (json call)) ∧
    conversation_name (json call) = "Santa call with " +:+ "Emma".
Proof.
  intros provider r.
  destruct (returned r) as [response|e] eqn:Hr; [|by vm_compute in Hr].
  exists response. split; [done|].
  by apply (sent_prompt_quotes_greeting (Some "key") (Some "persona")
              Sample.root Sample.float_repr Sample.container_repr
              Sample.isoformat Sample.store 3 0 provider Sample.request).
Defined.

(** ** Serving a request end to end *)

Lemma generate_greeting_is_Ok (root : val) (h : heap) (draw : nat)
    (child_name : string) (child_age : Z) (ts : list val) :
  greeting_templates_of root h (generate_greeting_band child_age) = Some ts →
  ts ≠ [] → Forall (λ v, has_known_fields v = true) ts →
  ∃ g, generate_greeting root h draw child_name child_age = Ok g.
Proof.
  unfold greeting_templates_of, generate_greeting.
  destruct (py_getitem h root "greeting_templates") as [gt|]; [|done].
  rewrite !bind_Ok.
  destruct (py_getitem h gt _) as [[| | | | |l]|]; try done.
  destruct (h !! l) as [[d|ts']|] eqn:Hl; try done.
  intros [= ->] Hne Hknown. rewrite bind_Ok.
  rewrite Forall_forall in Hknown.
  destruct (random_choice_list h draw l ts Hl Hne) as (v & -> & Hin).
  rewrite bind_Ok. by apply known_fields_format, Hknown.
Qed.

Lemma create_system_prompt_is_Ok (float_repr : float → string)
    (container_repr : heap → loc → string) (h : heap) (child_name : string)
    (child_age : Z) (duration greeting : string) (arc : val) :
  is_rendered_arc h arc = true →
  ∃ prompt,
    create_system_prompt float_repr container_repr h child_name child_age
      duration greeting arc = Ok prompt.
Proof.
  unfold is_rendered_arc. destruct (dict_of h arc) as [d|] eqn:Hd; [|done].
  intros H.
  apply andb_true_iff in H as [H Htiming].
  apply andb_true_iff in H as [H Hadapt].
  apply andb_true_iff in H as [Htotal Hphases].
  destruct (has_keys_lookup d _ "total_duration_seconds" Htotal)
    as [total Htot]; [by repeat constructor|].
  destruct (d !! "age_adaptation") as [a|] eqn:Ha; [|done].
  unfold is_adaptation in Hadapt.
  destruct (dict_of h a) as [da|] eqn:Hda; [|done].
  destruct (d !! "timing") as [g|] eqn:Hg; [|done].
  unfold is_timing in Htiming.
  destruct (dict_of h g) as [dg|] eqn:Hdg; [|done].
  destruct (d !! "phases") as [ps|] eqn:Hps; [|done].
  simpl (_ ≫= _) in Hphases.
  destruct (list_of h ps) as [phases|] eqn:Hlist; [|done].
  destruct (phase_blocks_exist float_repr container_repr h phases 1 Hphases)
    as [blocks Hblocks].
  assert (∀ key, key ∈ ["language_level"; "response_length";
                        "sentence_complexity"; "energy"; "attention_span"] →
                 ∃ v, py_getitem h a key = Ok v) as Hgda.
  { intros key Hkey. destruct (has_keys_lookup da _ key Hadapt Hkey) as [v Hv].
    exists v. by rewrite (dict_of_getitem _ _ _ _ Hda), Hv. }
  assert (∀ key, key ∈ ["average_response_length_seconds";
                        "max_response_length_seconds";
                        "pause_between_responses_seconds"] →
                 ∃ v, py_getitem h g key = Ok v) as Hgdg.
  { intros key Hkey. destruct (has_keys_lookup dg _ key Htiming Hkey) as [v Hv].
    exists v. by rewrite (dict_of_getitem _ _ _ _ Hdg), Hv. }
  destruct (Hgda "language_level") as [v1 Hv1]; [by repeat constructor|].
  destruct (Hgda "response_length") as [v2 Hv2]; [by repeat constructor|].
  destruct (Hgda "sentence_complexity") as [v3 Hv3]; [by repeat constructor|].
  destruct (Hgda "energy") as [v4 Hv4]; [by repeat constructor|].
  destruct (Hgda "attention_span") as [v5 Hv5]; [by repeat constructor|].
  destruct (Hgdg "average_response_length_seconds") as [w1 Hw1];
    [by repeat constructor|].
  destruct (Hgdg "max_response_length_seconds") as [w2 Hw2];
    [by repeat constructor|].
  destruct (Hgdg "pause_between_responses_seconds") as [w3 Hw3];
    [by repeat constructor|].
  destruct (list_of_iter _ _ _ Hlist) as [Hiter Hlen].
  assert (py_getitem h arc "phases" = Ok ps) as Hgps
    by (by rewrite (dict_of_getitem _ _ _ _ Hd), Hps).
  assert (py_getitem h arc "age_adaptation" = Ok a) as Hga
    by (by rewrite (dict_of_getitem _ _ _ _ Hd), Ha).
  assert (py_getitem h arc "timing" = Ok g) as Hgg
    by (by rewrite (dict_of_getitem _ _ _ _ Hd), Hg).
  assert (py_getitem h arc "total_duration_seconds" = Ok total) as Hgt
    by (by rewrite (dict_of_getitem _ _ _ _ Hd), Htot).
  unfold create_system_prompt, age_adaptation_block, timing_block,
    prompt_header, prompt_structure.
  repeat first
    [ rewrite bind_Ok; cbv beta
    | rewrite Hgt | rewrite Hga | rewrite Hgg | rewrite Hgps
    | rewrite Hv1 | rewrite Hv2 | rewrite Hv3 | rewrite Hv4 | rewrite Hv5
    | rewrite Hw1 | rewrite Hw2 | rewrite Hw3
    | rewrite Hlen | rewrite Hiter
    | rewrite (phases_loop_concat _ _ _ _ _ _ _ Hblocks) ].
  by eexists.
Qed.

Section Serving.

Variable TAVUS_API_KEY TAVUS_PERSONA_ID : option string.
Variable CONVERSATION_ARCS : val.
Variable float_repr : float → string.
Variable container_repr : heap → loc → string.
Variable isoformat : datetime → string.

Local Abbreviation handler :=
  (start_santa_call TAVUS_API_KEY TAVUS_PERSONA_ID CONVERSATION_ARCS
     float_repr container_repr isoformat).

(** X6. With both credentials set, a catalog that serves the duration
    and the age of the request, and a provider that answers 200 with a
    JSON object in which the conversation id and URL are strings and the
    expiry is absent or a string, the call returns: greeting, arc, prompt
    and response compose without an error. *)
Theorem start_santa_call_serves (h : heap) (draw : nat) (utcnow : datetime)
    (provider : Post → reply) (request : StartCallRequest) :
  is_set TAVUS_API_KEY = true → is_set TAVUS_PERSONA_ID = true →
  catalog_serves CONVERSATION_ARCS h (call_duration request)
    (child_age request) →
  (∀ call, ∃ text tavus_data id conversation_url,
     provider call = Response 200 text (Some (JObject tavus_data)) ∧
     tavus_data !! "conversation_id" = Some (JString id) ∧
     tavus_data !! "conversation_url" = Some (JString conversation_url) ∧
     (tavus_data !! "expires_at" = None
      ∨ ∃ expires_at, tavus_data !! "expires_at" = Some (JString expires_at))) →
  ∃ response, returned (handler h draw utcnow provider request) = Ok response.
Proof.
  intros Hkey Hpersona (Hgreet & Harc & Hadapt & Htiming) Hprovider.
  destruct Hgreet as (ts & Hts & Hne & Hknown).
  destruct Harc as (base & d & Hbase & Hd & Hshape & [arc_name Hname]).
  destruct Hadapt as (a & Ha & Hashape).
  destruct Htiming as (t & Ht & Htshape).
  unfold start_santa_call. rewrite Hkey, Hpersona. simpl.
  destruct (generate_greeting_is_Ok CONVERSATION_ARCS h draw
              (child_name request) (child_age request) ts Hts Hne Hknown)
    as [greeting ->].
  destruct (load_conversation_arc_rendered CONVERSATION_ARCS
              (call_duration request) (child_age request) h base a t d
              Hbase Hd Hshape Ha Hashape Ht Htshape)
    as (arc & h' & Hload & Hrendered).
  rewrite Hload.
  destruct (create_system_prompt_is_Ok float_repr container_repr h'
              (child_name request) (child_age request)
              (call_duration request) greeting arc Hrendered)
    as [system_prompt ->].
  destruct (Hprovider (tavus_request_of TAVUS_API_KEY TAVUS_PERSONA_ID
                         request system_prompt))
    as (text & tavus_data & cid & conversation_url & -> & Hid & Hurl
        & Hexpires).
  simpl.
  destruct (load_conversation_arc_Ok _ _ _ _ _ _ Hload)
    as (l_cat & d0 & adaptation & timing & Hstored & Hcat & -> & -> & _ & _).
  assert (d0 = d) as ->.
  { rewrite Hbase in Hstored. injection Hstored as ->.
    unfold dict_of in Hd. rewrite Hcat in Hd. congruence. }
  unfold is_rendered_arc, dict_of in Hrendered.
  rewrite lookup_insert_eq in Hrendered.
  apply andb_true_iff in Hrendered as [Hrendered _].
  apply andb_true_iff in Hrendered as [Hrendered _].
  unfold is_arc_dict in Hrendered.
  apply andb_true_iff in Hrendered as [_ Hphases].
  destruct (_ !! "phases") as [ps|] eqn:Hps; [|done].
  simpl (_ ≫= _) in Hphases.
  destruct (list_of _ ps) as [phases|] eqn:Hlist; [|done].
  apply list_of_iter in Hlist as [_ Hlen].
  set (l := fresh (dom h)) in *. set (h' := <[l := _]> h) in *.
  assert (py_getitem h' (VRef l) "name" = Ok arc_name) as Hgname.
  { unfold py_getitem, h'. rewrite lookup_insert_eq.
    by rewrite !lookup_insert_ne, Hname. }
  assert (py_getitem h' (VRef l) "phases" = Ok ps) as Hgps.
  { unfold py_getitem, h'. by rewrite lookup_insert_eq, Hps. }
  unfold start_call_response. cbn [json_getitem json_get].
  rewrite Hid, Hurl. cbn [from_option].
  rewrite !bind_Ok, Hgname, bind_Ok, Hgps, bind_Ok, Hlen, bind_Ok.
  cbn [str_field]. rewrite !bind_Ok.
  destruct Hexpires as [->|[expires_at ->]]; cbn [default from_option];
    unfold id; cbn [str_field]; rewrite !bind_Ok; by eexists.
Qed.

End Serving.

Lemma start_santa_call_serves_sample :
  ∃ response,
    returned (start_santa_call (Some "key") (Some "persona") Sample.root
                Sample.float_repr Sample.container_repr Sample.isoformat
                Sample.store 3 0
                (λ _, Response 200 "{}"
                        (Some (JObject
                                 (<["conversation_id" := JString "c1"]>
                                    (<["conversation_url" :=
                                         JString "u1"]> ∅)))))
                Sample.request)
    = Ok response.
Proof.
  apply start_santa_call_serves; [done|done| |].
  - repeat split.
    + eexists. split; [by vm_compute|]. split; [done|repeat constructor].
    + exists (VRef 10). eexists. split; [by vm_compute|].
      split; [by vm_compute|]. split; [by vm_compute|].
      eexists. by vm_compute.
    + eexists. split; by vm_compute.
    + eexists. split; by vm_compute.
  - intros call. eexists _, _, _, _. split; [done|].
    split; [done|]. split; [done|]. by left.
Defined.

(** ** More on [load_conversation_arc] *)

(** X7. For a duration the catalog has no arc for, the call raises
    [KeyError] before it copies anything: the store is left exactly as it
    was. *)
Theorem load_conversation_arc_unknown_duration (root : val) (h : heap)
    (duration : string) (age : Z) (arcs : val) (d : gmap string val) :
  py_getitem h root "arcs" = Ok arcs →
  dict_of h arcs = Some d →
  d !! duration = None →
  load_conversation_arc root duration age h = (Raise KeyError, h).
Proof.
  intros Harcs Hd Hnone.
  unfold load_conversation_arc, M_bind, M_read. rewrite Harcs.
  by rewrite (dict_of_getitem _ _ _ _ Hd), Hnone.
Qed.

Lemma load_conversation_arc_unknown_duration_sample :
  load_conversation_arc Sample.root "7min" 7 Sample.store
  = (Raise KeyError, Sample.store).
Proof.
  apply (load_conversation_arc_unknown_duration Sample.root Sample.store
           "7min" 7 (VRef 2)
           (list_to_map [("5min", VRef 10); ("10min", VRef 11)]));
    by vm_compute.
Defined.

(** X8. Two calls in a row return two different dictionaries, and the
    second call leaves the arc of the first as it was. *)
Theorem load_conversation_arc_fresh_each_time (root : val)
    (duration1 duration2 : string) (age1 age2 : Z) (h h1 h2 : heap)
    (arc1 arc2 : val) :
  load_conversation_arc root duration1 age1 h = (Ok arc1, h1) →
  load_conversation_arc root duration2 age2 h1 = (Ok arc2, h2) →
  arc1 ≠ arc2 ∧
  ∃ l1 o, arc1 = VRef l1 ∧ h !! l1 = None ∧
          h1 !! l1 = Some o ∧ h2 !! l1 = Some o.
Proof.
  intros Hfirst Hsecond.
  pose proof (load_conversation_arc_extends root duration2 age2 h1) as Hsub.
  rewrite Hsecond in Hsub. simpl in Hsub.
  destruct (load_conversation_arc_Ok _ _ _ _ _ _ Hfirst)
    as (l_cat & d & adaptation & timing & _ & _ & -> & -> & _ & _).
  destruct (load_conversation_arc_Ok _ _ _ _ _ _ Hsecond)
    as (l_cat' & d' & adaptation' & timing' & _ & _ & -> & _ & _ & _).
  split.
  - intros [= Heq].
    pose proof (fresh_lookup_None (<[fresh (dom h) :=
      ODict (<["timing" := timing]> (<["age_adaptation" := adaptation]> d))]> h))
      as Hfresh.
    rewrite <- Heq, lookup_insert_eq in Hfresh. done.
  - eexists _, _. split; [done|]. split; [apply fresh_lookup_None|].
    split; [apply lookup_insert_eq|].
    eapply lookup_weaken; [apply lookup_insert_eq|done].
Qed.

Lemma load_conversation_arc_fresh_each_time_sample :
  let first := load_conversation_arc Sample.root "5min" 7 Sample.store in
  let second := load_conversation_arc Sample.root "5min" 7 first.2 in
  VRef 57 ≠ VRef 58 ∧
  ∃ l1 o, VRef 57 = VRef l1 ∧ Sample.store !! l1 = None ∧
          first.2 !! l1 = Some o ∧ second.2 !! l1 = Some o.
Proof.
  apply (load_conversation_arc_fresh_each_time Sample.root "5min" "5min" 7 7
           Sample.store); by vm_compute.
Defined.

(** X9. The arc that is returned carries, under [age_adaptation], the
    adaptation the catalog stores for the band of the age and, under
    [timing], the guideline it stores for the duration: the same values,
    not copies. *)
Theorem load_conversation_arc_entries (root : val) (duration : string)
    (age : Z) (h h' : heap) (arc adaptation timing : val) :
  load_conversation_arc root duration age h = (Ok arc, h') →
  stored_adaptation root h age = Ok adaptation →
  stored_timing root h duration = Ok timing →
  py_getitem h' arc "age_adaptation" = Ok adaptation ∧
  py_getitem h' arc "timing" = Ok timing.
Proof.
  intros Hload Ha Ht.
  destruct (load_conversation_arc_Ok _ _ _ _ _ _ Hload)
    as (l_cat & d & a & t & _ & _ & -> & -> & Ha' & Ht').
  rewrite (Ha' _ Ha), (Ht' _ Ht). unfold py_getitem.
  rewrite lookup_insert_eq.
  by rewrite lookup_insert_ne, !lookup_insert_eq.
Qed.

Lemma load_conversation_arc_entries_sample :
  let h' := (load_conversation_arc Sample.root "10min" 3 Sample.store).2 in
  py_getitem h' (VRef 57) "age_adaptation" = Ok (VRef 20) ∧
  py_getitem h' (VRef 57) "timing" = Ok (VRef 41).
Proof.
  apply (load_conversation_arc_entries Sample.root "10min" 3 Sample.store);
    by vm_compute.
Defined.

(** ** More on [generate_greeting] *)

Lemma greeting_templates_of_Some (root : val) (h : heap) (band : string)
    (ts : list val) :
  greeting_templates_of root h band = Some ts →
  ∃ gt l, py_getitem h root "greeting_templates" = Ok gt ∧
          py_getitem h gt band = Ok (VRef l) ∧ h !! l = Some (OList ts).
Proof.
  unfold greeting_templates_of.
  destruct (py_getitem h root "greeting_templates") as [gt|] eqn:Hgt; [|done].
  rewrite bind_Ok.
  destruct (py_getitem h gt band) as [[| | | | |l]|] eqn:Hband; try done.
  destruct (h !! l) as [[d|ts']|] eqn:Hl; try done.
  intros [= ->]. by exists gt, l.
Qed.

(** X10. With [draw] below the length of the band's list the template at
    that index is the one formatted, so every template of the band is
    drawn by some value of the random source; and two values that differ
    by the length of the list draw the same greeting. *)
Theorem generate_greeting_draws (root : val) (h : heap) (child_name : string)
    (child_age : Z) (ts : list val) :
  greeting_templates_of root h (generate_greeting_band child_age) = Some ts →
  (∀ i v, ts !! i = Some v →
     generate_greeting root h i child_name child_age
     = str_format v (greeting_kwargs child_name "child")) ∧
  (∀ draw,
     generate_greeting root h (draw + length ts) child_name child_age
     = generate_greeting root h draw child_name child_age).
Proof.
  intros (gt & l & Hgt & Hband & Hl)%greeting_templates_of_Some.
  unfold generate_greeting. split.
  - intros i v Hv. rewrite Hgt, bind_Ok, Hband, bind_Ok.
    pose proof (lookup_lt_Some _ _ _ Hv) as Hlt.
    unfold random_choice, py_len, py_getitem_int. rewrite Hl, bind_Ok.
    destruct (Nat.eqb_spec (length ts) 0) as [Hz|_]; [lia|].
    by rewrite Nat.mod_small, Hv.
  - intros draw. rewrite Hgt, !bind_Ok, Hband, !bind_Ok.
    unfold random_choice, py_len. rewrite Hl, !bind_Ok.
    destruct (Nat.eqb_spec (length ts) 0) as [Hz|Hnz]; [done|].
    replace (draw + length ts)%nat with (draw + 1 * length ts)%nat by lia.
    by rewrite Nat.Div0.mod_add.
Qed.

Lemma generate_greeting_draws_sample :
  let ts := [VStr "Ho ho ho! Merry Christmas, {child_name}!";
             VStr "Well hello, {child_name}, my dear {child}!"] in
  (∀ i v, ts !! i = Some v →
     generate_greeting Sample.root Sample.store i "Emma" 7
     = str_format v (greeting_kwargs "Emma" "child")) ∧
  (∀ draw,
     generate_greeting Sample.root Sample.store (draw + length ts) "Emma" 7
     = generate_greeting Sample.root Sample.store draw "Emma" 7).
Proof.
  apply (generate_greeting_draws Sample.root Sample.store "Emma" 7).
  by vm_compute.
Defined.

(** X11. A band without templates makes [generate_greeting] raise
    [IndexError], and a catalog without the band makes it raise
    [KeyError], whatever the random source yields. *)
Theorem generate_greeting_without_templates (root : val) (h : heap)
    (draw : nat) (child_name : string) (child_age : Z) :
  (greeting_templates_of root h (generate_greeting_band child_age) = Some [] →
   generate_greeting root h draw child_name child_age = Raise IndexError) ∧
  (∀ templates d,
     py_getitem h root "greeting_templates" = Ok templates →
     dict_of h templates = Some d →
     d !! generate_greeting_band child_age = None →
     generate_greeting root h draw child_name child_age = Raise KeyError).
Proof.
  unfold generate_greeting. split.
  - intros (gt & l & Hgt & Hband & Hl)%greeting_templates_of_Some.
    rewrite Hgt, bind_Ok, Hband, bind_Ok.
    unfold random_choice, py_len. by rewrite Hl.
  - intros templates d -> Hd Hnone.
    by rewrite bind_Ok, (dict_of_getitem _ _ _ _ Hd), Hnone.
Qed.

Lemma generate_greeting_without_templates_sample :
  let h : heap :=
    list_to_map [(1%positive, Sample.dict [("greeting_templates", VRef 2)]);
                 (2%positive, Sample.dict [("ages_5_8", VRef 3)]);
                 (3%positive, OList [])] in
  generate_greeting (VRef 1) h 5 "Emma" 7 = Raise IndexError ∧
  generate_greeting (VRef 1) h 5 "Emma" 3 = Raise KeyError.
Proof.
  intros h. split.
  - apply (generate_greeting_without_templates (VRef 1) h 5 "Emma" 7).
    by vm_compute.
  - apply (proj2 (generate_greeting_without_templates (VRef 1) h 5 "Emma" 3)
             (VRef 2) (list_to_map [("ages_5_8", VRef 3)])); by vm_compute.
Defined.

(** ** More on [create_system_prompt] *)

(** X12. An arc as the catalog stores it, without the [age_adaptation]
    entry that [load_conversation_arc] sets, cannot be rendered: the
    prompt raises [KeyError]. *)
Theorem create_system_prompt_needs_adaptation (float_repr : float → string)
    (container_repr : heap → loc → string) (h : heap) (child_name : string)
    (child_age : Z) (duration greeting : string) (arc : val)
    (d : gmap string val) :
  dict_of h arc = Some d →
  is_Some (d !! "total_duration_seconds") →
  d !! "age_adaptation" = None →
  create_system_prompt float_repr container_repr h child_name child_age
    duration greeting arc = Raise KeyError.
Proof.
  intros Hd [total Htotal] Hnone.
  unfold create_system_prompt, prompt_header.
  by rewrite !(dict_of_getitem _ _ _ _ Hd), Htotal, Hnone.
Qed.

Lemma create_system_prompt_needs_adaptation_sample :
  create_system_prompt Sample.float_repr Sample.container_repr Sample.store
    "Emma" 7 "5min" "Hi Emma" (VRef 10) = Raise KeyError.
Proof.
  apply (create_system_prompt_needs_adaptation _ _ _ _ _ _ _ _
           (list_to_map [("name", VStr "Quick Santa Chat");
                         ("total_duration_seconds", VInt 300);
                         ("phases", VRef 12)]));
    [reflexivity | by exists (VInt 300) | reflexivity].
Defined.

(** Case conversion on every character. *)
Lemma to_lower_spec (c : ascii) :
  to_lower (to_lower c) = to_lower c ∧
  (is_upper (to_lower c) || is_lower (to_lower c)
   = is_upper c || is_lower c) ∧
  (c ≠ "_"%char → to_lower c ≠ "_"%char).
Proof. by destruct c as [[] [] [] [] [] [] [] []]; vm_compute. Qed.

Lemma to_title_spec (c c' : ascii) :
  to_title c = Some c' →
  to_title c' = Some c' ∧
  (is_upper c' || is_lower c' = is_upper c || is_lower c) ∧
  (c ≠ "_"%char → c' ≠ "_"%char).
Proof.
  destruct c as [[] [] [] [] [] [] [] []]; intros Heq; vm_compute in Heq;
    try discriminate; injection Heq as <-; by vm_compute.
Qed.

Lemma to_title_ascii (c : ascii) :
  (nat_of_ascii c <? 128)%nat = true → is_Some (to_title c).
Proof.
  destruct c as [[] [] [] [] [] [] [] []]; intros H; vm_compute in H;
    try discriminate; vm_compute; by eexists.
Qed.

Lemma title_go_Some (b : bool) (s t : string) :
  title_go b s = Some t →
  String.length t = String.length s ∧
  ((∀ j, String.get j s ≠ Some "_"%char) →
   ∀ i, String.get i t ≠ Some "_"%char) ∧
  title_go b t = Some t.
Proof.
  revert b t. induction s as [|c s IH]; intros b t.
  { by intros [= <-]. }
  cbn [title_go].
  destruct (if b then Some (to_lower c) else to_title c) as [c'|] eqn:Hc;
    [|done].
  cbn [mbind option_bind].
  destruct (title_go (is_upper c || is_lower c) s) as [rest|] eqn:Hrest;
    [|done].
  cbn [mbind option_bind]. intros [= <-].
  destruct (IH _ _ Hrest) as (Hlen & Hnone & Hagain).
  assert ((if b then Some (to_lower c') else to_title c') = Some c'
          ∧ (is_upper c' || is_lower c' = is_upper c || is_lower c)
          ∧ (c ≠ "_"%char → c' ≠ "_"%char)) as (Hc' & Hcased & Hunder).
  { destruct b.
    - injection Hc as <-. destruct (to_lower_spec c) as (-> & ? & ?). done.
    - by apply to_title_spec. }
  split; [simpl; by rewrite Hlen|]. split.
  - intros Hs [|i]; simpl.
    + intros [= Heq]. apply Hunder; [|done]. intros ->. by apply (Hs 0%nat).
    + apply Hnone. intros j. apply (Hs (S j)).
  - cbn [title_go]. rewrite Hc'. cbn [mbind option_bind].
    rewrite Hcased, Hagain. done.
Qed.

Lemma title_go_ascii (b : bool) (s : string) :
  is_ascii_text s = true → is_Some (title_go b s).
Proof.
  unfold is_ascii_text. revert b. induction s as [|c s IH]; intros b.
  { by eexists. }
  cbn [list_ascii_of_string forallb].
  intros [Hc Hs]%andb_true_iff. cbn [title_go].
  destruct (IH (is_upper c || is_lower c) Hs) as [rest ->].
  destruct b; [by eexists|].
  destruct (to_title_ascii c Hc) as [c' ->]. by eexists.
Qed.

Lemma replace_char_ascii (s : string) :
  is_ascii_text s = true → is_ascii_text (replace_char "_" " " s) = true.
Proof.
  unfold is_ascii_text. induction s as [|c s IH]; [done|].
  cbn [replace_char list_ascii_of_string forallb].
  intros [Hc Hs]%andb_true_iff. rewrite (IH Hs), andb_true_r.
  by destruct (Ascii.eqb c "_").
Qed.

Lemma replace_char_get (old new : ascii) (s : string) (i : nat) :
  old ≠ new → String.get i (replace_char old new s) ≠ Some old.
Proof.
  intros Hne. revert i. induction s as [|c s IH]; intros i; [done|]. simpl.
  destruct i as [|i]; [|apply IH].
  destruct (Ascii.eqb_spec c old); congruence.
Qed.

Lemma replace_char_length (old new : ascii) (s : string) :
  String.length (replace_char old new s) = String.length s.
Proof. induction s as [|c s IH]; simpl; auto. Qed.

(** X13. For a phase name of ASCII characters, the name shown in the
    prompt has as many characters as the stored one and no underscore, and
    it is stable: showing a shown name again gives the same text. *)
Theorem humanize_shown_name (s : string) :
  is_ascii_text s = true →
  ∃ shown, humanize (VStr s) = Ok shown ∧
    String.length shown = String.length s ∧
    (∀ i, String.get i shown ≠ Some "_"%char) ∧
    humanize (VStr shown) = Ok shown.
Proof.
  intros Hascii. unfold humanize, title.
  destruct (title_go_ascii false _ (replace_char_ascii s Hascii))
    as [t Ht].
  destruct (title_go_Some _ _ _ Ht) as (Hlen & Hnone & Hagain).
  assert (∀ j, String.get j t ≠ Some "_"%char) as Hunder
    by (apply Hnone; intros k; by apply replace_char_get).
  exists t. rewrite Ht. split; [done|].
  split; [by rewrite Hlen, replace_char_length|].
  split; [done|].
  assert (replace_char "_" " " t = t) as ->.
  { clear Ht Hlen Hnone Hagain. induction t as [|c t IH]; [done|]. simpl.
    rewrite IH by (intros j; apply (Hunder (S j))).
    specialize (Hunder 0%nat). simpl in Hunder.
    destruct (Ascii.eqb_spec c "_"); congruence. }
  by rewrite Hagain.
Qed.

Lemma humanize_shown_name_sample :
  ∃ shown, humanize (VStr "wish_list") = Ok shown ∧
    String.length shown = 9%nat ∧
    (∀ i, String.get i shown ≠ Some "_"%char) ∧
    humanize (VStr shown) = Ok shown.
Proof. apply (humanize_shown_name "wish_list"). reflexivity. Defined.

(** ** More on the analytics *)

(** The summary in one piece: the early return on an empty store gives what
    the rest of the function gives on it. *)
Lemma get_analytics_unfold (utcnow : datetime) (analytics_store : list event) :
  get_analytics utcnow analytics_store
  = (d ← rounded_mean 1 (actual_duration_seconds
                            <$> completed_of analytics_store);
     g ← rounded_mean 2 (ratings_of (completed_of analytics_store));
     Ok {| total_calls := length (started_of analytics_store);
           calls_today :=
             length (filter (λ x, date x.1 = date utcnow)
                            (started_of analytics_store));
           average_duration_seconds := d;
           average_rating := g;
           calls_by_duration :=
             foldl (λ counts call, count_one counts (cd_call_duration call.2))
                   ∅ (started_of analytics_store);
           calls_by_age :=
             foldl (λ counts call,
                      count_one counts (pretty (cd_child_age call.2)))
                   ∅ (started_of analytics_store) |}).
Proof.
  unfold get_analytics. destruct analytics_store as [|x xs]; [done|].
  set (log := x :: xs). unfold rounded_mean.
  destruct (completed_of log) as [|c cs] eqn:Hc.
  - done.
  - rewrite length_fmap, fmap_cons. cbv iota.
    destruct (PyFloat.int_truediv (py_sum (actual_duration_seconds c :: _)) _)
      as [d|]; [|done]. rewrite !bind_Ok.
    destruct (ratings_of (c :: cs)) as [|r rs]; [done|].
    by destruct (PyFloat.int_truediv _ _).
Qed.

Lemma started_of_app (s1 s2 : list event) :
  started_of (s1 ++ s2) = started_of s1 ++ started_of s2.
Proof. apply omap_app. Qed.

Lemma completed_of_app (s1 s2 : list event) :
  completed_of (s1 ++ s2) = completed_of s1 ++ completed_of s2.
Proof. apply omap_app. Qed.

Lemma counts_total_count_one (counts : gmap string Z) (key : string) :
  counts_total (count_one counts key) = (counts_total counts + 1)%Z.
Proof.
  unfold counts_total, count_one.
  destruct (counts !! key) as [n|] eqn:Hkey; cbn [default].
  - rewrite <- insert_delete_eq.
    rewrite map_fold_insert_L; [|intros; lia|apply lookup_delete_eq].
    rewrite (map_fold_delete_L _ _ key n counts); [unfold id; lia|intros; lia|done].
  - rewrite map_fold_insert_L; [lia|intros; lia|done].
Qed.

Lemma count_loop_total {A} (key_of : A → string) (xs : list A)
    (counts : gmap string Z) :
  counts_total (foldl (λ counts x, count_one counts (key_of x)) counts xs)
  = (counts_total counts + Z.of_nat (length xs))%Z.
Proof.
  revert counts. induction xs as [|x xs IH]; intros counts; simpl; [lia|].
  rewrite IH, counts_total_count_one. lia.
Qed.

(** X14. In a summary, the total is the number of started calls in the
    store, the calls of today are at most the total, and the counts by
    duration add up to the total, as do the counts by age. *)
Theorem get_analytics_totals (utcnow : datetime) (analytics_store : list event)
    (r : AnalyticsResponse) :
  get_analytics utcnow analytics_store = Ok r →
  total_calls r = length (started_of analytics_store) ∧
  (calls_today r ≤ total_calls r)%nat ∧
  counts_total (calls_by_duration r) = Z.of_nat (total_calls r) ∧
  counts_total (calls_by_age r) = Z.of_nat (total_calls r).
Proof.
  rewrite get_analytics_unfold.
  destruct (rounded_mean 1 _) as [d|]; [|done]. rewrite bind_Ok.
  destruct (rounded_mean 2 _) as [g|]; [|done]. rewrite bind_Ok.
  intros [= <-].
  cbn [total_calls calls_today calls_by_duration calls_by_age].
  split; [done|]. split; [apply length_filter|].
  split; rewrite count_loop_total; unfold counts_total;
    rewrite map_fold_empty; lia.
Qed.

Lemma get_analytics_totals_sample :
  let log := [started 3 "5min"; completed 290 (Some 5%Z); started 4 "10min";
              started 3 "10min"] in
  ∃ r, get_analytics 0 log = Ok r ∧
    total_calls r = 3%nat ∧
    (calls_today r ≤ total_calls r)%nat ∧
    counts_total (calls_by_duration r) = Z.of_nat (total_calls r) ∧
    counts_total (calls_by_age r) = Z.of_nat (total_calls r).
Proof.
  intros log.
  destruct (get_analytics 0 log) as [r|e] eqn:Hr; [|by vm_compute in Hr].
  exists r. split; [done|]. exact (get_analytics_totals 0 log r Hr).
Defined.

Lemma int_truediv_raises (a b : Z) (e : exn) :
  b ≠ 0%Z → PyFloat.int_truediv a b = Raise e → e = OverflowError.
Proof.
  unfold PyFloat.int_truediv. destruct b as [|p|p]; [done|..]; intros _;
    destruct (PyFloat.too_large _); congruence.
Qed.

Lemma rounded_mean_raises (ndigits : Z) (xs : list Z) (e : exn) :
  rounded_mean ndigits xs = Raise e → e = OverflowError.
Proof.
  unfold rounded_mean. destruct xs as [|x xs]; [done|].
  destruct (PyFloat.int_truediv _ _) as [m|e'] eqn:Hdiv; [done|].
  intros [= <-]. eapply int_truediv_raises; [|exact Hdiv]. simpl. lia.
Qed.

(** X15. The summary raises nothing but [OverflowError]: the divisions are
    guarded, so there is no [ZeroDivisionError], whatever the store
    holds. *)
Theorem get_analytics_raises_only_overflow (utcnow : datetime)
    (analytics_store : list event) (e : exn) :
  get_analytics utcnow analytics_store = Raise e → e = OverflowError.
Proof.
  rewrite get_analytics_unfold.
  destruct (rounded_mean 1 _) as [d|e1] eqn:Hd.
  - rewrite bind_Ok. destruct (rounded_mean 2 _) as [g|e2] eqn:Hg; [done|].
    intros [= <-]. by eapply rounded_mean_raises.
  - intros [= <-]. by eapply rounded_mean_raises.
Qed.

(** One completed call of [2 ^ 1024] seconds. *)
Lemma get_analytics_raises_only_overflow_sample :
  get_analytics 0 [completed (2 ^ 1024) None] = Raise OverflowError.
Proof.
  destruct (get_analytics 0 [completed (2 ^ 1024) None]) as [r|e] eqn:He;
    [by vm_compute in He|].
  f_equal.
  exact (get_analytics_raises_only_overflow 0
           [completed (2 ^ 1024) None] e He).
Defined.

(** X16. Tracking a started call changes a summary by that call alone:
    the total grows by one, the calls of today grow by one when the call is
    of today, the entry of its duration and the entry of its age grow by
    one, and the averages stay as they are. *)
Theorem track_call_started_counted (utcnow timestamp : datetime)
    (call_data : CallData) (analytics_store : list event)
    (r : AnalyticsResponse) :
  get_analytics utcnow analytics_store = Ok r →
  ∃ r',
    get_analytics utcnow
      (track_call_started timestamp call_data analytics_store) = Ok r' ∧
    total_calls r' = S (total_calls r) ∧
    calls_today r'
      = (calls_today r
         + if decide (date timestamp = date utcnow) then 1 else 0)%nat ∧
    average_duration_seconds r' = average_duration_seconds r ∧
    average_rating r' = average_rating r ∧
    calls_by_duration r'
      = count_one (calls_by_duration r) (cd_call_duration call_data) ∧
    calls_by_age r'
      = count_one (calls_by_age r) (pretty (cd_child_age call_data)).
Proof.
  rewrite !get_analytics_unfold. unfold track_call_started.
  rewrite started_of_app, completed_of_app. cbn [started_of completed_of omap
    list_omap]. rewrite app_nil_r.
  destruct (rounded_mean 1 _) as [d|]; [|done]. rewrite !bind_Ok.
  destruct (rounded_mean 2 _) as [g|]; [|done]. rewrite !bind_Ok.
  intros [= <-]. eexists. split; [reflexivity|].
  cbn [total_calls calls_today average_duration_seconds average_rating
       calls_by_duration calls_by_age].
  rewrite length_app, filter_app, length_app, !foldl_app. cbn [foldl snd].
  split; [simpl; lia|]. split; [|done].
  f_equal. cbn [fst].
  destruct (decide (date timestamp = date utcnow)).
  - by rewrite filter_cons_True.
  - by rewrite filter_cons_False.
Qed.

Lemma track_call_started_counted_sample :
  let log := [started 3 "5min"; completed 290 (Some 5%Z)] in
  let call := {| cd_conversation_id := JString "c2"; cd_child_age := 3;
                 cd_call_duration := "10min"; cd_parent_email := None |} in
  ∃ r r', get_analytics 0 log = Ok r ∧
    get_analytics 0 (track_call_started 86400000000 call log) = Ok r' ∧
    total_calls r' = 2%nat ∧ calls_today r' = calls_today r ∧
    average_duration_seconds r' = average_duration_seconds r ∧
    average_rating r' = average_rating r ∧
    calls_by_duration r' = count_one (calls_by_duration r) "10min" ∧
    calls_by_age r' = count_one (calls_by_age r) "3".
Proof.
  intros log call.
  destruct (get_analytics 0 log) as [r|e] eqn:Hr; [|by vm_compute in Hr].
  destruct (track_call_started_counted 0 86400000000 call log r Hr)
    as (r' & Hr' & Htotal & Htoday & Hrest).
  exists r, r'. split; [done|]. split; [exact Hr'|].
  split; [|split; [|exact Hrest]].
  - rewrite Htotal. vm_compute in Hr. by injection Hr as <-.
  - rewrite Htoday. simpl. lia.
Defined.

(** X17. Tracking a completed call leaves the counts of a summary as they
    were: the total, the calls of today and the counts by duration and by
    age. *)
Theorem track_call_completed_keeps_counts (utcnow timestamp : datetime)
    (completion_data : CallCompletionRequest) (analytics_store : list event)
    (r r' : AnalyticsResponse) :
  get_analytics utcnow analytics_store = Ok r →
  get_analytics utcnow
    (track_call_completed timestamp completion_data analytics_store)
    = Ok r' →
  total_calls r' = total_calls r ∧ calls_today r' = calls_today r ∧
  calls_by_duration r' = calls_by_duration r ∧
  calls_by_age r' = calls_by_age r.
Proof.
  rewrite !get_analytics_unfold. unfold track_call_completed.
  rewrite started_of_app. cbn [started_of omap list_omap].
  rewrite app_nil_r.
  destruct (rounded_mean 1 _) as [d|]; [|done]. rewrite bind_Ok.
  destruct (rounded_mean 2 _) as [g|]; [|done]. rewrite bind_Ok.
  intros [= <-].
  destruct (rounded_mean 1 _) as [d'|]; [|done]. rewrite bind_Ok.
  destruct (rounded_mean 2 _) as [g'|]; [|done]. rewrite bind_Ok.
  by intros [= <-].
Qed.

Lemma track_call_completed_keeps_counts_sample :
  let log := [started 3 "5min"; completed 290 (Some 5%Z)] in
  let completion :=
    {| conversation_id := "c"; actual_duration_seconds := 310;
       parent_rating := None; parent_feedback := None;
       child_enjoyed := Some true |} in
  ∃ r r', get_analytics 0 log = Ok r ∧
    get_analytics 0 (track_call_completed 5 completion log) = Ok r' ∧
    average_duration_seconds r' = 300%Q ∧
    total_calls r' = total_calls r ∧ calls_today r' = calls_today r ∧
    calls_by_duration r' = calls_by_duration r ∧
    calls_by_age r' = calls_by_age r.
Proof.
  intros log completion.
  destruct (get_analytics 0 log) as [r|e] eqn:Hr; [|by vm_compute in Hr].
  destruct (get_analytics 0 (track_call_completed 5 completion log))
    as [r'|e] eqn:Hr'; [|by vm_compute in Hr'].
  exists r, r'. split; [done|]. split; [done|].
  split; [vm_compute in Hr'; by injection Hr' as <-|].
  exact (track_call_completed_keeps_counts 0 5 completion log r r' Hr Hr').
Defined.

(** X18. The completion route keeps the store to ratings that pass the
    request model: after the task of a posted body has run, accepted or
    not, every stored rating is between 1 and 5.  On such a store no
    supplied rating is left out of the average: the test on the rating
    drops only the completions without one. *)
Theorem completion_route_keeps_ratings (utcnow : datetime)
    (body : CallCompletionRequest) (analytics_store : list event) :
  Forall (λ x, valid_completion x = true) (completed_of analytics_store) →
  let store' :=
    foldl (λ store data, track_call_completed utcnow data store)
          analytics_store (post_complete_call body).2 in
  Forall (λ x, valid_completion x = true) (completed_of store') ∧
  ratings_of (completed_of store') = supplied_ratings store' ∧
  (valid_completion body = false → store' = analytics_store).
Proof.
  intros Hstore store'.
  assert (Forall (λ x, valid_completion x = true) (completed_of store'))
    as Hvalid.
  { apply (run_tasks_valid utcnow [] (post_complete_call body).2);
      [done|apply post_complete_call_valid]. }
  split; [done|]. split; [by apply ratings_of_valid|].
  intros Hbody. unfold store', post_complete_call. by rewrite Hbody.
Qed.

Lemma completion_route_keeps_ratings_sample :
  let body := {| conversation_id := "c"; actual_duration_seconds := 280;
                 parent_rating := Some 4%Z; parent_feedback := None;
                 child_enjoyed := None |} in
  let store' :=
    foldl (λ store data, track_call_completed 7 data store)
          [started 3 "5min"; completed 290 None] (post_complete_call body).2 in
  Forall (λ x, valid_completion x = true) (completed_of store') ∧
  ratings_of (completed_of store') = [4%Z] ∧
  (valid_completion body = false → store' = [started 3 "5min"; completed 290 None]).
Proof.
  intros body.
  apply (completion_route_keeps_ratings 7 body
           [started 3 "5min"; completed 290 None]).
  by repeat constructor.
Defined.

(** ** The health check *)

Lemma health_check_Ok (TAVUS_API_KEY TAVUS_PERSONA_ID : option string)
    (root : val) (h : heap) (utcnow : datetime) (probe : option Z)
    (analytics_store : list event) (r : HealthResponse) :
  health_check TAVUS_API_KEY TAVUS_PERSONA_ID root h utcnow probe
    analytics_store = Ok r →
  ∃ loaded arcs,
    r = {| health_status := "healthy";
           health_service := "santa-api";
           health_version := "1.0.0";
           health_timestamp := utcnow;
           configuration :=
             {| tavus_api_key_set := is_set TAVUS_API_KEY;
                tavus_persona_id_set := is_set TAVUS_PERSONA_ID;
                conversation_arcs_loaded := loaded;
                arcs_available := arcs |};
           tavus_api_reachable :=
             match TAVUS_API_KEY with
             | None => false
             | Some _ =>
                 match probe with
                 | Some status_code =>
                     bool_decide (status_code ∈ [200%Z; 401%Z])
                 | None => false
                 end
             end;
           total_calls_tracked := length (started_of analytics_store) |} ∧
    ∀ probe',
      health_check TAVUS_API_KEY TAVUS_PERSONA_ID root h utcnow probe'
        analytics_store
      = Ok {| health_status := "healthy";
              health_service := "santa-api";
              health_version := "1.0.0";
              health_timestamp := utcnow;
              configuration :=
                {| tavus_api_key_set := is_set TAVUS_API_KEY;
                   tavus_persona_id_set := is_set TAVUS_PERSONA_ID;
                   conversation_arcs_loaded := loaded;
                   arcs_available := arcs |};
              tavus_api_reachable :=
                match TAVUS_API_KEY with
                | None => false
                | Some _ =>
                    match probe' with
                    | Some status_code =>
                        bool_decide (status_code ∈ [200%Z; 401%Z])
                    | None => false
                    end
                end;
              total_calls_tracked := length (started_of analytics_store) |}.
Proof.
  unfold health_check.
  destruct (py_bool h root) as [loaded|]; [|done]. rewrite bind_Ok.
  destruct (match root with VRef _ => _ | _ => _ end) as [arcs|]; [|done].
  rewrite bind_Ok. intros [= <-]. by exists loaded, arcs.
Qed.

(** X19. A health report says [healthy] whatever the configuration and
    the provider.  [tavus_api_reachable] holds exactly when a key is
    configured, so that the request can be sent, and the provider answers
    200 or 401; what the provider does never makes the check fail and
    changes nothing else in the report.  The calls it reports are the
    total of the analytics summary. *)
Theorem health_check_report (TAVUS_API_KEY TAVUS_PERSONA_ID : option string)
    (root : val) (h : heap) (utcnow : datetime) (probe : option Z)
    (analytics_store : list event) (r : HealthResponse) :
  health_check TAVUS_API_KEY TAVUS_PERSONA_ID root h utcnow probe
    analytics_store = Ok r →
  health_status r = "healthy" ∧
  (tavus_api_reachable r = true
   ↔ TAVUS_API_KEY ≠ None ∧ (probe = Some 200%Z ∨ probe = Some 401%Z)) ∧
  (∀ now summary,
     get_analytics now analytics_store = Ok summary →
     total_calls_tracked r = total_calls summary) ∧
  (∀ probe', ∃ r',
     health_check TAVUS_API_KEY TAVUS_PERSONA_ID root h utcnow probe'
       analytics_store = Ok r' ∧
     configuration r' = configuration r ∧
     total_calls_tracked r' = total_calls_tracked r).
Proof.
  intros (loaded & arcs & -> & Hany)%health_check_Ok.
  cbn [health_status tavus_api_reachable total_calls_tracked configuration].
  split; [done|]. split; [|split].
  - destruct TAVUS_API_KEY as [key|]; [|split; [done|by intros [? _]]].
    destruct probe as [status_code|];
      [|split; [done|by intros [_ [|]]]].
    rewrite bool_decide_eq_true, !elem_of_cons, elem_of_nil.
    split; [intros [->| [->|[]]]; auto|].
    intros [_ [[= ->]|[= ->]]]; auto.
  - intros now summary Hsummary. rewrite get_analytics_unfold in Hsummary.
    destruct (rounded_mean 1 _) as [d|]; [|done]. rewrite bind_Ok in Hsummary.
    destruct (rounded_mean 2 _) as [g|]; [|done]. rewrite bind_Ok in Hsummary.
    by injection Hsummary as <-.
  - intros probe'. eexists. split; [apply Hany|done].
Qed.

(** A key that the provider refuses with 401, no persona, one started
    call; and the same provider with no key at all. *)
Lemma health_check_report_sample :
  (∃ r, health_check (Some "key") None Sample.root Sample.store 0
          (Some 401%Z) [started 3 "5min"] = Ok r ∧
     health_status r = "healthy" ∧ tavus_api_reachable r = true ∧
     total_calls_tracked r = 1%nat ∧
     tavus_persona_id_set (configuration r) = false) ∧
  (∃ r, health_check None None Sample.root Sample.store 0
          (Some 401%Z) [started 3 "5min"] = Ok r ∧
     health_status r = "healthy" ∧ tavus_api_reachable r ≠ true).
Proof.
  split.
  - destruct (health_check (Some "key") None Sample.root Sample.store 0
                (Some 401%Z) [started 3 "5min"]) as [r|e] eqn:Hr;
      [|by vm_compute in Hr].
    destruct (health_check_report (Some "key") None Sample.root Sample.store 0
                (Some 401%Z) [started 3 "5min"] r Hr)
      as (Hstatus & Hreachable & Htotal & _).
    exists r. split; [done|]. split; [exact Hstatus|].
    split; [apply Hreachable; split; [done|by right]|].
    split; [by rewrite (Htotal 0%Z _ eq_refl)|].
    vm_compute in Hr. by injection Hr as <-.
  - destruct (health_check None None Sample.root Sample.store 0
                (Some 401%Z) [started 3 "5min"]) as [r|e] eqn:Hr;
      [|by vm_compute in Hr].
    destruct (health_check_report None None Sample.root Sample.store 0
                (Some 401%Z) [started 3 "5min"] r Hr)
      as (Hstatus & Hreachable & _).
    exists r. split; [done|]. split; [exact Hstatus|].
    intros Htrue. by apply Hreachable in Htrue as [? _].
Defined.

(** X20. When what was loaded from the catalog file is not a mapping, as
    [None] from an empty file or a list, the health check does not answer:
    it raises [AttributeError]. *)
Theorem health_check_needs_mapping
    (TAVUS_API_KEY TAVUS_PERSONA_ID : option string) (root : val) (h : heap)
    (utcnow : datetime) (probe : option Z) (analytics_store : list event) :
  dict_of h root = None →
  (∀ l, root = VRef l → is_Some (h !! l)) →
  health_check TAVUS_API_KEY TAVUS_PERSONA_ID root h utcnow probe
    analytics_store = Raise AttributeError.
Proof.
  unfold dict_of, health_check, py_bool. intros Hnone Hlive.
  destruct root as [| | | | |l]; try done.
  destruct (Hlive l eq_refl) as [o Ho]. rewrite Ho in *.
  by destruct o.
Qed.

Lemma health_check_needs_mapping_sample :
  health_check (Some "key") (Some "persona") VNone ∅ 0 (Some 200%Z) []
  = Raise AttributeError.
Proof.
  apply (health_check_needs_mapping (Some "key") (Some "persona") VNone ∅ 0
           (Some 200%Z) []); [reflexivity|discriminate].
Defined.

Lemma py_keys_dict (h : heap) (x : val) (d : gmap string val) :
  dict_of h x = Some d → py_keys h x = Ok (map_to_list d).*1.
Proof.
  unfold dict_of, py_keys. destruct x as [| | | | |l]; try done.
  destruct (h !! l) as [[d'|]|]; try done. by intros [= ->].
Qed.

Lemma py_bool_dict (h : heap) (x : val) (d : gmap string val) :
  dict_of h x = Some d → py_bool h x = Ok (negb (size d =? 0)%nat).
Proof.
  unfold dict_of, py_bool. destruct x as [| | | | |l]; try done.
  destruct (h !! l) as [[d'|]|]; try done. by intros [= ->].
Qed.

Lemma elem_of_keys (d : gmap string val) (k : string) :
  k ∈ (map_to_list d).*1 ↔ is_Some (d !! k).
Proof.
  rewrite list_elem_of_fmap. split.
  - intros [[k' v] [-> Hin]]. apply elem_of_map_to_list in Hin. by exists v.
  - intros [v Hv]. exists (k, v). split; [done|].
    by apply elem_of_map_to_list.
Qed.

Lemma health_check_with_arcs
    (TAVUS_API_KEY TAVUS_PERSONA_ID : option string) (root : val) (h : heap)
    (utcnow : datetime) (probe : option Z) (analytics_store : list event)
    (d da : gmap string val) (arcs : val) :
  dict_of h root = Some d →
  d !! "arcs" = Some arcs → dict_of h arcs = Some da →
  ∃ r, health_check TAVUS_API_KEY TAVUS_PERSONA_ID root h utcnow probe
         analytics_store = Ok r ∧
       conversation_arcs_loaded (configuration r) = true ∧
       NoDup (arcs_available (configuration r)) ∧
       ∀ k, k ∈ arcs_available (configuration r) ↔ is_Some (da !! k).
Proof.
  intros Hd Harcs Hda. pose proof (py_bool_dict _ _ _ Hd) as Hloaded.
  unfold health_check. rewrite Hloaded, bind_Ok.
  unfold dict_of in Hd. destruct root as [| | | | |l]; try done.
  destruct (h !! l) as [[d'|]|]; try done. injection Hd as ->.
  rewrite Harcs, (py_keys_dict _ _ _ Hda), bind_Ok.
  eexists. split; [done|].
  cbn [configuration arcs_available conversation_arcs_loaded].
  split; [|split].
  - rewrite negb_true_iff, Nat.eqb_neq. intros Hsize.
    apply map_size_empty_iff in Hsize. by rewrite Hsize in Harcs.
  - apply NoDup_fst_map_to_list.
  - apply elem_of_keys.
Qed.

(** X21. On a catalog that is a mapping, the health check answers.
    Without an [arcs] entry it lists no arc; with one that is a mapping it
    lists exactly its keys, each once, and reports the catalog as
    loaded. *)
Theorem health_check_lists_arcs
    (TAVUS_API_KEY TAVUS_PERSONA_ID : option string) (root : val) (h : heap)
    (utcnow : datetime) (probe : option Z) (analytics_store : list event)
    (d : gmap string val) :
  dict_of h root = Some d →
  (d !! "arcs" = None →
   ∃ r, health_check TAVUS_API_KEY TAVUS_PERSONA_ID root h utcnow probe
          analytics_store = Ok r ∧
        arcs_available (configuration r) = [] ∧
        (conversation_arcs_loaded (configuration r) = false ↔ d = ∅)) ∧
  (∀ arcs da,
     d !! "arcs" = Some arcs → dict_of h arcs = Some da →
     ∃ r, health_check TAVUS_API_KEY TAVUS_PERSONA_ID root h utcnow probe
            analytics_store = Ok r ∧
          conversation_arcs_loaded (configuration r) = true ∧
          NoDup (arcs_available (configuration r)) ∧
          ∀ k, k ∈ arcs_available (configuration r) ↔ is_Some (da !! k)).
Proof.
  intros Hd. split; [|intros arcs da; by apply health_check_with_arcs].
  pose proof (py_bool_dict _ _ _ Hd) as Hloaded.
  unfold health_check. rewrite Hloaded, bind_Ok.
  unfold dict_of in Hd. destruct root as [| | | | |l]; try done.
  destruct (h !! l) as [[d'|]|]; try done. injection Hd as ->.
  intros Hnone. rewrite Hnone, bind_Ok. eexists. split; [done|].
  cbn [configuration arcs_available conversation_arcs_loaded].
  split; [done|]. rewrite negb_false_iff, Nat.eqb_eq.
  apply map_size_empty_iff.
Qed.

Lemma health_check_lists_arcs_sample :
  ∃ r, health_check (Some "key") None Sample.root Sample.store 0 None []
       = Ok r ∧
    conversation_arcs_loaded (configuration r) = true ∧
    NoDup (arcs_available (configuration r)) ∧
    "5min" ∈ arcs_available (configuration r) ∧
    "7min" ∉ arcs_available (configuration r).
Proof.
  destruct (health_check_lists_arcs (Some "key") None Sample.root Sample.store
              0 None []
              (list_to_map [("arcs", VRef 2); ("age_adaptations", VRef 3);
                            ("greeting_templates", VRef 4);
                            ("timing_guidelines", VRef 5)]) eq_refl)
    as [_ Harcs].
  destruct (Harcs (VRef 2) (list_to_map [("5min", VRef 10); ("10min", VRef 11)])
              eq_refl eq_refl) as (r & Hr & Hloaded & Hnodup & Hkeys).
  exists r. split; [exact Hr|]. split; [exact Hloaded|].
  split; [exact Hnodup|]. rewrite !Hkeys.
  split; [by exists (VRef 10)|by intros [v Hv]].
Defined.

(** ** The arc endpoint *)

Lemma get_conversation_arc_Ok (root : val) (h : heap) (duration : string)
    (a : ArcDetails) :
  get_conversation_arc root h duration = Ok a →
  duration ∈ ["5min"; "10min"] ∧ ad_duration a = duration ∧
  stored_arc root h duration = Ok (ad_arc a) ∧
  py_bool h (ad_arc a) = Ok true ∧
  stored_timing root h duration = Ok (ad_timing_guidelines a).
Proof.
  unfold get_conversation_arc, stored_arc, stored_timing.
  destruct (bool_decide (duration ∈ ["5min"; "10min"])) eqn:Hin; [|done].
  apply bool_decide_eq_true in Hin. cbn [negb].
  destruct (py_getitem h root "arcs") as [arcs|]; [|done]. rewrite !bind_Ok.
  destruct (py_get h arcs duration) as [arc|] eqn:Hget; [|done].
  rewrite bind_Ok.
  destruct (py_bool h arc) as [[]|] eqn:Hb; [|done|done].
  rewrite bind_Ok. cbn [negb].
  destruct (py_getitem h root "timing_guidelines") as [g|]; [|done].
  rewrite !bind_Ok.
  destruct (py_getitem h g duration) as [t|]; [|done]. rewrite bind_Ok.
  intros [= <-]. cbn [ad_duration ad_arc ad_timing_guidelines].
  repeat split; try done.
  unfold py_get in Hget. unfold py_getitem.
  destruct arcs as [| | | | |l]; try done.
  destruct (h !! l) as [[d|]|]; try done.
  destruct (d !! duration) as [v|]; simpl in Hget; injection Hget as <-;
    [done|]. done.
Qed.

Lemma py_bool_weaken (h h' : heap) (x : val) (b : bool) :
  h ⊆ h' → py_bool h x = Ok b → py_bool h' x = Ok b.
Proof.
  intros Hsub. unfold py_bool. destruct x as [| | | | |l]; try done.
  destruct (h !! l) as [o|] eqn:Hl; [|done].
  by rewrite (lookup_weaken _ _ _ _ Hl Hsub).
Qed.

Lemma stored_arc_get (root : val) (h : heap) (duration : string)
    (arc timing : val) :
  duration ∈ ["5min"; "10min"] →
  stored_arc root h duration = Ok arc → py_bool h arc = Ok true →
  stored_timing root h duration = Ok timing →
  get_conversation_arc root h duration
  = Ok {| ad_duration := duration; ad_arc := arc;
          ad_timing_guidelines := timing |}.
Proof.
  unfold get_conversation_arc, stored_arc, stored_timing.
  intros Hin Harc Hb Htiming. rewrite (bool_decide_eq_true_2 _ Hin).
  cbn [negb].
  destruct (py_getitem h root "arcs") as [arcs|]; [|done].
  rewrite bind_Ok in Harc. rewrite bind_Ok.
  assert (py_get h arcs duration = Ok arc) as ->.
  { unfold py_getitem in Harc. unfold py_get.
    destruct arcs as [| | | | |l]; try done.
    destruct (h !! l) as [[d|]|]; try done.
    destruct (d !! duration) as [v|]; [|done]. by injection Harc as <-. }
  rewrite bind_Ok, Hb, bind_Ok. cbn [negb].
  destruct (py_getitem h root "timing_guidelines") as [g|]; [|done].
  rewrite bind_Ok in Htiming. by rewrite bind_Ok, Htiming.
Qed.

(** X22. For a duration other than [5min] and [10min] the arc endpoint
    answers 400 without looking at the catalog: whatever the catalog is,
    and whether or not it has an arc under that key. *)
Theorem get_conversation_arc_invalid_duration (root : val) (h : heap)
    (duration : string) :
  duration ≠ "5min" → duration ≠ "10min" →
  ∃ detail,
    get_conversation_arc root h duration = Raise (HTTPException 400 detail) ∧
    status_of (HTTPException 400 detail) = 400%Z.
Proof.
  intros H5 H10. unfold get_conversation_arc.
  rewrite bool_decide_eq_false_2; [by eexists|].
  rewrite !elem_of_cons, elem_of_nil. tauto.
Qed.

(** The catalog has an arc under [7min]; the endpoint does not show it. *)
Lemma get_conversation_arc_invalid_duration_sample :
  let h : heap :=
    list_to_map [(1%positive, Sample.dict [("arcs", VRef 2)]);
                 (2%positive, Sample.dict [("7min", VRef 3)]);
                 (3%positive, Sample.dict [("name", VStr "Seven")])] in
  stored_arc (VRef 1) h "7min" = Ok (VRef 3) ∧
  ∃ detail,
    get_conversation_arc (VRef 1) h "7min"
    = Raise (HTTPException 400 detail) ∧
    status_of (HTTPException 400 detail) = 400%Z.
Proof.
  intros h. split; [reflexivity|].
  apply (get_conversation_arc_invalid_duration (VRef 1) h "7min");
    discriminate.
Defined.

(** X23. For a valid duration without an arc the endpoint answers 404;
    an arc that is [None] or an empty mapping counts as none. *)
Theorem get_conversation_arc_not_found (root : val) (h : heap)
    (duration : string) (arcs : val) (da : gmap string val) :
  duration ∈ ["5min"; "10min"] →
  py_getitem h root "arcs" = Ok arcs →
  dict_of h arcs = Some da →
  da !! duration = None ∨ da !! duration = Some VNone
  ∨ (∃ l, da !! duration = Some (VRef l) ∧ h !! l = Some (ODict ∅)) →
  ∃ detail,
    get_conversation_arc root h duration = Raise (HTTPException 404 detail) ∧
    status_of (HTTPException 404 detail) = 404%Z.
Proof.
  intros Hin Harcs Hda Hentry. unfold get_conversation_arc.
  rewrite (bool_decide_eq_true_2 _ Hin). cbn [negb].
  rewrite Harcs, bind_Ok.
  assert (∃ arc, py_get h arcs duration = Ok arc ∧ py_bool h arc = Ok false)
    as (arc & -> & Hb).
  { unfold dict_of in Hda. unfold py_get.
    destruct arcs as [| | | | |la]; try done.
    destruct (h !! la) as [[d|]|]; try done. injection Hda as ->.
    destruct Hentry as [->|[->|(l & -> & Hl)]]; eexists; (split; [done|]);
      try done.
    simpl. by rewrite Hl. }
  rewrite bind_Ok, Hb, bind_Ok. by eexists.
Qed.

Lemma get_conversation_arc_not_found_sample :
  let h : heap :=
    list_to_map [(1%positive, Sample.dict [("arcs", VRef 2)]);
                 (2%positive, Sample.dict [("5min", VRef 3)]);
                 (3%positive, ODict ∅)] in
  ∃ detail,
    get_conversation_arc (VRef 1) h "5min"
    = Raise (HTTPException 404 detail) ∧
    status_of (HTTPException 404 detail) = 404%Z.
Proof.
  intros h.
  apply (get_conversation_arc_not_found (VRef 1) h "5min" (VRef 2)
           (list_to_map [("5min", VRef 3)]));
    [apply elem_of_cons; by left|reflexivity|reflexivity|].
  right. right. by exists 3%positive.
Defined.

(** X24. The endpoint returns exactly when the duration is valid, the
    stored arc is there and is not empty, and the timing guideline of the
    duration is there; what it returns is the stored arc itself, not a
    copy, with that guideline. *)
Theorem get_conversation_arc_returns_stored (root : val) (h : heap)
    (duration : string) (a : ArcDetails) :
  get_conversation_arc root h duration = Ok a
  ↔ duration ∈ ["5min"; "10min"] ∧ ad_duration a = duration ∧
    stored_arc root h duration = Ok (ad_arc a) ∧
    py_bool h (ad_arc a) = Ok true ∧
    stored_timing root h duration = Ok (ad_timing_guidelines a).
Proof.
  split; [apply get_conversation_arc_Ok|].
  intros (Hin & Hduration & Harc & Hb & Htiming).
  rewrite (stored_arc_get _ _ _ _ _ Hin Harc Hb Htiming).
  destruct a. simpl in *. by subst.
Qed.

Lemma get_conversation_arc_returns_stored_sample :
  get_conversation_arc Sample.root Sample.store "10min"
  = Ok {| ad_duration := "10min"; ad_arc := VRef 11;
          ad_timing_guidelines := VRef 41 |}.
Proof.
  apply (get_conversation_arc_returns_stored Sample.root Sample.store "10min").
  split; [rewrite !elem_of_cons; auto|by vm_compute].
Defined.

(** X25. A call of [load_conversation_arc] does not change what the
    endpoint shows.  The arc shown is the stored one, another object than
    the copy the call returned, and the guideline shown is the [timing]
    entry of that copy. *)
Theorem get_conversation_arc_after_load (root : val) (duration : string)
    (age : Z) (h h' : heap) (copy : val) (a : ArcDetails) :
  get_conversation_arc root h duration = Ok a →
  load_conversation_arc root duration age h = (Ok copy, h') →
  get_conversation_arc root h' duration = Ok a ∧
  ad_arc a ≠ copy ∧
  dict_of h' (ad_arc a) = dict_of h (ad_arc a) ∧
  py_getitem h' copy "timing" = Ok (ad_timing_guidelines a).
Proof.
  intros (Hin & Hduration & Harc & Hb & Htiming)%get_conversation_arc_Ok Hload.
  pose proof (load_conversation_arc_extends root duration age h) as Hsub.
  rewrite Hload in Hsub. cbn [snd] in Hsub.
  destruct (load_conversation_arc_Ok _ _ _ _ _ _ Hload)
    as (l_cat & d & adaptation & timing & Hbase & Hd & -> & -> & _ & Ht).
  rewrite Harc in Hbase. injection Hbase as Hbase.
  split; [|split; [|split]].
  - rewrite (stored_arc_get root _ duration (ad_arc a)
               (ad_timing_guidelines a)); try done.
    + destruct a. simpl in *. by subst.
    + by eapply stored_arc_weaken.
    + by eapply py_bool_weaken.
    + by eapply stored_timing_weaken.
  - rewrite Hbase. intros [= ->].
    by rewrite fresh_lookup_None in Hd.
  - rewrite Hbase. unfold dict_of. rewrite Hd.
    by rewrite (lookup_weaken _ _ _ _ Hd Hsub).
  - rewrite <- (Ht _ Htiming). unfold py_getitem.
    by rewrite !lookup_insert_eq.
Qed.

Lemma get_conversation_arc_after_load_sample :
  let h' := (load_conversation_arc Sample.root "5min" 7 Sample.store).2 in
  let a := {| ad_duration := "5min"; ad_arc := VRef 10;
              ad_timing_guidelines := VRef 40 |} in
  get_conversation_arc Sample.root h' "5min" = Ok a ∧
  VRef 10 ≠ VRef 57 ∧
  dict_of h' (VRef 10) = dict_of Sample.store (VRef 10) ∧
  py_getitem h' (VRef 57) "timing" = Ok (VRef 40).
Proof.
  apply (get_conversation_arc_after_load Sample.root "5min" 7 Sample.store
           _ (VRef 57)
           {| ad_duration := "5min"; ad_arc := VRef 10;
              ad_timing_guidelines := VRef 40 |}); by vm_compute.
Defined.

(** X26. A duration the arc endpoint answers for is among the arcs the
    health check lists, and the health check then reports the catalog as
    loaded. *)
Theorem health_check_lists_served (TAVUS_API_KEY TAVUS_PERSONA_ID : option string)
    (root : val) (h : heap) (utcnow : datetime) (probe : option Z)
    (analytics_store : list event) (duration : string) (a : ArcDetails) :
  get_conversation_arc root h duration = Ok a →
  ∃ r, health_check TAVUS_API_KEY TAVUS_PERSONA_ID root h utcnow probe
         analytics_store = Ok r ∧
       duration ∈ arcs_available (configuration r) ∧
       conversation_arcs_loaded (configuration r) = true.
Proof.
  intros (_ & _ & Harc & Hb & _)%get_conversation_arc_Ok.
  unfold stored_arc in Harc.
  destruct (py_getitem h root "arcs") as [arcs|] eqn:Harcs; [|done].
  rewrite bind_Ok in Harc.
  unfold py_getitem in Harcs. destruct root as [| | | | |l]; try done.
  destruct (h !! l) as [[d|]|] eqn:Hl; try done.
  destruct (d !! "arcs") as [arcs'|] eqn:Hkey; [|done].
  injection Harcs as ->.
  unfold py_getitem in Harc. destruct arcs as [| | | | |la]; try done.
  destruct (h !! la) as [[da|]|] eqn:Hla; try done.
  destruct (da !! duration) as [arc|] eqn:Hentry; [|done].
  destruct (health_check_with_arcs TAVUS_API_KEY TAVUS_PERSONA_ID (VRef l) h
              utcnow probe analytics_store d da (VRef la))
    as (r & Hr & Hloaded & _ & Hkeys); [|done|..].
  { unfold dict_of. by rewrite Hl. }
  { unfold dict_of. by rewrite Hla. }
  exists r. split; [done|]. split; [|done]. apply Hkeys. by exists arc.
Qed.

Lemma health_check_lists_served_sample :
  ∃ r, health_check None None Sample.root Sample.store 0 None [] = Ok r ∧
       "10min" ∈ arcs_available (configuration r) ∧
       conversation_arcs_loaded (configuration r) = true.
Proof.
  apply (health_check_lists_served None None Sample.root Sample.store 0 None
           [] "10min"
           {| ad_duration := "10min"; ad_arc := VRef 11;
              ad_timing_guidelines := VRef 41 |}).
  by vm_compute.
Defined.

(** ** From a started call to the analytics *)

Section Counting.

Variable TAVUS_API_KEY TAVUS_PERSONA_ID : option string.
Variable CONVERSATION_ARCS : val.
Variable float_repr : float → string.
Variable container_repr : heap → loc → string.
Variable isoformat : datetime → string.

Local Abbreviation handler :=
  (start_santa_call TAVUS_API_KEY TAVUS_PERSONA_ID CONVERSATION_ARCS
     float_repr container_repr isoformat).

Lemma start_santa_call_task (h : heap) (draw : nat) (utcnow : datetime)
    (provider : Post → reply) (request : StartCallRequest)
    (response : StartCallResponse) :
  returned (handler h draw utcnow provider request) = Ok response →
  added_tasks (handler h draw utcnow provider request)
  = [ {| cd_conversation_id := JString (r_conversation_id response);
         cd_child_age := child_age request;
         cd_call_duration := call_duration request;
         cd_parent_email := parent_email request |} ].
Proof.
  unfold start_santa_call.
  destruct (negb (is_set TAVUS_API_KEY) || negb (is_set TAVUS_PERSONA_ID));
    [done|].
  destruct (generate_greeting _ _ _ _ _) as [greeting|]; [|done].
  destruct (load_conversation_arc _ _ _ _) as [[arc|] h']; [|done].
  destruct (create_system_prompt _ _ _ _ _ _ _ _) as [system_prompt|];
    [|done].
  destruct (provider _) as [|message|status_code text body]; [done|done|].
  destruct (negb (status_code =? 200)%Z); [done|].
  destruct body as [tavus_data|]; [|done].
  destruct (start_call_response _ _ _ _ _ _ _) as [[resp task]|] eqn:Hresp;
    [|done].
  simpl. intros [= ->].
  destruct (start_call_response_Ok _ _ _ _ _ _ _ _ Hresp)
    as (fields & id & conversation_url & expires_at & arc_name & n & _
        & _ & _ & _ & _ & [= -> ->]).
  done.
Qed.

(** X27. A start call that returned is counted once: when its task has
    run, the summary has one call more, one more under the duration of the
    request and one more under its age, and the same averages. *)
Theorem started_call_is_counted (h : heap) (draw : nat)
    (utcnow now later : datetime) (provider : Post → reply)
    (request : StartCallRequest) (response : StartCallResponse)
    (analytics_store : list event) (summary : AnalyticsResponse) :
  returned (handler h draw utcnow provider request) = Ok response →
  get_analytics now analytics_store = Ok summary →
  ∃ summary',
    get_analytics now
      (run_tasks later (added_tasks (handler h draw utcnow provider request))
                 [] analytics_store) = Ok summary' ∧
    total_calls summary' = S (total_calls summary) ∧
    calls_by_duration summary'
      = count_one (calls_by_duration summary) (call_duration request) ∧
    calls_by_age summary'
      = count_one (calls_by_age summary) (pretty (child_age request)) ∧
    average_duration_seconds summary' = average_duration_seconds summary ∧
    average_rating summary' = average_rating summary.
Proof.
  intros Hreturned. rewrite (start_santa_call_task _ _ _ _ _ _ Hreturned).
  unfold run_tasks. cbn [foldl]. rewrite !get_analytics_unfold.
  unfold track_call_started.
  rewrite started_of_app, completed_of_app. cbn [started_of completed_of omap
    list_omap]. rewrite app_nil_r.
  destruct (rounded_mean 1 _) as [d|]; [|done]. rewrite !bind_Ok.
  destruct (rounded_mean 2 _) as [g|]; [|done]. rewrite !bind_Ok.
  intros [= <-]. eexists. split; [reflexivity|].
  cbn [total_calls average_duration_seconds average_rating
       calls_by_duration calls_by_age].
  rewrite length_app, !foldl_app. cbn [foldl snd cd_call_duration cd_child_age].
  split; [simpl; lia|done].
Qed.

End Counting.

Lemma started_call_is_counted_sample :
  let provider := λ _ : Post,
    Response 200 "{}"
      (Some (JObject
               (<["conversation_id" := JString "c1"]>
                  (<["conversation_url" :=
                       JString "https://tavus.daily.co/c1"]> ∅)))) in
  let r := start_santa_call (Some "key") (Some "persona") Sample.root
             Sample.float_repr Sample.container_repr Sample.isoformat
             Sample.store 0 0 provider Sample.request in
  let log := [started 7 "5min"; completed 290 (Some 5%Z)] in
  ∃ summary summary',
    get_analytics 0 log = Ok summary ∧
    get_analytics 0 (run_tasks 1 (added_tasks r) [] log) = Ok summary' ∧
    total_calls summary' = S (total_calls summary) ∧
    calls_by_duration summary'
      = count_one (calls_by_duration summary)
                  (call_duration Sample.request) ∧
    calls_by_age summary'
      = count_one (calls_by_age summary)
                  (pretty (child_age Sample.request)) ∧
    average_duration_seconds summary' = average_duration_seconds summary ∧
    average_rating summary' = average_rating summary.
Proof.
  intros provider r log.
  destruct (returned r) as [response|e] eqn:Hr; [|by vm_compute in Hr].
  destruct (get_analytics 0 log) as [summary|e] eqn:Hs; [|by vm_compute in Hs].
  exists summary.
  destruct (started_call_is_counted (Some "key") (Some "persona") Sample.root
              Sample.float_repr Sample.container_repr Sample.isoformat
              Sample.store 0 0 0 1 provider Sample.request response log
              summary Hr Hs) as (summary' & Hs' & Hrest).
  exists summary'. split; [reflexivity|]. split; [exact Hs'|exact Hrest].
Defined.

(** ** What the provider answered *)

Section Answer.

Variable TAVUS_API_KEY TAVUS_PERSONA_ID : option string.
Variable CONVERSATION_ARCS : val.
Variable float_repr : float → string.
Variable container_repr : heap → loc → string.
Variable isoformat : datetime → string.

Local Abbreviation handler :=
  (start_santa_call TAVUS_API_KEY TAVUS_PERSONA_ID CONVERSATION_ARCS
     float_repr container_repr isoformat).

(** X28. An answer 200 of the provider is taken as it comes: a text that
    is not JSON raises [JSONDecodeError], JSON that is not an object
    raises [TypeError], an object without a conversation id or URL raises
    [KeyError], and an object in which the id, the URL or the expiry is
    not a string yields no response. *)
Theorem start_santa_call_answer_checked (h : heap) (draw : nat)
    (utcnow : datetime) (provider : Post → reply) (request : StartCallRequest)
    (call : Post) (text : string) (body : option json_value) :
  posts (handler h draw utcnow provider request) = [call] →
  provider call = Response 200 text body →
  (body = None →
   returned (handler h draw utcnow provider request)
   = Raise JSONDecodeError) ∧
  (∀ data, body = Some data → (∀ fields, data ≠ JObject fields) →
     returned (handler h draw utcnow provider request) = Raise TypeError) ∧
  (∀ fields, body = Some (JObject fields) →
     fields !! "conversation_id" = None
     ∨ fields !! "conversation_url" = None →
     returned (handler h draw utcnow provider request) = Raise KeyError) ∧
  (∀ fields, body = Some (JObject fields) →
     (∃ v, fields !! "conversation_id" = Some v ∧ ∀ s, v ≠ JString s)
     ∨ (∃ v, fields !! "conversation_url" = Some v ∧ ∀ s, v ≠ JString s)
     ∨ (∃ v, fields !! "expires_at" = Some v ∧ ∀ s, v ≠ JString s) →
     ∀ response,
       returned (handler h draw utcnow provider request) ≠ Ok response).
Proof.
  unfold start_santa_call.
  destruct (negb (is_set TAVUS_API_KEY) || negb (is_set TAVUS_PERSONA_ID));
    [done|].
  destruct (generate_greeting _ _ _ _ _) as [greeting|]; [|done].
  destruct (load_conversation_arc _ _ _ _) as [[arc|] h']; [|done].
  destruct (create_system_prompt _ _ _ _ _ _ _ _) as [system_prompt|];
    [|done].
  set (sent := tavus_request_of _ _ _ _).
  assert (posts (match provider sent with
                 | TimeoutException => _
                 | RequestError message => _
                 | Response status_code text' body' => _
                 end : run StartCallResponse) = [sent]) as ->.
  { destruct (provider sent) as [| |status_code text' body']; [done..|].
    destruct (negb (status_code =? 200)%Z); [done|].
    destruct body' as [data|]; [|done].
    by destruct (start_call_response _ _ _ _ _ _ _) as [[? ?]|]. }
  intros [= <-] ->. cbn [Z.eqb Pos.eqb negb].
  split; [by intros ->|]. split; [|split].
  - intros data -> Hother.
    destruct data as [| | | | | |fields]; try done. by destruct (Hother fields).
  - intros fields -> Hmissing. unfold start_call_response.
    cbn [json_getitem json_get].
    destruct (fields !! "conversation_id") as [v|]; [|done].
    destruct Hmissing as [Hnone|Hnone]; [done|by rewrite Hnone].
  - intros fields -> Hbad response.
    destruct (start_call_response _ _ _ _ _ _ _) as [[resp task]|] eqn:Hresp;
      [|done].
    destruct (start_call_response_Ok _ _ _ _ _ _ _ _ Hresp)
      as (fields' & cid & conversation_url & expires_at & arc_name & n
          & [= <-] & Hid & Hurl & Hexpires & _).
    exfalso.
    destruct Hbad as [(v & Hv & Hne)|[(v & Hv & Hne)|(v & Hv & Hne)]].
    + rewrite Hid in Hv. injection Hv as <-. by eapply Hne.
    + rewrite Hurl in Hv. injection Hv as <-. by eapply Hne.
    + rewrite Hv in Hexpires. cbn [default from_option] in Hexpires.
      by eapply Hne.
Qed.

End Answer.

(** The provider answers with a number for the conversation id. *)
Lemma start_santa_call_answer_checked_sample :
  let provider := λ _ : Post,
    Response 200 "{}"
      (Some (JObject
               (<["conversation_id" := JInt 7]>
                  (<["conversation_url" := JString "u1"]> ∅)))) in
  let r := start_santa_call (Some "key") (Some "persona") Sample.root
             Sample.float_repr Sample.container_repr Sample.isoformat
             Sample.store 0 0 provider Sample.request in
  returned r = Raise ValidationError ∧ added_tasks r = [] ∧
  ∀ response, returned r ≠ Ok response.
Proof.
  intros provider r.
  split; [by vm_compute|]. split; [by vm_compute|].
  assert (∃ call, posts r = [call]) as [call Hposts]
    by (eexists; vm_compute; reflexivity).
  refine (proj2 (proj2 (proj2
    (start_santa_call_answer_checked (Some "key") (Some "persona") Sample.root
       Sample.float_repr Sample.container_repr Sample.isoformat
       Sample.store 0 0 provider Sample.request call "{}" _ Hposts eq_refl)))
    _ eq_refl _).
  left. exists (JInt 7). split; [reflexivity|discriminate].
Defined.
